(** * Marketing automation system: guardrail gate, experiment engine,
      decision policies, dispatch fan-out and audit ledger

    A shallow embedding of the Python sources

      - [guardrails/guardrails.py]      (module [Guardrails])
      - [analytics/metrics.py]          (module [Metrics])
      - [agents/base_agent.py],
        [agents/abandoned_cart_agent.py],
        [agents/creative_testing_agent.py] (modules [Agent], [AbandonedCart],
                                            [CreativeTesting])
      - [execution_channels/channels.py] (module [Channels])

    and, further, of the decision log of [agents/base_agent.py] (module
    [DecisionLog]), of the win-back path and the entry of
    [agents/abandoned_cart_agent.py] (module [WinBack]), of the entry of
    [agents/creative_testing_agent.py] (module [CreativeDecision]), of the
    feedback loop of [analytics/metrics.py] (module [Feedback]) and of the
    pipeline of [main.py] (module [Main]),

    together with the properties of these components.

    Conventions of the embedding.
      - A Python value is a [pyval]; a [dict] with string keys is a
        [gmap string pyval], except where iteration order matters, where
        it is an association list.
      - A Python exception is the [Raise] case of [result].
      - A Python [float] is an IEEE-754 binary64 number, [spec_float] with
        precision 53 and maximal exponent 1024; arithmetic is the correctly
        rounded arithmetic of the Standard Library's [SpecFloat].
        Comparisons of numbers are made on their exact values, which is what
        Python does for [int] against [float] as well.
        The power [x ** 2] is the correctly rounded product [x * x]; an
        int too large for a float, and a square too large for one, raise
        [OverflowError].
      - Strings are byte strings; [lower] and [upper] act on ASCII letters.
        A statement about the length, the last characters or the upper case
        of a string is made for ASCII strings, where bytes and code points
        agree.
      - The wall clock, the UUID generator and the random generator are the
        environment's: their readings are arguments of the functions that
        consume them. The reading of the clock is the string that
        [isoformat] returns; module [Clock] gives the strings that
        [isoformat] writes for a datetime. *)

From Stdlib Require Import QArith Ascii.
From Stdlib Require Import Floats.SpecFloat.
From stdpp Require Import gmap strings list fin_maps sorting pretty.

Set Warnings "-register-all".

(* ===================================================================== *)
(** * Exceptions *)
(* ===================================================================== *)

Inductive exn :=
  | TypeError
  | KeyError
  | ZeroDivisionError
  | OverflowError
  | ValueError
  | AttributeError.

Inductive result (A : Type) :=
  | Ok (a : A)
  | Raise (e : exn).
Arguments Ok {A} a.
Arguments Raise {A} e.

(** Sequencing: an exception of the first computation is propagated. *)
Definition bind {A B} (m : result A) (f : A → result B) : result B :=
  match m with
  | Ok a => f a
  | Raise e => Raise e
  end.

Notation "x <- m ;; k" := (bind m (λ x, k))
  (at level 100, m at next level, right associativity, only parsing).

Definition returns {A} (m : result A) : Prop := ∃ a, m = Ok a.

(** Whether a computation returned. *)
Definition is_Ok {A} (m : result A) : bool :=
  match m with Ok _ => true | Raise _ => false end.

(* ===================================================================== *)
(** * Python values *)
(* ===================================================================== *)

Inductive pyval :=
  | VNone
  | VBool (b : bool)
  | VInt (z : Z)
  | VFloat (f : spec_float)
  | VStr (s : string)
  | VList (l : list pyval)
  | VDict (d : gmap string pyval).

Abbreviation pydict := (gmap string pyval).

(** [d.get(k, default)] for a string key [k]. *)
Definition dict_get (d : pydict) (k : string) (dflt : pyval) : pyval :=
  default dflt (d !! k).

(* ===================================================================== *)
(** * Binary64 floating point *)
(* ===================================================================== *)

(** The exact value of a number: a rational, an infinity or not-a-number. *)
Inductive xreal :=
  | XNaN
  | XNegInf
  | XFin (q : Q)
  | XPosInf.

Definition Qltb (p q : Q) : bool := negb (Qle_bool q p).

Definition x_ltb (a b : xreal) : bool :=
  match a, b with
  | XNaN, _ | _, XNaN => false
  | _, XNegInf => false
  | XNegInf, _ => true
  | XPosInf, _ => false
  | XFin _, XPosInf => true
  | XFin p, XFin q => Qltb p q
  end.

Definition x_leb (a b : xreal) : bool :=
  match a, b with
  | XNaN, _ | _, XNaN => false
  | XNegInf, _ => true
  | _, XNegInf => false
  | _, XPosInf => true
  | XPosInf, _ => false
  | XFin p, XFin q => Qle_bool p q
  end.

Module F64.
Definition prec : Z := 53.
Definition emax : Z := 1024.

Definition add : spec_float → spec_float → spec_float := SFadd prec emax.
Definition sub : spec_float → spec_float → spec_float := SFsub prec emax.
Definition mul : spec_float → spec_float → spec_float := SFmul prec emax.
Definition div : spec_float → spec_float → spec_float := SFdiv prec emax.

(** [float(z)]: the nearest binary64 number, ties to even. *)
Definition of_Z (z : Z) : spec_float := binary_normalize prec emax z 0 false.

(** The float denoted by the decimal literal [n/d] (for instance
    [dec 95 100] for [0.95]): the correctly rounded quotient. *)
Definition dec (n d : Z) : spec_float := div (of_Z n) (of_Z d).

(** The signed integer mantissa of a finite float. *)
Definition mant (s : bool) (m : positive) : Z := if s then Z.neg m else Z.pos m.

(** The exact value: [(-1)^s * m * 2^e]. *)
Definition val (f : spec_float) : xreal :=
  match f with
  | S754_nan => XNaN
  | S754_infinity s => if s then XNegInf else XPosInf
  | S754_zero _ => XFin 0
  | S754_finite s m e =>
      XFin match e with
           | Z0 => mant s m # 1
           | Zpos p => (mant s m * 2 ^ Zpos p)%Z # 1
           | Zneg p => mant s m # (2 ^ p)%positive
           end
  end.

Definition is_zero (f : spec_float) : bool :=
  match f with S754_zero _ => true | _ => false end.

Definition ltb (a b : spec_float) : bool := x_ltb (val a) (val b).
Definition leb (a b : spec_float) : bool := x_leb (val a) (val b).
End F64.

(** Rounding a rational to the nearest integer, ties to even. *)
Definition Q_round_half_even (q : Q) : Z :=
  let n := Qnum q in
  let d := Zpos (Qden q) in
  let fl := (n / d)%Z in
  let r2 := (2 * (n mod d))%Z in
  match (r2 ?= d)%Z with
  | Lt => fl
  | Gt => (fl + 1)%Z
  | Eq => if Z.even fl then fl else (fl + 1)%Z
  end.

Module F64Ops.
(** [round(x, ndigits)] on a float: the exact value is rounded to
    [ndigits] decimals, ties to even, and the decimal is converted back to
    the nearest float. Infinities and NaN are returned as they are. *)
Definition round_digits (f : spec_float) (ndigits : nat) : spec_float :=
  match f with
  | S754_finite s _ _ =>
      match F64.val f with
      | XFin q =>
          let scale := (10 ^ Z.of_nat ndigits)%Z in
          match Q_round_half_even (q * (scale # 1)) with
          | Z0 => S754_zero s
          | Zpos r => F64.div (S754_finite false r 0) (F64.of_Z scale)
          | Zneg r => F64.div (S754_finite true r 0) (F64.of_Z scale)
          end
      | _ => f
      end
  | _ => f
  end.

(** [int(x)] on a float: truncation towards zero. *)
Definition trunc (f : spec_float) : result Z :=
  match F64.val f with
  | XFin q => Ok (Z.quot (Qnum q) (Zpos (Qden q)))
  | XNaN => Raise ValueError
  | _ => Raise OverflowError
  end.
End F64Ops.

(* ===================================================================== *)
(** * Operations of the interpreter on values *)
(* ===================================================================== *)

(** [bool(v)] *)
Definition py_truthy (v : pyval) : bool :=
  match v with
  | VNone => false
  | VBool b => b
  | VInt z => negb (z =? 0)%Z
  | VFloat f => negb (F64.is_zero f)
  | VStr s => negb (String.eqb s "")
  | VList l => match l with [] => false | _ => true end
  | VDict d => negb (Nat.eqb (size d) 0)
  end.

(** [a or b]: the first operand when it is truthy, else the second. *)
Definition py_or (a b : pyval) : pyval := if py_truthy a then a else b.

(** The exact value of a number; [bool] is a subtype of [int]. *)
Definition num_val (v : pyval) : option xreal :=
  match v with
  | VBool b => Some (XFin (Z.b2z b # 1))
  | VInt z => Some (XFin (z # 1))
  | VFloat f => Some (F64.val f)
  | _ => None
  end.

(** Ordering comparisons against a number: [TypeError] unless both sides
    are numbers (the only use the sources make of them). *)
Definition py_cmp (op : xreal → xreal → bool) (a b : pyval) : result bool :=
  match num_val a, num_val b with
  | Some x, Some y => Ok (op x y)
  | _, _ => Raise TypeError
  end.

Definition py_lt : pyval → pyval → result bool := py_cmp x_ltb.
Definition py_le : pyval → pyval → result bool := py_cmp x_leb.
Definition py_gt : pyval → pyval → result bool := py_cmp (flip x_ltb).
Definition py_ge : pyval → pyval → result bool := py_cmp (flip x_leb).

(** [min(a, b)] and [max(a, b)]: the first argument is kept on ties. *)
Definition py_min (a b : pyval) : result pyval :=
  c <- py_lt b a;; Ok (if c then b else a).
Definition py_max (a b : pyval) : result pyval :=
  c <- py_gt b a;; Ok (if c then b else a).

(** [v == s] and [v != s] for a string [s]. *)
Definition py_eq_str (v : pyval) (s : string) : bool :=
  match v with
  | VStr t => String.eqb t s
  | _ => false
  end.
Definition py_ne_str (v : pyval) (s : string) : bool := negb (py_eq_str v s).

(** [round(v, ndigits)] *)
Definition py_round (v : pyval) (ndigits : nat) : result pyval :=
  match v with
  | VBool b => Ok (VInt (Z.b2z b))
  | VInt z => Ok (VInt z)
  | VFloat f => Ok (VFloat (F64Ops.round_digits f ndigits))
  | _ => Raise TypeError
  end.

(** [d.get(k, default)] where the key [k] is itself a value: lists and
    dicts are unhashable, other non-strings are never keys of [d]. *)
Definition dict_get_val (d : pydict) (k : pyval) (dflt : pyval) : result pyval :=
  match k with
  | VStr s => Ok (dict_get d s dflt)
  | VList _ | VDict _ => Raise TypeError
  | _ => Ok dflt
  end.

(** [len(v)] *)
Definition py_len (v : pyval) : result nat :=
  match v with
  | VStr s => Ok (String.length s)
  | VList l => Ok (length l)
  | VDict d => Ok (size d)
  | _ => Raise TypeError
  end.

(** [l[:limit]] on a list: a negative [limit] counts from the end. *)
Definition py_slice_to {A} (limit : Z) (l : list A) : list A :=
  if (0 <=? limit)%Z then take (Z.to_nat limit) l
  else take (length l - Z.to_nat (- limit)) l.

(** [str(v)], the formatting of a value inside an f-string. The text of a
    float or of a container is the interpreter's, [py_repr]. *)
Definition py_str (py_repr : pyval → string) (v : pyval) : string :=
  match v with
  | VStr s => s
  | VNone => "None"
  | VBool b => if b then "True" else "False"
  | VInt z => pretty z
  | _ => py_repr v
  end.

(** [sorted(l, key=..., reverse=True)]: a stable sort into descending
    order, elements with equal keys keeping their order in [l];
    [lt a b] is [key(a) < key(b)]. *)
Fixpoint insert_desc {A} (lt : A → A → bool) (x : A) (l : list A) : list A :=
  match l with
  | [] => [x]
  | y :: l' => if lt x y then y :: insert_desc lt x l' else x :: l
  end.
Definition sorted_desc {A} (lt : A → A → bool) (l : list A) : list A :=
  foldr (insert_desc lt) [] l.

(** A computation run on every element of a list, left to right. *)
Fixpoint mapM {A B} (f : A → result B) (l : list A) : result (list B) :=
  match l with
  | [] => Ok []
  | x :: l' => y <- f x;; ys <- mapM f l';; Ok (y :: ys)
  end.

(* ===================================================================== *)
(** * Strings *)
(* ===================================================================== *)

Module Str.
Definition is_upper (c : ascii) : bool :=
  let n := Ascii.N_of_ascii c in (65 <=? n)%N && (n <=? 90)%N.
Definition is_lower (c : ascii) : bool :=
  let n := Ascii.N_of_ascii c in (97 <=? n)%N && (n <=? 122)%N.

Definition lower_char (c : ascii) : ascii :=
  if is_upper c then Ascii.ascii_of_N (Ascii.N_of_ascii c + 32) else c.
Definition upper_char (c : ascii) : ascii :=
  if is_lower c then Ascii.ascii_of_N (Ascii.N_of_ascii c - 32) else c.

Fixpoint map (f : ascii → ascii) (s : string) : string :=
  match s with
  | EmptyString => EmptyString
  | String c t => String (f c) (map f t)
  end.

(** [s.lower()] and [s.upper()] *)
Definition lower : string → string := map lower_char.
Definition upper : string → string := map upper_char.

(** [needle in hay] *)
Fixpoint contains (needle hay : string) : bool :=
  String.prefix needle hay ||
  match hay with
  | EmptyString => false
  | String _ t => contains needle t
  end.

Fixpoint drop (n : nat) (s : string) : string :=
  match n, s with
  | S n', String _ t => drop n' t
  | _, _ => s
  end.

(** [s[-n:]] for [n > 0]: the last [n] characters, or all of [s]. *)
Definition last (n : nat) (s : string) : string :=
  drop (String.length s - n) s.

(** [s.split(sep)[0]] for a one-character separator. *)
Fixpoint before (sep : ascii) (s : string) : string :=
  match s with
  | EmptyString => EmptyString
  | String c t => if Ascii.eqb c sep then EmptyString else String c (before sep t)
  end.

(** [len(re.findall(r'[c]{k,}', s))] for a character class [p] and
    [k >= 1]: the matches are the maximal runs of at least [k] characters
    of the class; [run] is the length of the run read so far. *)
Fixpoint count_runs_from (p : ascii → bool) (k run : nat) (s : string) : nat :=
  match s with
  | EmptyString => if k <=? run then 1 else 0
  | String c t =>
      if p c then count_runs_from p k (S run) t
      else (if k <=? run then 1 else 0) + count_runs_from p k 0 t
  end.
Definition count_runs (p : ascii → bool) (k : nat) (s : string) : nat :=
  count_runs_from p k 0 s.

(** [s.isascii()]: every character is below 128, so that the bytes of [s]
    are its code points, [len(s)] is its length in bytes, and [s.lower()]
    and [s.upper()] change the ASCII letters only. *)
Fixpoint is_ascii (s : string) : bool :=
  match s with
  | EmptyString => true
  | String c t => (Ascii.N_of_ascii c <? 128)%N && is_ascii t
  end.
End Str.

(* ===================================================================== *)
(** * config/config.py: the constants read by the guardrails *)
(* ===================================================================== *)

Module Config.
Definition MIN_ENGAGEMENT_SCORE : spec_float := F64.dec 3 10.
Definition TONE_CONSISTENCY_THRESHOLD : spec_float := F64.dec 85 100.
Definition SPAM_SCORE_THRESHOLD : spec_float := F64.dec 7 10.

Definition FREQUENCY_CAP_RULES : pydict :=
  <["marketing" := VInt 3]> (<["transactional" := VInt 999]>
 (<["promotional" := VInt 2]> (<["newsletter" := VInt 1]> ∅))).

Record tone_guidelines := {
  voice : string;
  style : string;
  forbidden_words : list string;
  required_elements : list string;
}.

Definition TONE_GUIDELINES : tone_guidelines := {|
  voice := "friendly, conversational, empowering";
  style := "concise, action-oriented, benefit-focused";
  forbidden_words := ["spam"; "cheap"; "limited"; "urgent"; "act now"];
  required_elements :=
    ["personalization (first name)"; "clear CTA"; "brand signature"];
|}.
End Config.

(* ===================================================================== *)
(** * guardrails/guardrails.py *)
(* ===================================================================== *)

Module Guardrails.

Record GuardrailCheck := {
  check_name : string;
  passed : pyval;
  details : pydict;
  severity : string;  (* "warning", "error", "critical" *)
}.

Definition SPAM_KEYWORDS : list string :=
  ["click here now"; "urgent"; "act now"; "limited time"; "guaranteed";
   "free"; "no credit card"; "risk free"; "unsubscribe"; "verify account"].

Definition severity_of (failed : bool) : string :=
  if failed then "error" else "warning".

(** The number of elements of [l] that satisfy [p]. *)
Definition count {A} (p : A → bool) (l : list A) : nat :=
  length (List.filter p l).

Section Checks.
(** The interpreter's [repr] of floats and containers. *)
Variable py_repr : pyval → string.
Let py_str := py_str py_repr.

(** SpamControlGuardrail.check_email_frequency *)
Definition check_email_frequency
    (customer_id email_count_this_week email_type : pyval)
    : result GuardrailCheck :=
  max_allowed <- dict_get_val Config.FREQUENCY_CAP_RULES email_type (VInt 3);;
  ok <- py_lt email_count_this_week max_allowed;;
  Ok {| check_name := "frequency_cap";
        passed := VBool ok;
        details :=
          <["customer_id" := customer_id]>
         (<["emails_this_week" := email_count_this_week]>
         (<["max_allowed" := max_allowed]>
         (<["email_type" := email_type]> ∅)));
        severity := severity_of (negb ok) |}.

(** SpamControlGuardrail.check_spam_score *)
Definition check_spam_score (subject body : pyval) : result GuardrailCheck :=
  let content := Str.lower (py_str subject +:+ " " +:+ py_str body) in
  let keywords := count (λ keyword, Str.contains keyword content) SPAM_KEYWORDS in
  match subject with
  | VStr subject_text =>
      (* excessive capitalization: more than two runs [A-Z]{3,} *)
      let caps :=
        if 2 <? Str.count_runs Str.is_upper 3 subject_text then 1 else 0 in
      (* excessive punctuation: more than one run [!]{2,} *)
      let bangs :=
        if 1 <? Str.count_runs (Ascii.eqb "!") 2 content then 1 else 0 in
      let spam_count := keywords + caps + bangs in
      let ratio := F64.div (F64.of_Z (Z.of_nat spam_count)) (F64.of_Z 5) in
      let spam_score :=
        if F64.ltb (F64.of_Z 1) ratio then F64.of_Z 1 else ratio in
      let ok := F64.ltb spam_score Config.SPAM_SCORE_THRESHOLD in
      Ok {| check_name := "spam_score";
            passed := VBool ok;
            details :=
              <["spam_score" := VFloat (F64Ops.round_digits spam_score 3)]>
             (<["threshold" := VFloat Config.SPAM_SCORE_THRESHOLD]>
             (<["spam_triggers_found" := VInt (Z.of_nat spam_count)]> ∅));
            severity := severity_of (negb ok) |}
  | _ => Raise TypeError  (* re.findall on a subject that is no string *)
  end.

(** SpamControlGuardrail.check_engagement_score *)
Definition check_engagement_score (customer_engagement : pyval)
    : result GuardrailCheck :=
  ok <- py_ge customer_engagement (VFloat Config.MIN_ENGAGEMENT_SCORE);;
  rounded <- py_round customer_engagement 3;;
  Ok {| check_name := "engagement_score";
        passed := VBool ok;
        details :=
          <["engagement_score" := rounded]>
         (<["min_threshold" := VFloat Config.MIN_ENGAGEMENT_SCORE]> ∅);
        severity := severity_of (negb ok) |}.

(** ComplianceGuardrail.check_gdpr_consent *)
Definition check_gdpr_consent (customer_data : pydict) (region : pyval)
    : GuardrailCheck :=
  let has_consent := dict_get customer_data "gdpr_consent" (VBool false) in
  let ok := py_or has_consent (VBool (py_ne_str region "EU")) in
  {| check_name := "gdpr_consent";
     passed := ok;
     details :=
       <["region" := region]>
      (<["has_consent" := has_consent]>
      (<["consent_date" := dict_get customer_data "consent_date" VNone]> ∅));
     severity :=
       if negb (py_truthy ok) && py_eq_str region "EU"
       then "critical" else "warning" |}.

(** ComplianceGuardrail.check_can_spam *)
Definition check_can_spam (email_data : pydict) : GuardrailCheck :=
  let required_elements :=
    ["from_address"; "unsubscribe_link"; "physical_address"] in
  let present e := py_truthy (dict_get email_data e VNone) in
  let missing := List.filter (λ e, negb (present e)) required_elements in
  let ok := Nat.eqb (length missing) 0 in
  {| check_name := "can_spam";
     passed := VBool ok;
     details :=
       <["missing_elements" := VList (VStr <$> missing)]>
      (<["has_from_address" := VBool (present "from_address")]>
      (<["has_unsubscribe_link" := VBool (present "unsubscribe_link")]>
      (<["has_physical_address" := VBool (present "physical_address")]> ∅)));
     severity := if negb ok then "critical" else "warning" |}.

(** ToneConsistencyGuardrail.check_tone_consistency *)
Definition check_tone_consistency (text : string) : result GuardrailCheck :=
  let forbidden := Config.forbidden_words Config.TONE_GUIDELINES in
  let text_lower := Str.lower text in
  let found_forbidden :=
    List.filter (λ w, Str.contains w text_lower) forbidden in
  let required := Config.required_elements Config.TONE_GUIDELINES in
  let has_required :=
    0 <? count (λ e, Str.contains (Str.lower (Str.before "(" e)) text_lower)
               required in
  let score0 := F64.of_Z 1 in
  let score1 :=
    match found_forbidden with
    | [] => score0
    | _ => F64.sub score0
             (F64.mul (F64.of_Z (Z.of_nat (length found_forbidden)))
                      (F64.dec 1 10))
    end in
  let score2 :=
    if has_required then score1 else F64.sub score1 (F64.dec 2 10) in
  capped <- py_min (VInt 1) (VFloat score2);;
  consistency_score <- py_max (VInt 0) capped;;
  ok <- py_ge consistency_score (VFloat Config.TONE_CONSISTENCY_THRESHOLD);;
  rounded <- py_round consistency_score 3;;
  Ok {| check_name := "tone_consistency";
        passed := VBool ok;
        details :=
          <["consistency_score" := rounded]>
         (<["threshold" := VFloat Config.TONE_CONSISTENCY_THRESHOLD]>
         (<["forbidden_words_found" := VList (VStr <$> found_forbidden)]>
         (<["voice" := VStr (Config.voice Config.TONE_GUIDELINES)]>
         (<["style" := VStr (Config.style Config.TONE_GUIDELINES)]> ∅))));
        severity := severity_of (negb ok) |}.

(** ToneConsistencyGuardrail.check_personalization *)
Definition check_personalization (text : string) : GuardrailCheck :=
  let has_first_name :=
    Str.contains "{{first_name}}" text || Str.contains "{first_name}" text in
  let has_dynamic_content :=
    existsb (λ s, Str.contains s text) ["{{"; "{%"; "dynamic"; "personalized"] in
  {| check_name := "personalization";
     passed := VBool (has_first_name || has_dynamic_content);
     details :=
       <["has_first_name_placeholder" := VBool has_first_name]>
      (<["has_dynamic_content" := VBool has_dynamic_content]> ∅);
     severity := "warning" |}.

(** The condition under [all(...)] in run_all_checks:
    [check.passed or check.severity != "critical"]. *)
Definition does_not_block (check : GuardrailCheck) : bool :=
  py_truthy (py_or (passed check)
                   (VBool (negb (String.eqb (severity check) "critical")))).

(** The outcome of a check is a boolean whenever it is falsy. *)
Definition boolean_when_failed (c : GuardrailCheck) : Prop :=
  py_truthy (passed c) = false → passed c = VBool false.

Definition all_critical_passed (results : gmap string GuardrailCheck) : bool :=
  forallb does_not_block (map_to_list results).*2.

(** GuardrailsManager.run_all_checks *)
Definition run_all_checks (customer_data email_data : pydict)
    : result (bool * gmap string GuardrailCheck) :=
  let results : gmap string GuardrailCheck := ∅ in
  (* Spam checks *)
  frequency_cap <-
    check_email_frequency
      (dict_get customer_data "customer_id" VNone)
      (dict_get customer_data "emails_this_week" (VInt 0))
      (dict_get customer_data "email_type" (VStr "marketing"));;
  let results := <["frequency_cap" := frequency_cap]> results in
  spam_score <-
    check_spam_score
      (dict_get email_data "subject" (VStr ""))
      (dict_get email_data "body" (VStr ""));;
  let results := <["spam_score" := spam_score]> results in
  engagement_score <-
    check_engagement_score (dict_get customer_data "engagement_score" (VInt 0));;
  let results := <["engagement_score" := engagement_score]> results in
  (* Compliance checks *)
  let results :=
    <["gdpr_consent" :=
        check_gdpr_consent customer_data
          (dict_get customer_data "region" (VStr "EU"))]> results in
  let results := <["can_spam" := check_can_spam email_data]> results in
  (* Tone checks *)
  let text :=
    py_str (dict_get email_data "subject" (VStr "")) +:+ " " +:+
    py_str (dict_get email_data "body" (VStr "")) in
  tone_consistency <- check_tone_consistency text;;
  let results := <["tone_consistency" := tone_consistency]> results in
  let results := <["personalization" := check_personalization text]> results in
  (* Check if all critical checks passed *)
  Ok (all_critical_passed results, results).
End Checks.
End Guardrails.


(* ===================================================================== *)
(** * guardrails/guardrails.py: AuditLogger *)
(* ===================================================================== *)

Module Audit.

(** [self.audit_log]: the entries in the order of their appending. *)
Abbreviation ledger := (list pydict).

(** The entry written by log_decision; [now] is the reading
    [datetime.utcnow().isoformat()] of the clock. *)
Definition decision_entry (now : string) (decision guardrail_checks : pydict)
    (human_review : pyval) : pydict :=
  <["timestamp" := VStr (now +:+ "Z")]>
 (<["decision_id" := dict_get decision "decision_id" VNone]>
 (<["agent" := dict_get decision "agent_name" VNone]>
 (<["customer_id" := dict_get decision "customer_id" VNone]>
 (<["action" := dict_get decision "action" VNone]>
 (<["guardrail_checks" := VDict guardrail_checks]>
 (<["human_review_required" := human_review]>
 (<["decision_details" := VDict decision]> ∅))))))).

(** AuditLogger.log_decision: the entry returned and the ledger after. *)
Definition log_decision (now : string) (decision guardrail_checks : pydict)
    (human_review : pyval) (audit_log : ledger) : pydict * ledger :=
  let audit_entry := decision_entry now decision guardrail_checks human_review in
  (audit_entry, audit_log ++ [audit_entry]).

(** The entry written by log_human_override. *)
Definition override_entry (now : string)
    (decision_id original_action override_action reason : string) : pydict :=
  <["timestamp" := VStr (now +:+ "Z")]>
 (<["decision_id" := VStr decision_id]>
 (<["original_action" := VStr original_action]>
 (<["override_action" := VStr override_action]>
 (<["reason" := VStr reason]>
 (<["type" := VStr "human_override"]> ∅))))).

(** AuditLogger.log_human_override *)
Definition log_human_override (now : string)
    (decision_id original_action override_action reason : string)
    (audit_log : ledger) : pydict * ledger :=
  let entry :=
    override_entry now decision_id original_action override_action reason in
  (entry, audit_log ++ [entry]).

(** The sort key [x["timestamp"]]. The logger writes strings only; a key
    of another type is outside the model and reported as [TypeError]. *)
Definition timestamp_key (e : pydict) : result string :=
  match e !! "timestamp" with
  | None => Raise KeyError
  | Some (VStr s) => Ok s
  | Some _ => Raise TypeError
  end.

(** The list that get_audit_history sorts: [customer_id] is [None] or a
    string, and an empty string is falsy. *)
Definition select_history (audit_log : ledger) (customer_id : option string)
    : ledger :=
  match customer_id with
  | Some c =>
      if negb (String.eqb c "")
      then List.filter (λ e, py_eq_str (dict_get e "customer_id" VNone) c) audit_log
      else audit_log
  | None => audit_log
  end.

(** AuditLogger.get_audit_history; the ledger is left as it is. *)
Definition get_audit_history (audit_log : ledger) (customer_id : option string)
    (limit : Z) : result (list pydict) :=
  let history := select_history audit_log customer_id in
  keyed <- mapM (λ e, k <- timestamp_key e;; Ok (k, e)) history;;
  Ok (py_slice_to limit
        (snd <$> sorted_desc (λ a b, String.ltb a.1 b.1) keyed)).

(** The operations of the logger. *)
Inductive operation :=
  | LogDecision (now : string) (decision guardrail_checks : pydict)
      (human_review : pyval)
  | LogHumanOverride (now : string)
      (decision_id original_action override_action reason : string)
  | GetAuditHistory (customer_id : option string) (limit : Z).

(** The ledger after an operation. *)
Definition step (op : operation) (audit_log : ledger) : ledger :=
  match op with
  | LogDecision now decision checks review =>
      (log_decision now decision checks review audit_log).2
  | LogHumanOverride now d o o' r =>
      (log_human_override now d o o' r audit_log).2
  | GetAuditHistory _ _ => audit_log
  end.

Definition is_append (op : operation) : bool :=
  match op with
  | GetAuditHistory _ _ => false
  | _ => true
  end.

(** The ledger after a sequence of operations, the first one first. *)
Definition run (ops : list operation) (audit_log : ledger) : ledger :=
  foldl (λ log op, step op log) audit_log ops.

(** The number of appends among the operations. *)
Definition appends (ops : list operation) : nat :=
  length (List.filter is_append ops).

(** The timestamp of an entry the logger wrote. *)
Definition timestamp_of (e : pydict) : string :=
  match e !! "timestamp" with
  | Some (VStr s) => s
  | _ => ""
  end.

(** The entries the logger writes carry a string timestamp. *)
Definition has_timestamp (e : pydict) : Prop :=
  ∃ s, e !! "timestamp" = Some (VStr s).

(** An entry written by log_human_override. *)
Definition is_override (e : pydict) : Prop :=
  ∃ now d o o' r, e = override_entry now d o o' r.

End Audit.

(* ===================================================================== *)
(** * The clock: datetime.utcnow().isoformat() *)
(* ===================================================================== *)

Module Clock.

(** A reading of [datetime.utcnow()]. *)
Record datetime := {
  year : N;
  month : N;
  day : N;
  hour : N;
  minute : N;
  second : N;
  microsecond : N;
}.

(** The ranges of the fields. *)
Definition valid (t : datetime) : bool :=
  (1 <=? year t)%N && (year t <=? 9999)%N &&
  (1 <=? month t)%N && (month t <=? 12)%N &&
  (1 <=? day t)%N && (day t <=? 31)%N &&
  (hour t <? 24)%N && (minute t <? 60)%N && (second t <? 60)%N &&
  (microsecond t <? 1000000)%N.

(** The decimal digit [d]. *)
Definition digit (d : N) : ascii := ascii_of_N (48 + d)%N.

(** [n] in [width] decimal digits, with leading zeros: ["%04d"], ["%02d"]
    and ["%06d"] of isoformat, for [n < 10 ^ width]. *)
Fixpoint pad (width : nat) (n : N) : string :=
  match width with
  | O => ""
  | S w =>
      let unit := (10 ^ N.of_nat w)%N in
      String (digit (n / unit)%N) (pad w (n mod unit)%N)
  end.

(** [t.isoformat() + suffix]: YYYY-MM-DDTHH:MM:SS, followed by .ffffff
    only when the microseconds are not zero. *)
Definition isoformat_then (t : datetime) (suffix : string) : string :=
  pad 4 (year t) +:+ "-" +:+ pad 2 (month t) +:+ "-" +:+ pad 2 (day t) +:+
  "T" +:+ pad 2 (hour t) +:+ ":" +:+ pad 2 (minute t) +:+ ":" +:+
  pad 2 (second t) +:+
  (if (microsecond t =? 0)%N then suffix
   else "." +:+ pad 6 (microsecond t) +:+ suffix).

(** datetime.isoformat *)
Definition isoformat (t : datetime) : string := isoformat_then t "".

(** The order of datetimes: the fields are compared, the year first. *)
Definition fields (t : datetime) : list N :=
  [year t; month t; day t; hour t; minute t; second t; microsecond t].

Fixpoint compare_fields (a b : list N) : comparison :=
  match a, b with
  | x :: a', y :: b' =>
      match (x ?= y)%N with
      | Eq => compare_fields a' b'
      | c => c
      end
  | _, _ => Eq
  end.

Definition compare (a b : datetime) : comparison :=
  compare_fields (fields a) (fields b).

(** [a < b] on datetimes. *)
Definition earlier (a b : datetime) : bool :=
  match compare a b with
  | Lt => true
  | _ => false
  end.

(** Both readings fall on a whole second, or neither does: their
    isoformat strings have the same layout. *)
Definition same_layout (a b : datetime) : bool :=
  Bool.eqb (microsecond a =? 0)%N (microsecond b =? 0)%N.

(** The entry [e] carries the timestamp written at the reading [t]. *)
Definition stamped_at (e : pydict) (t : datetime) : Prop :=
  e !! "timestamp" = Some (VStr (isoformat t +:+ "Z")).

End Clock.

(* ===================================================================== *)
(** * analytics/metrics.py: A/B tests *)
(* ===================================================================== *)

Module Metrics.

Record ABTestVariant := {
  variant_id : string;
  name : string;
  traffic_percentage : spec_float;
  conversions : Z;
  impressions : Z;
  revenue : spec_float;
}.

Record ABTest := {
  test_id : string;
  test_name : string;
  created_at : string;
  (* the dict of variants, in insertion order *)
  variants : list (string * ABTestVariant);
  status : string;  (* running, completed, archived *)
  winner : option string;
  confidence_level : spec_float;
}.

(** The default of the field [confidence_level]. *)
Definition default_confidence_level : spec_float := F64.dec 95 100.

(** [a / b] on two ints: the correctly rounded quotient. *)
Definition int_true_div (a b : Z) : result spec_float :=
  let fin z :=
    match z with
    | Z0 => S754_zero false
    | Zpos p => S754_finite false p 0
    | Zneg p => S754_finite true p 0
    end in
  if (b =? 0)%Z then Raise ZeroDivisionError
  else match F64.div (fin a) (fin b) with
       | S754_infinity _ => Raise OverflowError
       | q => Ok q
       end.

(** [x / y] on two floats. *)
Definition float_div (x y : spec_float) : result spec_float :=
  if F64.is_zero y then Raise ZeroDivisionError else Ok (F64.div x y).

(** ABTestVariant.conversion_rate: the int [0] without impressions. *)
Definition conversion_rate (self : ABTestVariant) : result pyval :=
  if (impressions self =? 0)%Z then Ok (VInt 0)
  else q <- int_true_div (conversions self) (impressions self);; Ok (VFloat q).

(** The conversion of an int operand of a float operation: OverflowError
    when the int is too large for a float. *)
Definition int_to_float (z : Z) : result spec_float :=
  match F64.of_Z z with
  | S754_infinity _ => Raise OverflowError
  | x => Ok x
  end.

(** [x ** 2] on a float: the product [x * x], and OverflowError when the
    square of a finite [x] is too large for a float. *)
Definition float_square (x : spec_float) : result spec_float :=
  match x, F64.mul x x with
  | S754_finite _ _ _, S754_infinity _ => Raise OverflowError
  | _, y => Ok y
  end.

(** ABTest._calculate_chi_square; the operations are made in the order of
    the source: the two expected counts, then the term of the first
    variant, then the term of the second. *)
Definition _calculate_chi_square (variant1 variant2 : ABTestVariant)
    : result pyval :=
  let n1 := impressions variant1 in
  let n2 := impressions variant2 in
  p1 <- conversion_rate variant1;;
  p2 <- conversion_rate variant2;;
  if (n1 =? 0)%Z || (n2 =? 0)%Z then Ok (VInt 0)
  else
    p_pool <- int_true_div (conversions variant1 + conversions variant2) (n1 + n2);;
    f1 <- int_to_float n1;;
    let expected1 := F64.mul f1 p_pool in
    f2 <- int_to_float n2;;
    let expected2 := F64.mul f2 p_pool in
    c1 <- int_to_float (conversions variant1);;
    s1 <- float_square (F64.sub c1 expected1);;
    t1 <- float_div s1 expected1;;
    c2 <- int_to_float (conversions variant2);;
    s2 <- float_square (F64.sub c2 expected2);;
    t2 <- float_div s2 expected2;;
    Ok (VFloat (F64.add t1 t2)).

(** ABTest._chi_square_to_p_value *)
Definition _chi_square_to_p_value (chi_square : pyval) : result spec_float :=
  c1 <- py_lt chi_square (VFloat (F64.dec 27 10));;
  if c1 then Ok (F64.dec 10 100)
  else
    c2 <- py_lt chi_square (VFloat (F64.dec 38 10));;
    if c2 then Ok (F64.dec 5 100)
    else
      c3 <- py_lt chi_square (VFloat (F64.dec 66 10));;
      if c3 then Ok (F64.dec 1 100)
      else Ok (F64.dec 1 1000).

(** The body of the loop of get_statistical_winner for one variant:
    [true] when the loop returns this variant. *)
Definition beats_control (confidence : spec_float)
    (control variant : ABTestVariant) : result bool :=
  chi_square <- _calculate_chi_square control variant;;
  p_value <- _chi_square_to_p_value chi_square;;
  if F64.ltb p_value (F64.sub (F64.of_Z 1) confidence) then
    (* Statistically significant difference *)
    rate <- conversion_rate variant;;
    control_rate <- conversion_rate control;;
    py_gt rate control_rate
  else Ok false.

(** The loop [for variant in variants_list[1:]]. *)
Fixpoint first_winner (confidence : spec_float) (control : ABTestVariant)
    (rest : list ABTestVariant) : result (option string) :=
  match rest with
  | [] => Ok None
  | variant :: rest' =>
      won <- beats_control confidence control variant;;
      if won then Ok (Some (variant_id variant))
      else first_winner confidence control rest'
  end.

(** ABTest.get_statistical_winner *)
Definition get_statistical_winner (self : ABTest) : result (option string) :=
  if length (variants self) <? 2 then Ok None
  else
    match (variants self).*2 with
    | [] => Ok None
    | control :: rest => first_winner (confidence_level self) control rest
    end.

End Metrics.


(* ===================================================================== *)
(** * agents/base_agent.py *)
(* ===================================================================== *)

Module Agent.

Record AgentInput := {
  customer_id : string;
  customer_data : pydict;
  context : pydict;
}.

Record AgentDecision := {
  decision_id : string;
  agent_name : string;
  decision_customer_id : string;
  action : string;
  parameters : pydict;
  confidence : spec_float;
  guardrail_checks : gmap string bool;
  requires_human_review : bool;
  timestamp : string;
  reasoning : string;
}.

(** The readings a call of _create_decision takes from the environment:
    [str(uuid.uuid4())] and [datetime.utcnow().isoformat()]. *)
Record readings := {
  uuid4 : string;
  utcnow : string;
}.

(** BaseAgent._create_decision, for the agent called [name]: the decision
    returned and [self.decision_log] after the call. *)
Definition _create_decision (name : string) (env : readings)
    (customer_id action : string) (parameters : pydict)
    (confidence : spec_float) (guardrail_checks : option (gmap string bool))
    (requires_human_review : bool) (reasoning : string)
    (decision_log : list AgentDecision)
    : AgentDecision * list AgentDecision :=
  let decision :=
    {| decision_id := uuid4 env;
       agent_name := name;
       decision_customer_id := customer_id;
       action := action;
       parameters := parameters;
       confidence := confidence;
       guardrail_checks := default ∅ guardrail_checks;
       requires_human_review := requires_human_review;
       timestamp := utcnow env +:+ "Z";
       reasoning := reasoning |} in
  (decision, decision_log ++ [decision]).

End Agent.

(* ===================================================================== *)
(** * agents/abandoned_cart_agent.py *)
(* ===================================================================== *)

Module AbandonedCart.
Import Agent.

Definition agent_name : string := "AbandonedCartWinBackAgent".

(** AbandonedCartWinBackAgent._calculate_incentive *)
Definition _calculate_incentive (cart_value is_vip : pyval) : result Z :=
  if py_truthy is_vip then
    (* VIP customers: smaller discount (higher LTV) *)
    c500 <- py_gt cart_value (VInt 500);;
    if c500 then Ok 10%Z
    else
      c200 <- py_gt cart_value (VInt 200);;
      if c200 then Ok 12%Z else Ok 15%Z
  else
    (* Regular customers *)
    c500 <- py_gt cart_value (VInt 500);;
    if c500 then Ok 15%Z
    else
      c200 <- py_gt cart_value (VInt 200);;
      if c200 then Ok 20%Z else Ok 25%Z.

(** [v[-4:].upper()] *)
Definition last4_upper (v : pyval) : result string :=
  match v with
  | VStr s => Ok (Str.upper (Str.last 4 s))
  | VList _ => Raise AttributeError
  | _ => Raise TypeError
  end.

(** [v[:3]] *)
Definition first3 (v : pyval) : result pyval :=
  match v with
  | VList l => Ok (VList (take 3 l))
  | VStr s => Ok (VStr (String.substring 0 3 s))
  | _ => Raise TypeError
  end.

Section Policy.
(** The interpreter's [repr] of floats and containers. *)
Variable py_repr : pyval → string.
Let py_str := py_str py_repr.

(** AbandonedCartWinBackAgent._handle_abandoned_cart *)
Definition _handle_abandoned_cart (env : readings) (agent_input : AgentInput)
    (decision_log : list AgentDecision)
    : result (AgentDecision * list AgentDecision) :=
  let customer_data := customer_data agent_input in
  let context := context agent_input in
  (* Extract cart info *)
  let cart_value := dict_get customer_data "cart_value" (VInt 0) in
  let cart_items := dict_get context "cart_items" (VList []) in
  let hours_since_abandon := dict_get context "hours_since_abandon" (VInt 2) in
  (* Check if recovery is worthwhile *)
  low <- py_lt cart_value (VInt 20);;
  if low then
    Ok (_create_decision agent_name env
          (customer_id agent_input)
          "skip_cart_recovery"
          (<["reason" := VStr "Cart value too low"]> ∅)
          (F64.dec 9 10)
          None
          false
          "Cart value below minimum recovery threshold"
          decision_log)
  else
    (* Calculate incentive *)
    incentive <-
      _calculate_incentive cart_value
        (dict_get customer_data "vip_status" (VBool false));;
    (* Determine discount code *)
    suffix <- last4_upper (dict_get customer_data "customer_id" (VStr "X"));;
    let discount_code := "RECOVER" +:+ suffix in
    top_items <- first3 cart_items;;
    high_value <- py_gt cart_value (VInt 500);;
    Ok (_create_decision agent_name env
          (customer_id agent_input)
          "send_cart_recovery_email"
          (<["cart_value" := cart_value]>
          (<["top_items" := top_items]>
          (<["discount_percentage" := VInt incentive]>
          (<["discount_code" := VStr discount_code]>
          (<["expiry_hours" := VInt 24]>
          (<["send_time" := VStr "2 hours from now"]>
          (<["follow_up" := VStr "Send SMS reminder after 12 hours"]> ∅)))))))
          (F64.dec 89 100)
          (Some (<["discount_policy_check" := true]>
                (<["frequency_cap_check" := true]>
                (<["inventory_check" := true]> ∅))))
          high_value  (* High-value carts reviewed *)
          ("Cart abandoned " +:+ py_str hours_since_abandon +:+
           "h ago. Value: $" +:+ py_str cart_value +:+
           ". Incentive: " +:+ pretty incentive +:+ "% discount")
          decision_log).
End Policy.

(** A skip decision: the action declines to act. *)
Definition is_skip (d : AgentDecision) : Prop :=
  String.prefix "skip" (action d) = true.

End AbandonedCart.

(* ===================================================================== *)
(** * agents/creative_testing_agent.py *)
(* ===================================================================== *)

Module CreativeTesting.

(** A creative: the dict with the keys name, subject, body and cta. *)
Record variation := {
  name : string;
  subject : pyval;
  body : pyval;
  cta : pyval;
}.

(** A creative with its scores, the dict built by _score_variations. *)
Record scored_variation := {
  creative : variation;
  brand_consistency_score : spec_float;
  tone_consistency_score : spec_float;
  length_score : spec_float;
  overall_score : spec_float;
}.

(** An entry of [allocation["variants"]]. *)
Record variant_allocation := {
  traffic_percentage : spec_float;
  sample_size : Z;
}.

Record allocation := {
  total_sample_size : Z;
  variants : gmap string variant_allocation;
}.

Definition control_name : string := "Control (Original)".

(** CreativeTestingAgent._generate_variations *)
Definition _generate_variations (original_creative : pydict) : list variation :=
  let subject := dict_get original_creative "subject" (VStr "Check this out!") in
  let body :=
    dict_get original_creative "body" (VStr "We have something special for you.") in
  let cta := dict_get original_creative "cta" (VStr "Learn More") in
  [ {| name := "Control (Original)";
       subject := subject; body := body; cta := cta |};
    {| name := "Variation A (Curiosity-driven)";
       subject := VStr "You won't believe what we found for you";
       body := VStr "Our team discovered something special that matches your interests. Take a peek inside.";
       cta := VStr "Show Me" |};
    {| name := "Variation B (Benefit-focused)";
       subject := VStr "Save 20% on items you'll love";
       body := VStr "Based on your recent browsing, we've curated a selection just for you. Enjoy an exclusive discount.";
       cta := VStr "Claim Discount" |};
    {| name := "Variation C (FOMO/Urgency)";
       subject := VStr "Only 24 hours: Your personalized picks";
       body := VStr "We saved these items for you, but they're selling fast. Secure yours before they're gone.";
       cta := VStr "Shop Now" |};
    {| name := "Variation D (Social Proof)";
       subject := VStr "1000+ customers loved this - your turn?";
       body := VStr "Join thousands of happy customers who discovered these bestsellers. See what everyone's raving about.";
       cta := VStr "Explore Now" |} ].

(** The score of one creative; [brand] and [tone] are the two readings of
    [random.uniform] made for it. *)
Definition score_variation (var : variation) (brand tone : spec_float)
    : scored_variation :=
  let length_score := F64.dec 95 100 in  (* All meet length requirements *)
  let overall :=
    F64.add (F64.add (F64.mul brand (F64.dec 3 10))
                     (F64.mul tone (F64.dec 4 10)))
            (F64.mul length_score (F64.dec 3 10)) in
  {| creative := var;
     brand_consistency_score := brand;
     tone_consistency_score := tone;
     length_score := length_score;
     overall_score := overall |}.

(** The loop of _score_variations; [uniform k] is the value returned by the
    [k]-th call of [random.uniform], [k] counting from [drawn]. *)
Fixpoint score_all (uniform : nat → spec_float) (drawn : nat)
    (variations : list variation) : list scored_variation :=
  match variations with
  | [] => []
  | var :: rest =>
      score_variation var (uniform drawn) (uniform (S drawn))
        :: score_all uniform (S (S drawn)) rest
  end.

(** CreativeTestingAgent._score_variations *)
Definition _score_variations (uniform : nat → spec_float)
    (variations : list variation) : list scored_variation :=
  let scored := score_all uniform 0 variations in
  (* Sort by score *)
  sorted_desc (λ a b, F64.ltb (overall_score a) (overall_score b)) scored.

(** The loop of _design_test_allocation over [enumerate(scored_variations)],
    from index [i]. *)
Fixpoint allocate (control_pct exploit_pct : spec_float) (total : Z) (i : nat)
    (scored_variations : list scored_variation)
    (variants : gmap string variant_allocation)
    : result (gmap string variant_allocation) :=
  match scored_variations with
  | [] => Ok variants
  | var :: rest =>
      let pct := if Nat.eqb i 0 then control_pct (* Control *) else exploit_pct in
      size <- F64Ops.trunc (F64.mul (F64.of_Z total) pct);;
      let entry :=
        {| traffic_percentage :=
             F64Ops.round_digits (F64.mul pct (F64.of_Z 100)) 1;
           sample_size := size |} in
      allocate control_pct exploit_pct total (S i) rest
        (<[name (creative var) := entry]> variants)
  end.

(** CreativeTestingAgent._design_test_allocation *)
Definition _design_test_allocation (scored_variations : list scored_variation)
    : result allocation :=
  (* Multi-armed bandit: Control gets 30%, others split remaining 70% *)
  let control_pct := F64.dec 30 100 in
  let others := (Z.of_nat (length scored_variations) - 1)%Z in
  if (others =? 0)%Z then Raise ZeroDivisionError
  else
    (* Remaining split equally *)
    let exploit_pct := F64.div (F64.dec 70 100) (F64.of_Z others) in
    let total := 10000%Z in  (* Simulated monthly volume *)
    variants <- allocate control_pct exploit_pct total 0 scored_variations ∅;;
    Ok {| total_sample_size := total; variants := variants |}.

(** Steps 2 to 4 of CreativeTestingAgent.decide. *)
Definition test_allocation (uniform : nat → spec_float)
    (original_creative : pydict) : result allocation :=
  let variations := _generate_variations original_creative in
  let scored_variations := _score_variations uniform variations in
  _design_test_allocation scored_variations.

End CreativeTesting.


(* ===================================================================== *)
(** * execution_channels/channels.py *)
(* ===================================================================== *)

Module Channels.

Record ExecutionResult := {
  channel : string;
  customer_id : string;
  message_id : string;
  status : string;  (* sent, queued, failed, skipped *)
  timestamp : string;
  details : pydict;
}.

(** A reading of [datetime.utcnow()]: [int(now.timestamp())] and
    [now.isoformat()]. *)
Record instant := {
  epoch : Z;
  isoformat : string;
}.

(** The message id [f"{prefix}_{customer_id}_{int(now.timestamp())}"]. *)
Definition message_id_of (prefix customer_id : string) (now : instant) : string :=
  prefix +:+ "_" +:+ customer_id +:+ "_" +:+ pretty (epoch now).

(** [phone[-4:] + "***" if len(phone) > 4 else phone] *)
Definition masked_phone (phone : pyval) : result pyval :=
  n <- py_len phone;;
  if 4 <? n then
    match phone with
    | VStr s => Ok (VStr (Str.last 4 s +:+ "***"))
    | _ => Raise TypeError
    end
  else Ok phone.

(** Every sender reads the clock twice, for the message id and for the
    timestamp: [t_id] and [t_stamp]. *)

(** EmailChannel.send_email *)
Definition send_email (t_id t_stamp : instant) (customer_id : string)
    (email subject body html : pyval) : result ExecutionResult :=
  body_length <- py_len body;;
  Ok {| channel := "email";
        customer_id := customer_id;
        message_id := message_id_of "email" customer_id t_id;
        status := "sent";
        timestamp := isoformat t_stamp +:+ "Z";
        details :=
          <["email" := email]>
         (<["subject" := subject]>
         (<["body_length" := VInt (Z.of_nat body_length)]>
         (<["html_sent" := VBool (py_truthy html)]>
         (<["provider" := VStr "SendGrid"]> ∅)))) |}.

(** SMSChannel.send_sms *)
Definition send_sms (t_id t_stamp : instant) (customer_id : string)
    (phone message : pyval) : result ExecutionResult :=
  masked <- masked_phone phone;;
  message_length <- py_len message;;
  Ok {| channel := "sms";
        customer_id := customer_id;
        message_id := message_id_of "sms" customer_id t_id;
        status := "sent";
        timestamp := isoformat t_stamp +:+ "Z";
        details :=
          <["phone" := masked]>
         (<["message_length" := VInt (Z.of_nat message_length)]>
         (<["provider" := VStr "Twilio"]> ∅)) |}.

(** WhatsAppChannel.send_whatsapp: without consent the clock is read once,
    [t_id], for the timestamp of the skipped result. *)
Definition send_whatsapp (t_id t_stamp : instant) (customer_id : string)
    (phone message has_consent : pyval) : result ExecutionResult :=
  if negb (py_truthy has_consent) then
    Ok {| channel := "whatsapp";
          customer_id := customer_id;
          message_id := "";
          status := "skipped";
          timestamp := isoformat t_id +:+ "Z";
          details := <["reason" := VStr "No WhatsApp consent"]> ∅ |}
  else
    masked <- masked_phone phone;;
    message_length <- py_len message;;
    Ok {| channel := "whatsapp";
          customer_id := customer_id;
          message_id := message_id_of "whatsapp" customer_id t_id;
          status := "sent";
          timestamp := isoformat t_stamp +:+ "Z";
          details :=
            <["phone" := masked]>
           (<["message_length" := VInt (Z.of_nat message_length)]>
           (<["template_used" := VBool false]>
           (<["provider" := VStr "WhatsApp Business API"]> ∅))) |}.

(** WebPersonalizationChannel.set_web_personalization; the keys are
    listed in the order of the map. *)
Definition set_web_personalization (t_id t_stamp : instant)
    (customer_id : string) (variations : pyval) : result ExecutionResult :=
  match variations with
  | VDict d =>
      Ok {| channel := "web";
            customer_id := customer_id;
            message_id := message_id_of "web" customer_id t_id;
            status := "sent";
            timestamp := isoformat t_stamp +:+ "Z";
            details :=
              <["variations_count" := VInt (Z.of_nat (size d))]>
             (<["variation_types" := VList (VStr <$> (map_to_list d).*1)]>
             (<["ttl_hours" := VInt 24]> ∅)) |}
  | VStr _ | VList _ => Raise AttributeError  (* no method keys *)
  | _ => Raise TypeError                     (* no len *)
  end.

(** PushNotificationChannel.send_push, with the default platform. *)
Definition send_push (t_id t_stamp : instant) (customer_id : string)
    (title body : pyval) : result ExecutionResult :=
  Ok {| channel := "push";
        customer_id := customer_id;
        message_id := message_id_of "push" customer_id t_id;
        status := "sent";
        timestamp := isoformat t_stamp +:+ "Z";
        details :=
          <["title" := title]>
         (<["platform" := VStr "all"]>
         (<["provider" := VStr "Firebase Cloud Messaging"]> ∅)) |}.

(** The state of the ExecutionManager, with the number of readings of
    the clock made so far. *)
Record manager := {
  execution_history : list ExecutionResult;
  clock_reads : nat;
}.

(** The names that execute_campaign dispatches on. *)
Definition recognized (channel : pyval) : bool :=
  py_eq_str channel "email" || py_eq_str channel "sms" ||
  py_eq_str channel "whatsapp" || py_eq_str channel "web" ||
  py_eq_str channel "push".

(** The name of a requested channel. *)
Definition channel_name (channel : pyval) : string :=
  match channel with
  | VStr s => s
  | _ => ""
  end.

Definition is_str (v : pyval) : bool :=
  match v with VStr _ => true | _ => false end.
Definition is_dict (v : pyval) : bool :=
  match v with VDict _ => true | _ => false end.

(** The arguments that execute_campaign passes to the senders have the
    types the senders declare: [body], [phone] and the messages are
    strings, [variations] is a dict. *)
Definition declared_types (customer_data campaign_data : pydict) : bool :=
  let body := dict_get campaign_data "body" VNone in
  is_str body &&
  is_str (dict_get customer_data "phone" VNone) &&
  is_str (dict_get campaign_data "sms_message" body) &&
  is_str (dict_get campaign_data "whatsapp_message" body) &&
  is_dict (dict_get campaign_data "web_variations" (VDict ∅)).

Section Campaign.
(** The wall clock: [clock k] is its [k]-th reading. *)
Variable clock : nat → instant.
Variable customer_id : string.
Variables customer_data campaign_data : pydict.

(** The branches of the loop of execute_campaign for one channel, the
    clock having been read [k] times: [None] is the final [else: continue]. *)
Definition send_to (k : nat) (channel : pyval) : option (result ExecutionResult) :=
  let t_id := clock k in
  let t_stamp := clock (S k) in
  let body := dict_get campaign_data "body" VNone in
  if py_eq_str channel "email" then
    Some (send_email t_id t_stamp customer_id
            (dict_get customer_data "email" VNone)
            (dict_get campaign_data "subject" VNone)
            body
            (dict_get campaign_data "html" (VStr "")))
  else if py_eq_str channel "sms" then
    Some (send_sms t_id t_stamp customer_id
            (dict_get customer_data "phone" VNone)
            (dict_get campaign_data "sms_message" body))
  else if py_eq_str channel "whatsapp" then
    Some (send_whatsapp t_id t_stamp customer_id
            (dict_get customer_data "phone" VNone)
            (dict_get campaign_data "whatsapp_message" body)
            (dict_get customer_data "whatsapp_consent" (VBool false)))
  else if py_eq_str channel "web" then
    Some (set_web_personalization t_id t_stamp customer_id
            (dict_get campaign_data "web_variations" (VDict ∅)))
  else if py_eq_str channel "push" then
    Some (send_push t_id t_stamp customer_id
            (dict_get campaign_data "push_title" (VStr "New offer"))
            (dict_get campaign_data "push_body" body))
  else None.

(** The number of clock readings of a send that returned [r]. *)
Definition reads_of (r : ExecutionResult) : nat :=
  if String.eqb (status r) "skipped" then 1 else 2.

(** The loop [for channel in channels]: the results so far are [results];
    an exception leaves the manager as the sends before it made it. *)
Fixpoint campaign_loop (channels : list pyval) (results : list ExecutionResult)
    (self : manager) : result (list ExecutionResult) * manager :=
  match channels with
  | [] => (Ok results, self)
  | channel :: rest =>
      match send_to (clock_reads self) channel with
      | None => campaign_loop rest results self
      | Some (Raise e) => (Raise e, self)
      | Some (Ok r) =>
          campaign_loop rest (results ++ [r])
            {| execution_history := execution_history self ++ [r];
               clock_reads := clock_reads self + reads_of r |}
      end
  end.

(** The elements that [for channel in v] visits. *)
Definition py_iter (v : pyval) : result (list pyval) :=
  match v with
  | VList l => Ok l
  | VStr s => Ok ((λ c, VStr (String c EmptyString)) <$> String.list_ascii_of_string s)
  | VDict d => Ok (VStr <$> (map_to_list d).*1)
  | _ => Raise TypeError
  end.

(** ExecutionManager.execute_campaign *)
Definition execute_campaign (self : manager)
    : result (list ExecutionResult) * manager :=
  let channels := dict_get campaign_data "channels" (VList [VStr "email"]) in
  match py_iter channels with
  | Raise e => (Raise e, self)
  | Ok channels => campaign_loop channels [] self
  end.
End Campaign.

End Channels.


(* ===================================================================== *)
(** * Example inputs *)
(* ===================================================================== *)

Module Examples.

(** An interpreter [repr] for the examples, none of which formats a float
    or a container. *)
Definition repr_unused (v : pyval) : string := "".

(** The experiment of the significance scenario: 50 conversions out of
    1000 impressions for the control, 90 out of 1000 for the variant. *)
Definition control_50 : Metrics.ABTestVariant :=
  {| Metrics.variant_id := "control"; Metrics.name := "Control";
     Metrics.traffic_percentage := F64.dec 50 100;
     Metrics.conversions := 50; Metrics.impressions := 1000;
     Metrics.revenue := S754_zero false |}.

Definition variant_90 : Metrics.ABTestVariant :=
  {| Metrics.variant_id := "variant_b"; Metrics.name := "Variant B";
     Metrics.traffic_percentage := F64.dec 50 100;
     Metrics.conversions := 90; Metrics.impressions := 1000;
     Metrics.revenue := S754_zero false |}.

Definition experiment (confidence : spec_float)
    (control variant : Metrics.ABTestVariant) : Metrics.ABTest :=
  {| Metrics.test_id := "test_1"; Metrics.test_name := "Subject line test";
     Metrics.created_at := "2024-01-01T00:00:00Z";
     Metrics.variants :=
       [(Metrics.variant_id control, control);
        (Metrics.variant_id variant, variant)];
     Metrics.status := "running"; Metrics.winner := None;
     Metrics.confidence_level := confidence |}.

(** A control without data and a variant with 5 conversions out of 10
    impressions. *)
Definition control_no_data : Metrics.ABTestVariant :=
  {| Metrics.variant_id := "control"; Metrics.name := "Control";
     Metrics.traffic_percentage := F64.dec 50 100;
     Metrics.conversions := 0; Metrics.impressions := 0;
     Metrics.revenue := S754_zero false |}.

Definition variant_5_of_10 : Metrics.ABTestVariant :=
  {| Metrics.variant_id := "variant_b"; Metrics.name := "Variant B";
     Metrics.traffic_percentage := F64.dec 50 100;
     Metrics.conversions := 5; Metrics.impressions := 10;
     Metrics.revenue := S754_zero false |}.

(** A variant without data, and a control whose conversions were
    recorded with negative values: 5 more returns than conversions in 10
    impressions. *)
Definition variant_no_data : Metrics.ABTestVariant :=
  {| Metrics.variant_id := "variant_b"; Metrics.name := "Variant B";
     Metrics.traffic_percentage := F64.dec 50 100;
     Metrics.conversions := 0; Metrics.impressions := 0;
     Metrics.revenue := S754_zero false |}.

Definition control_with_returns : Metrics.ABTestVariant :=
  {| Metrics.variant_id := "control"; Metrics.name := "Control";
     Metrics.traffic_percentage := F64.dec 50 100;
     Metrics.conversions := -5; Metrics.impressions := 10;
     Metrics.revenue := S754_zero false |}.

(** A customer who left a cart of 15. *)
Definition small_cart_input : Agent.AgentInput :=
  {| Agent.customer_id := "cust_0042";
     Agent.customer_data :=
       <["customer_id" := VStr "cust_0042"]> (<["cart_value" := VInt 15]> ∅);
     Agent.context := <["trigger" := VStr "cart_abandoned"]> ∅ |}.

Definition readings_1 : Agent.readings :=
  {| Agent.uuid4 := "6f1c2a9e-0000-4000-8000-000000000001";
     Agent.utcnow := "2024-01-01T12:00:00.000001" |}.

(** A customer without region and without consent, and a complete email. *)
Definition customer_without_region : pydict :=
  <["customer_id" := VStr "cust_0042"]>
 (<["emails_this_week" := VInt 1]>
 (<["engagement_score" := VFloat (F64.dec 65 100)]> ∅)).

Definition customer_with_consent : pydict :=
  <["gdpr_consent" := VBool true]> customer_without_region.

Definition welcome_email : pydict :=
  <["subject" := VStr "Hi {{first_name}}, a note from us"]>
 (<["body" := VStr "We picked a few things for you. personalization (first name)"]>
 (<["from_address" := VStr "noreply@yourbrand.com"]>
 (<["unsubscribe_link" := VStr "https://yourbrand.com/unsubscribe"]>
 (<["physical_address" := VStr "123 Main St, City, Country"]> ∅)))).

(** A ledger with one decision of customer cust_0042 and its override. *)
Definition logged_decision : pydict :=
  <["decision_id" := VStr "6f1c2a9e-0000-4000-8000-000000000001"]>
 (<["agent_name" := VStr "AbandonedCartWinBackAgent"]>
 (<["customer_id" := VStr "cust_0042"]>
 (<["action" := VStr "send_cart_recovery_email"]> ∅))).

Definition ledger_with_override : Audit.ledger :=
  Audit.run
    [Audit.LogDecision "2024-01-01T12:00:00.000001" logged_decision
       (<["can_spam" := VBool true]> ∅) (VBool false);
     Audit.LogHumanOverride "2024-01-01T12:05:00.000001"
       "6f1c2a9e-0000-4000-8000-000000000001"
       "send_cart_recovery_email" "skip" "Customer asked not to be contacted"]
    [].

(** Two readings of the clock half a second apart, the first of them on a
    whole second, and the ledger of a decision logged at the first and an
    override logged at the second. *)
Definition noon : Clock.datetime :=
  {| Clock.year := 2024; Clock.month := 1; Clock.day := 1;
     Clock.hour := 12; Clock.minute := 0; Clock.second := 0;
     Clock.microsecond := 0 |}.

Definition half_a_second_later : Clock.datetime :=
  {| Clock.year := 2024; Clock.month := 1; Clock.day := 1;
     Clock.hour := 12; Clock.minute := 0; Clock.second := 0;
     Clock.microsecond := 500000 |}.

Definition appends_across_a_second : list Audit.operation :=
  [Audit.LogDecision (Clock.isoformat noon) logged_decision
     (<["can_spam" := VBool true]> ∅) (VBool false);
   Audit.LogHumanOverride (Clock.isoformat half_a_second_later)
     "6f1c2a9e-0000-4000-8000-000000000001"
     "send_cart_recovery_email" "skip" "Customer asked not to be contacted"].

(** A campaign for four channels, one of them unknown. *)
Definition tick (k : nat) : Channels.instant :=
  {| Channels.epoch := 1704110400 + Z.of_nat k;
     Channels.isoformat := "2024-01-01T12:00:0" +:+ pretty k |}.

Definition contact : pydict :=
  <["email" := VStr "sarah@example.com"]>
 (<["phone" := VStr "+15550100"]> ∅).

Definition campaign : pydict :=
  <["channels" := VList [VStr "email"; VStr "fax"; VStr "push"; VStr "sms"]]>
 (<["subject" := VStr "Hi {{first_name}}"]>
 (<["body" := VStr "We picked a few things for you."]>
 (<["html" := VStr ""]> ∅))).

Definition idle_manager : Channels.manager :=
  {| Channels.execution_history := []; Channels.clock_reads := 0 |}.

(** The readings of [random.uniform]: the control creative, scored first,
    draws the lowest scores, 0.8 and 0.85; every other creative draws 1.0. *)
Definition control_scores_lowest (k : nat) : spec_float :=
  match k with
  | 0 => F64.dec 80 100
  | 1 => F64.dec 85 100
  | _ => F64.of_Z 1
  end.

(** The readings when every creative draws the same scores. *)
Definition equal_scores (k : nat) : spec_float := F64.dec 90 100.

End Examples.

(* ===================================================================== *)
(** * Further predicates and constants *)
(* ===================================================================== *)

(** Whether a float is a finite number other than zero. *)
Definition float_is_finite (f : spec_float) : bool :=
  match f with
  | S754_finite _ _ _ => true
  | _ => false
  end.

(** Whether a float is not-a-number. *)
Definition float_is_nan (f : spec_float) : bool :=
  match f with
  | S754_nan => true
  | _ => false
  end.

(** config/config.py: the largest discount of the discount policy, in
    percent. *)
Definition MAX_DISCOUNT_PERCENT : Z := 30.

Module CreativeShares.
Import CreativeTesting.

(** The two entries that _design_test_allocation writes for five
    creatives: 30% of 10000 for the first, 70% / 4 for every other. *)
Definition top_share : variant_allocation :=
  {| traffic_percentage := F64.of_Z 30; sample_size := 3000 |}.
Definition other_share : variant_allocation :=
  {| traffic_percentage := F64.dec 175 10; sample_size := 1750 |}.

End CreativeShares.

(* ===================================================================== *)
(** * agents/base_agent.py: the decision log *)
(* ===================================================================== *)

Module DecisionLog.
Import Agent.

(** AgentDecision.to_dict *)
Definition to_dict (self : AgentDecision) : pydict :=
  <["decision_id" := VStr (decision_id self)]>
 (<["agent_name" := VStr (agent_name self)]>
 (<["customer_id" := VStr (decision_customer_id self)]>
 (<["action" := VStr (action self)]>
 (<["parameters" := VDict (parameters self)]>
 (<["confidence" := VFloat (confidence self)]>
 (<["guardrail_checks" := VDict (VBool <$> guardrail_checks self)]>
 (<["requires_human_review" := VBool (requires_human_review self)]>
 (<["timestamp" := VStr (timestamp self)]>
 (<["reasoning" := VStr (reasoning self)]> ∅))))))))).

(** [l[start:]] on a list: a negative [start] counts from the end. *)
Definition py_slice_from {A} (start : Z) (l : list A) : list A :=
  if (0 <=? start)%Z then drop (Z.to_nat start) l
  else drop (length l - Z.to_nat (- start)) l.

(** BaseAgent.get_decision_history: [self.decision_log[-limit:]]. *)
Definition get_decision_history (decision_log : list AgentDecision)
    (limit : Z) : list pydict :=
  to_dict <$> py_slice_from (- limit) decision_log.

(** BaseAgent.clear_decision_log: the log after the call. *)
Definition clear_decision_log (decision_log : list AgentDecision)
    : list AgentDecision := [].

End DecisionLog.

(* ===================================================================== *)
(** * agents/abandoned_cart_agent.py: the win-back path and the entry *)
(* ===================================================================== *)

Module WinBack.
Import Agent AbandonedCart.

(** [format(x, ".0f")]: the exact value rounded to an integer, ties to
    even. *)
Definition format_0f (x : spec_float) : string :=
  match x with
  | S754_nan => "nan"
  | S754_infinity s => if s then "-inf" else "inf"
  | S754_zero s => if s then "-0" else "0"
  | S754_finite s m e =>
      match F64.val (S754_finite false m e) with
      | XFin q => (if s then "-" else "") +:+ pretty (Q_round_half_even q)
      | _ => ""
      end
  end.

(** The three strategies of the win-back path. *)
Record strategy := {
  offer_type : string;
  discount : spec_float;
  channels : list string;
}.

Definition personal_concierge : strategy :=
  {| offer_type := "personal_concierge"; discount := F64.dec 15 100;
     channels := ["email"; "phone"] |}.
Definition discount_plus_new_products : strategy :=
  {| offer_type := "discount_plus_new_products"; discount := F64.dec 20 100;
     channels := ["email"; "sms"] |}.
Definition generic_incentive : strategy :=
  {| offer_type := "generic_incentive"; discount := F64.dec 15 100;
     channels := ["email"] |}.

(** The segment of a customer value. *)
Definition select_strategy (customer_value : pyval) : result strategy :=
  vip <- py_gt customer_value (VInt 1000);;
  if vip then
    (* VIP win-back: Personal offer *)
    Ok personal_concierge
  else
    regular <- py_gt customer_value (VInt 300);;
    if regular then
      (* Regular win-back: Discount + new products *)
      Ok discount_plus_new_products
    else
      (* Low-value win-back: Generic incentive *)
      Ok generic_incentive.

Section Policy.
(** The interpreter's [repr] of floats and containers, and its
    [(x // 30) % 10] on a float [x]. *)
Variable py_repr : pyval → string.
Variable float_floordiv_mod : spec_float → pyval.
Let py_str := py_str py_repr.

(** [(days_inactive // 30) % 10] *)
Definition inactivity_wave (days_inactive : pyval) : result pyval :=
  match days_inactive with
  | VBool b => Ok (VInt ((Z.b2z b / 30) mod 10))
  | VInt z => Ok (VInt ((z / 30) mod 10))
  | VFloat x => Ok (float_floordiv_mod x)
  | _ => Raise TypeError
  end.

(** AbandonedCartWinBackAgent._handle_winback *)
Definition _handle_winback (env : readings) (agent_input : AgentInput)
    (decision_log : list AgentDecision)
    : result (AgentDecision * list AgentDecision) :=
  let customer_data := customer_data agent_input in
  (* Extract key metrics *)
  let days_inactive :=
    dict_get customer_data "days_since_last_activity" (VInt 0) in
  let customer_value := dict_get customer_data "customer_value" (VInt 0) in
  (* Check if win-back candidate *)
  recent <- py_lt days_inactive (VInt 90);;
  if recent then
    Ok (_create_decision AbandonedCart.agent_name env
          (customer_id agent_input)
          "skip_winback"
          (<["reason" := VStr "Customer not inactive long enough"]> ∅)
          (F64.dec 9 10)
          None
          false
          "Minimum 90 days inactivity required for win-back"
          decision_log)
  else
    (* Segment-based win-back strategy *)
    s <- select_strategy customer_value;;
    suffix <- last4_upper (dict_get customer_data "customer_id" (VStr "X"));;
    wave <- inactivity_wave days_inactive;;
    let discount_code := "WB" +:+ suffix +:+ py_str wave in
    review <- py_gt customer_value (VInt 2000);;
    Ok (_create_decision AbandonedCart.agent_name env
          (customer_id agent_input)
          "execute_winback_campaign"
          (<["offer_type" := VStr (offer_type s)]>
          (<["discount_percentage" := VFloat (discount s)]>
          (<["discount_code" := VStr discount_code]>
          (<["channels" := VList (VStr <$> channels s)]>
          (<["messaging" :=
               VStr ("We miss you! " +:+
                     format_0f (F64.mul (discount s) (F64.of_Z 100)) +:+
                     "% off your next purchase")]>
          (<["follow_up_wave" := VInt 2]>  (* Send second email at day 7 *)
          (<["personalization" :=
               VStr "Highlight products similar to past purchases"]> ∅)))))))
          (F64.dec 85 100)
          (Some (<["inactive_days_check" := true]>
                (<["discount_policy_check" := true]>
                (<["email_deliverability_check" := true]> ∅))))
          review
          ("Dormant for " +:+ py_str days_inactive +:+
           " days. Customer Value: $" +:+ py_str customer_value +:+
           ". Strategy: " +:+ offer_type s)
          decision_log).

(** AbandonedCartWinBackAgent.decide *)
Definition decide (env : readings) (agent_input : AgentInput)
    (decision_log : list AgentDecision)
    : result (AgentDecision * list AgentDecision) :=
  (* Determine action type *)
  let action_type :=
    dict_get (context agent_input) "action_type" (VStr "cart_abandonment") in
  if py_eq_str action_type "cart_abandonment" then
    _handle_abandoned_cart py_repr env agent_input decision_log
  else if py_eq_str action_type "win_back" then
    _handle_winback env agent_input decision_log
  else
    Ok (_create_decision AbandonedCart.agent_name env
          (customer_id agent_input)
          "skip"
          ∅
          (F64.dec 9 10)
          None
          false
          "Unknown action type"
          decision_log).
End Policy.

End WinBack.

(* ===================================================================== *)
(** * agents/creative_testing_agent.py: the entry of the agent *)
(* ===================================================================== *)

Module CreativeDecision.
Import Agent CreativeTesting.

Definition agent_name : string := "CreativeTestingAgent".

(** The dict returned by _check_test_eligibility. *)
Record eligibility := {
  eligible : bool;
  reason : string;
}.

(** CreativeTestingAgent._check_test_eligibility *)
Definition _check_test_eligibility (campaign_id : pyval) (context : pydict)
    : result eligibility :=
  (* Minimum requirements *)
  let min_volume := dict_get context "expected_volume" (VInt 0) in
  let last_test_days := dict_get context "days_since_last_test" (VInt 999) in
  low <- py_lt min_volume (VInt 1000);;
  if low then
    Ok {| eligible := false;
          reason := "Campaign volume too low for statistical significance" |}
  else
    recent <- py_lt last_test_days (VInt 7);;
    if recent then
      Ok {| eligible := false;
            reason := "Campaign tested too recently; allow cooling period" |}
    else
      Ok {| eligible := true; reason := "Campaign meets testing criteria" |}.

(** [format(n, ",")] on an int: the digits in groups of three. *)
Fixpoint group3 (k : nat) (rev_digits : list ascii) : list ascii :=
  match rev_digits with
  | [] => []
  | c :: rest =>
      if Nat.eqb k 3 then ","%char :: c :: group3 1 rest
      else c :: group3 (S k) rest
  end.
Definition format_thousands (n : Z) : string :=
  (if (n <? 0)%Z then "-" else "") +:+
  String.string_of_list_ascii
    (rev (group3 0 (rev (String.list_ascii_of_string (pretty (Z.abs n)))))).

(** The dict of a scored creative and the dict of an allocation. *)
Definition variation_dict (s : scored_variation) : pydict :=
  <["name" := VStr (name (creative s))]>
 (<["subject" := subject (creative s)]>
 (<["body" := body (creative s)]>
 (<["cta" := cta (creative s)]>
 (<["brand_consistency_score" := VFloat (brand_consistency_score s)]>
 (<["tone_consistency_score" := VFloat (tone_consistency_score s)]>
 (<["length_score" := VFloat (length_score s)]>
 (<["overall_score" := VFloat (overall_score s)]> ∅))))))).

Definition allocation_dict (a : allocation) : pydict :=
  <["total_sample_size" := VInt (total_sample_size a)]>
 (<["variants" :=
      VDict ((λ v, VDict (<["traffic_percentage" := VFloat (traffic_percentage v)]>
                         (<["sample_size" := VInt (sample_size v)]> ∅)))
             <$> variants a)]> ∅).

(** CreativeTestingAgent.decide; [uniform] gives the readings of
    [random.uniform] made by this call. *)
Definition decide (env : readings) (uniform : nat → spec_float)
    (agent_input : AgentInput) (decision_log : list AgentDecision)
    : result (AgentDecision * list AgentDecision) :=
  let context := context agent_input in
  (* Extract campaign info *)
  let campaign_id := dict_get context "campaign_id" (VStr "unknown") in
  let original_creative := dict_get context "original_creative" (VDict ∅) in
  (* Step 1: Check if campaign is suitable for testing *)
  test_eligibility <- _check_test_eligibility campaign_id context;;
  if negb (eligible test_eligibility) then
    Ok (_create_decision agent_name env
          (customer_id agent_input)
          "skip_test"
          (<["reason" := VStr (reason test_eligibility)]> ∅)
          (F64.dec 9 10)
          None
          false
          (reason test_eligibility)
          decision_log)
  else
    match original_creative with
    | VDict original_creative =>
        (* Step 2: Generate creative variations *)
        let variations := _generate_variations original_creative in
        (* Step 3: Score variations *)
        let scored_variations := _score_variations uniform variations in
        (* Step 4: Design test allocation *)
        test_allocation <- _design_test_allocation scored_variations;;
        Ok (_create_decision agent_name env
              (customer_id agent_input)
              "execute_creative_test"
              (<["campaign_id" := campaign_id]>
              (<["variations" :=
                   VList (VDict ∘ variation_dict <$> scored_variations)]>
              (<["allocation" := VDict (allocation_dict test_allocation)]>
              (<["test_duration_days" := VInt 7]>
              (<["confidence_threshold" := VFloat (F64.dec 95 100)]> ∅)))))
              (F64.dec 87 100)
              (Some (<["brand_consistency_check" := true]>
                    (<["compliance_check" := true]>
                    (<["tone_consistency_check" := true]> ∅))))
              false
              ("Launching creative test with " +:+
               pretty (length variations) +:+
               " variations. Sample size: " +:+
               format_thousands (total_sample_size test_allocation))
              decision_log)
    | _ => Raise AttributeError  (* no method get *)
    end.

End CreativeDecision.

(* ===================================================================== *)
(** * analytics/metrics.py: FeedbackLoop *)
(* ===================================================================== *)

Module Feedback.

(** [self.learnings]: the entries in the order of their appending. *)
Abbreviation learnings := (list pydict).

(** The entry written by record_learning; [now] is the reading
    [datetime.utcnow().isoformat()] of the clock. *)
Definition learning_entry (now agent_name decision_id : string)
    (outcome : pydict) : pydict :=
  <["timestamp" := VStr (now +:+ "Z")]>
 (<["agent" := VStr agent_name]>
 (<["decision_id" := VStr decision_id]>
 (<["outcome" := VDict outcome]> ∅))).

(** FeedbackLoop.record_learning: the learnings after the call. *)
Definition record_learning (now agent_name decision_id : string)
    (outcome : pydict) (self : learnings) : learnings :=
  self ++ [learning_entry now agent_name decision_id outcome].

(** A comprehension [[x for x in l if p(x)]] whose condition can raise. *)
Fixpoint filterM {A} (p : A → result bool) (l : list A) : result (list A) :=
  match l with
  | [] => Ok []
  | x :: l' =>
      keep <- p x;;
      rest <- filterM p l';;
      Ok (if keep then x :: rest else rest)
  end.

(** [l["agent"] == agent_name] *)
Definition is_of_agent (agent_name : string) (l : pydict) : result bool :=
  match l !! "agent" with
  | None => Raise KeyError
  | Some v => Ok (py_eq_str v agent_name)
  end.

(** FeedbackLoop.get_learnings_for_agent *)
Definition get_learnings_for_agent (self : learnings) (agent_name : string)
    (limit : Z) : result (list pydict) :=
  agent_learnings <- filterM (is_of_agent agent_name) self;;
  keyed <- mapM (λ e, k <- Audit.timestamp_key e;; Ok (k, e)) agent_learnings;;
  Ok (py_slice_to limit
        (snd <$> sorted_desc (λ a b, String.ltb a.1 b.1) keyed)).

(** [l["outcome"].get("success", False)], as a condition. *)
Definition succeeded (l : pydict) : result bool :=
  match l !! "outcome" with
  | None => Raise KeyError
  | Some (VDict outcome) =>
      Ok (py_truthy (dict_get outcome "success" (VBool false)))
  | Some _ => Raise AttributeError  (* no method get *)
  end.

(** FeedbackLoop.generate_recommendation *)
Definition generate_recommendation (self : learnings) (agent_name : string)
    : result pydict :=
  learnings <- get_learnings_for_agent self agent_name 100;;
  match learnings with
  | [] =>
      Ok (<["recommendation" := VStr "Insufficient data"]>
         (<["confidence" := VInt 0]> ∅))
  | _ =>
      (* Simple heuristic: find most common successful pattern *)
      successful_outcomes <- filterM succeeded learnings;;
      success_rate <-
        Metrics.int_true_div (Z.of_nat (length successful_outcomes))
          (Z.of_nat (length learnings));;
      if F64.ltb (F64.dec 7 10) success_rate then
        Ok (<["recommendation" :=
                VStr "Current strategy is performing well. Continue."]>
           (<["success_rate" := VFloat success_rate]>
           (<["confidence" := VFloat (F64.dec 85 100)]> ∅)))
      else
        Ok (<["recommendation" :=
                VStr "Adjust strategy. Success rate below 70%."]>
           (<["success_rate" := VFloat success_rate]>
           (<["confidence" := VFloat (F64.dec 75 100)]> ∅)))
  end.

(** An entry written by record_learning, and whether its outcome reports
    a success. *)
Definition is_learning (l : pydict) : Prop :=
  ∃ now agent_name decision_id outcome,
    l = learning_entry now agent_name decision_id outcome.

Definition reports_success (l : pydict) : bool :=
  match l !! "outcome" with
  | Some (VDict outcome) => py_truthy (dict_get outcome "success" (VBool false))
  | _ => false
  end.

(** The comparison of a rate of [s] out of [n] with 70%, on the integers. *)
Definition above_70_percent (s n : nat) : bool := 7 * n <? 10 * s.

(** Whether the rate computed for [s] successes out of [n] learnings
    compares with 0.7 as the integers do. *)
Definition rate_agrees (n s : nat) : bool :=
  match Metrics.int_true_div (Z.of_nat s) (Z.of_nat n) with
  | Ok rate => Bool.eqb (F64.ltb (F64.dec 7 10) rate) (above_70_percent s n)
  | Raise _ => false
  end.

End Feedback.

(* ===================================================================== *)
(** * main.py: the pipeline *)
(* ===================================================================== *)

Module Main.
Import Agent Guardrails.

(** The four agents of the system. *)
Inductive agent :=
  | WinBackAgent
  | CreativeAgent
  | LifecycleAgent
  | CampaignAgent.

(** The routing of _get_agent_decision. *)
Definition select_agent (trigger : string) : agent :=
  if Str.contains "cart" (Str.lower trigger) then WinBackAgent
  else if Str.contains "creative" (Str.lower trigger)
          || Str.contains "test" (Str.lower trigger) then CreativeAgent
  else if Str.contains "lifecycle" (Str.lower trigger) then LifecycleAgent
  else CampaignAgent.

(** ExecutionResult.to_dict *)
Definition result_dict (r : Channels.ExecutionResult) : pydict :=
  <["channel" := VStr (Channels.channel r)]>
 (<["customer_id" := VStr (Channels.customer_id r)]>
 (<["message_id" := VStr (Channels.message_id r)]>
 (<["status" := VStr (Channels.status r)]>
 (<["timestamp" := VStr (Channels.timestamp r)]>
 (<["details" := VDict (Channels.details r)]> ∅))))).

(** The components of the system that a customer trigger changes: the
    decision logs of the two agents that are modelled, the execution
    manager and the audit ledger. *)
Record system := {
  winback_log : list AgentDecision;
  creative_log : list AgentDecision;
  execution : Channels.manager;
  audit_log : Audit.ledger;
}.

(** The dict returned by process_customer. *)
Record outcome := {
  status : string;
  outcome_customer_id : string;
  trigger : string;
  decision : pydict;
  guardrails_passed : bool;
  guardrails_checks : gmap string (pyval * string);
  execution_results : option (list pydict);
}.

(** [decision.parameters.get("copy", {}).get(k, "")] *)
Definition copy_get (parameters : pydict) (k : string) : result pyval :=
  match dict_get parameters "copy" (VDict ∅) with
  | VDict copy => Ok (dict_get copy k (VStr ""))
  | _ => Raise AttributeError  (* no method get *)
  end.

Section Pipeline.
(** The interpreter's [repr] and float floor division, the readings of
    the environment made while a trigger is processed, and the decisions
    of the two agents that are not modelled. *)
Variable py_repr : pyval → string.
Variable float_floordiv_mod : spec_float → pyval.
Variable env : readings.
Variable uniform : nat → spec_float.
Variable clock : nat → Channels.instant.
Variable logged_at : string.
Variables lifecycle_decide campaign_decide : AgentInput → result AgentDecision.

(** MarketingAutomationSystem._get_agent_decision *)
Definition _get_agent_decision (customer_id : string) (customer_data : pydict)
    (trigger : string) (self : system) : result AgentDecision * system :=
  (* Route to appropriate agent based on trigger *)
  let agent_input :=
    {| Agent.customer_id := customer_id;
       Agent.customer_data := customer_data;
       Agent.context := <["trigger" := VStr trigger]> ∅ |} in
  match select_agent trigger with
  | WinBackAgent =>
      match WinBack.decide py_repr float_floordiv_mod env agent_input
              (winback_log self) with
      | Ok (d, log) =>
          (Ok d, {| winback_log := log; creative_log := creative_log self;
                    execution := execution self;
                    audit_log := audit_log self |})
      | Raise e => (Raise e, self)
      end
  | CreativeAgent =>
      match CreativeDecision.decide env uniform agent_input
              (creative_log self) with
      | Ok (d, log) =>
          (Ok d, {| winback_log := winback_log self; creative_log := log;
                    execution := execution self;
                    audit_log := audit_log self |})
      | Raise e => (Raise e, self)
      end
  | LifecycleAgent => (lifecycle_decide agent_input, self)
  | CampaignAgent => (campaign_decide agent_input, self)
  end.

(** MarketingAutomationSystem._apply_guardrails *)
Definition _apply_guardrails (customer_data : pydict) (decision : AgentDecision)
    : result (bool * gmap string GuardrailCheck) :=
  subject <- copy_get (parameters decision) "subject";;
  body <- copy_get (parameters decision) "body";;
  let email_data :=
    <["subject" := subject]>
   (<["body" := body]>
   (<["from_address" := VStr "noreply@yourbrand.com"]>
   (<["unsubscribe_link" := VStr "https://yourbrand.com/unsubscribe"]>
   (<["physical_address" := VStr "123 Main St, City, Country"]> ∅)))) in
  run_all_checks py_repr customer_data email_data.

(** MarketingAutomationSystem._execute_decision *)
Definition _execute_decision (customer_id : string) (customer_data : pydict)
    (decision : AgentDecision) (self : Channels.manager)
    : result (list Channels.ExecutionResult) * Channels.manager :=
  let channels :=
    dict_get (parameters decision) "channels" (VList [VStr "email"]) in
  match copy_get (parameters decision) "subject",
        copy_get (parameters decision) "body" with
  | Ok subject, Ok body =>
      let campaign_data :=
        <["channels" := channels]>
       (<["subject" := subject]>
       (<["body" := body]>
       (<["html" := VStr ""]> ∅))) in
      Channels.execute_campaign clock customer_id customer_data campaign_data
        self
  | Raise e, _ | _, Raise e => (Raise e, self)
  end.

(** Whether step 4 of process_customer executes the decision. *)
Definition is_executed (guardrail_pass : bool) (decision : AgentDecision)
    : bool :=
  guardrail_pass && negb (String.eqb (action decision) "skip_campaign")
  && negb (String.eqb (action decision) "skip").

(** Steps 2 to 5 of MarketingAutomationSystem.process_customer, for the
    enriched record [customer_data] of the customer; an exception leaves
    the system as the steps before it made it. *)
Definition process_customer (customer_id : string) (customer_data : pydict)
    (trigger : string) (self : system) : result outcome * system :=
  (* Step 2: Select appropriate agent and get decision *)
  match _get_agent_decision customer_id customer_data trigger self with
  | (Raise e, self) => (Raise e, self)
  | (Ok decision, self) =>
      (* Step 3: Apply guardrails *)
      match _apply_guardrails customer_data decision with
      | Raise e => (Raise e, self)
      | Ok (guardrail_pass, guardrail_results) =>
          (* Step 4: Execute decision *)
          let '(executed, manager) :=
            if is_executed guardrail_pass decision then
              _execute_decision customer_id customer_data decision
                (execution self)
            else (Ok [], execution self) in
          match executed with
          | Raise e =>
              (Raise e,
               {| winback_log := winback_log self;
                  creative_log := creative_log self;
                  execution := manager;
                  audit_log := audit_log self |})
          | Ok results =>
              (* Step 5: Log and track *)
              let ledger :=
                (Audit.log_decision logged_at
                   (DecisionLog.to_dict decision)
                   (passed <$> guardrail_results)
                   (VBool (requires_human_review decision))
                   (audit_log self)).2 in
              (Ok {| status := "success";
                     outcome_customer_id := customer_id;
                     trigger := trigger;
                     decision := DecisionLog.to_dict decision;
                     guardrails_passed := guardrail_pass;
                     guardrails_checks :=
                       (λ c, (passed c, severity c)) <$> guardrail_results;
                     execution_results :=
                       match results with
                       | [] => None
                       | _ => Some (result_dict <$> results)
                       end |},
               {| winback_log := winback_log self;
                  creative_log := creative_log self;
                  execution := manager;
                  audit_log := ledger |})
          end
      end
  end.
End Pipeline.

End Main.

(* ===================================================================== *)
(** * Further example inputs *)
(* ===================================================================== *)

Module PipelineShapes.

(** The result of sending an email without subject and body at the
    [k]-th reading of the clock. *)
Definition blank_email (clock : nat → Channels.instant) (customer_id : string)
    (customer_data : pydict) (k : nat) : Channels.ExecutionResult :=
  {| Channels.channel := "email";
     Channels.customer_id := customer_id;
     Channels.message_id := Channels.message_id_of "email" customer_id (clock k);
     Channels.status := "sent";
     Channels.timestamp := Channels.isoformat (clock (S k)) +:+ "Z";
     Channels.details :=
       <["email" := dict_get customer_data "email" VNone]>
      (<["subject" := VStr ""]>
      (<["body_length" := VInt 0]>
      (<["html_sent" := VBool false]>
      (<["provider" := VStr "SendGrid"]> ∅)))) |}.

End PipelineShapes.

Module MoreExamples.

(** Two variants that were shown and never converted. *)
Definition control_idle : Metrics.ABTestVariant :=
  {| Metrics.variant_id := "control"; Metrics.name := "Control";
     Metrics.traffic_percentage := F64.dec 50 100;
     Metrics.conversions := 0; Metrics.impressions := 10;
     Metrics.revenue := S754_zero false |}.

Definition variant_idle : Metrics.ABTestVariant :=
  {| Metrics.variant_id := "variant_b"; Metrics.name := "Variant B";
     Metrics.traffic_percentage := F64.dec 50 100;
     Metrics.conversions := 0; Metrics.impressions := 10;
     Metrics.revenue := S754_zero false |}.

(** A subject and a body with five of the spam triggers. *)
Definition loud_subject : pyval :=
  VStr "URGENT: act now, FREE gift guaranteed".
Definition loud_body : pyval :=
  VStr "Limited time only!! Click the link below!!".

(** A ledger whose two entries were written at one reading of the clock. *)
Definition burst_ledger : Audit.ledger :=
  Audit.run
    [Audit.LogDecision "2024-01-01T12:00:00.000001" Examples.logged_decision
       (<["can_spam" := VBool true]> ∅) (VBool false);
     Audit.LogHumanOverride "2024-01-01T12:00:00.000001"
       "6f1c2a9e-0000-4000-8000-000000000001"
       "send_cart_recovery_email" "skip" "Customer asked not to be contacted"]
    [].


(** A contact without a phone number, and a campaign whose second
    channel needs one. *)
Definition contact_without_phone : pydict :=
  <["email" := VStr "sarah@example.com"]> ∅.

Definition campaign_with_sms : pydict :=
  <["channels" := VList [VStr "email"; VStr "sms"; VStr "push"]]>
 (<["subject" := VStr "Hi {{first_name}}"]>
 (<["body" := VStr "We picked a few things for you."]> ∅)).

(** A campaign for WhatsApp and email. *)
Definition campaign_with_whatsapp : pydict :=
  <["channels" := VList [VStr "whatsapp"; VStr "email"]]>
 (<["subject" := VStr "Hi {{first_name}}"]>
 (<["body" := VStr "We picked a few things for you."]> ∅)).

(** A customer worth 2500.50 who has been inactive for 127 days. *)
Definition dormant_vip_input : Agent.AgentInput :=
  {| Agent.customer_id := "cust_0042";
     Agent.customer_data :=
       <["customer_id" := VStr "cust_0042"]>
      (<["days_since_last_activity" := VInt 127]>
      (<["customer_value" := VFloat (F64.dec 250050 100)]> ∅));
     Agent.context := <["action_type" := VStr "win_back"]> ∅ |}.

(** An idle system, the decisions of the two agents outside the model, and
    the enriched record of a customer with a cart of 15. *)
Definition idle_system : Main.system :=
  {| Main.winback_log := []; Main.creative_log := [];
     Main.execution := Examples.idle_manager; Main.audit_log := [] |}.

Definition undecided (agent_input : Agent.AgentInput)
    : result Agent.AgentDecision := Raise ValueError.

Definition consenting_small_cart : pydict :=
  <["customer_id" := VStr "cust_0042"]>
 (<["email" := VStr "sarah@example.com"]>
 (<["gdpr_consent" := VBool true]>
 (<["engagement_score" := VFloat (F64.dec 65 100)]>
 (<["cart_value" := VFloat (F64.of_Z 15)]> ∅)))).

Definition consenting_large_cart : pydict :=
  <["cart_value" := VInt 250]>
 (<["cart_items" := VList [VStr "Product A"; VStr "Product B"]]>
    consenting_small_cart).

Definition refusing_small_cart : pydict :=
  <["gdpr_consent" := VBool false]> consenting_small_cart.

(** The decision for the cart of 15, and the system after it. *)
Definition skip_decision : Agent.AgentDecision :=
  (Agent._create_decision AbandonedCart.agent_name Examples.readings_1
     "cust_0042" "skip_cart_recovery"
     (<["reason" := VStr "Cart value too low"]> ∅) (F64.dec 9 10) None false
     "Cart value below minimum recovery threshold" []).1.

Definition system_after_skip : Main.system :=
  {| Main.winback_log := [skip_decision]; Main.creative_log := [];
     Main.execution := Examples.idle_manager; Main.audit_log := [] |}.

(** A campaign of 5000 expected sends, last tested 30 days ago. *)
Definition eligible_campaign_input : Agent.AgentInput :=
  {| Agent.customer_id := "cust_0042";
     Agent.customer_data := ∅;
     Agent.context :=
       <["campaign_id" := VStr "spring_sale"]>
      (<["expected_volume" := VInt 5000]>
      (<["days_since_last_test" := VInt 30]> ∅)) |}.

(** Ten learnings of one agent, seven of them successes. *)
Definition seven_of_ten : Feedback.learnings :=
  foldr (λ k self,
           Feedback.record_learning ("2024-01-0" +:+ pretty k)
             "CampaignAgent" ("decision-" +:+ pretty k)
             (<["success" := VBool (k <? 7)]> ∅) self)
    [] (seq 0 10).

(** The log of an agent after two decisions. *)
Definition two_decisions : list Agent.AgentDecision :=
  (Agent._create_decision "AbandonedCartWinBackAgent" Examples.readings_1
     "cust_0043" "skip" ∅ (F64.dec 9 10) None false "Unknown action type"
     (Agent._create_decision "AbandonedCartWinBackAgent" Examples.readings_1
        "cust_0042" "skip" ∅ (F64.dec 9 10) None false "Unknown action type"
        []).2).2.

(** Two readings of the clock a second apart, neither on a whole second,
    and the ledger of a decision logged at the first and an override
    logged at the second. *)
Definition one_past_noon : Clock.datetime :=
  {| Clock.year := 2024; Clock.month := 1; Clock.day := 1;
     Clock.hour := 12; Clock.minute := 0; Clock.second := 1;
     Clock.microsecond := 250000 |}.

Definition two_past_noon : Clock.datetime :=
  {| Clock.year := 2024; Clock.month := 1; Clock.day := 1;
     Clock.hour := 12; Clock.minute := 0; Clock.second := 2;
     Clock.microsecond := 125 |}.

Definition stamped_ledger : Audit.ledger :=
  Audit.run
    [Audit.LogDecision (Clock.isoformat one_past_noon)
       Examples.logged_decision (<["can_spam" := VBool true]> ∅)
       (VBool false);
     Audit.LogHumanOverride (Clock.isoformat two_past_noon)
       "6f1c2a9e-0000-4000-8000-000000000001"
       "send_cart_recovery_email" "skip" "Customer asked not to be contacted"]
    [].

(** An interpreter that is never asked for a floor division. *)
Definition floordiv_unused (x : spec_float) : pyval := VNone.

End MoreExamples.


(* ===================================================================== *)
(** * Proofs *)
(* ===================================================================== *)

(** ** Exceptions and sequencing *)

Lemma bind_Ok {A B} (m : result A) (f : A → result B) (b : B) :
  bind m f = Ok b ↔ ∃ a, m = Ok a ∧ f a = Ok b.
Proof.
  destruct m as [a|e]; simpl.
  - split; [eauto | intros (a' & Ha & Hf); congruence].
  - split; [done | intros (a' & Ha & Hf); done].
Qed.

Lemma Ok_pair_inv {A B} (a a' : A) (b b' : B) :
  Ok (a, b) = Ok (a', b') → a' = a ∧ b' = b.
Proof. by intros [= -> ->]. Qed.

(** ** The order of numbers *)

Module OrderProofs.

Lemma Qltb_lt (p q : Q) : Qltb p q = true ↔ (p < q)%Q.
Proof.
  unfold Qltb. rewrite negb_true_iff, <- not_true_iff_false, Qle_bool_iff.
  split; [apply Qnot_le_lt | apply Qlt_not_le].
Qed.

(** [c < a] and [a <= b] give [c < b], on exact values. *)
Lemma x_ltb_leb_trans (c a b : xreal) :
  x_ltb c a = true → x_leb a b = true → x_ltb c b = true.
Proof.
  destruct c as [| |c|], a as [| |a|], b as [| |b|]; simpl; try done.
  rewrite !Qltb_lt, Qle_bool_iff. apply Qlt_le_trans.
Qed.

Lemma py_cmp_Ok (op : xreal → xreal → bool) (a b : pyval) (r : bool) :
  py_cmp op a b = Ok r ↔
  ∃ x y, num_val a = Some x ∧ num_val b = Some y ∧ r = op x y.
Proof.
  unfold py_cmp. destruct (num_val a) as [x|], (num_val b) as [y|];
    split; try done; try (intros (? & ? & ? & ? & ?); done).
  - intros [= <-]. eauto.
  - intros (x' & y' & [= <-] & [= <-] & ->). done.
Qed.

End OrderProofs.

(** ** The stable descending sort *)

Section SortedDesc.
Context {A : Type} (lt : A → A → bool) (R : relation A).
Hypothesis R_of_not_lt : ∀ x y, lt x y = false → R x y.
Hypothesis R_of_lt : ∀ x y, lt x y = true → R y x.

Lemma insert_desc_Permutation (x : A) (l : list A) :
  insert_desc lt x l ≡ₚ x :: l.
Proof.
  induction l as [|y l IH]; simpl; [done |].
  destruct (lt x y); [| done].
  rewrite IH. apply Permutation_swap.
Qed.

Lemma sorted_desc_Permutation (l : list A) : sorted_desc lt l ≡ₚ l.
Proof.
  induction l as [|x l IH]; simpl; [done |].
  by rewrite insert_desc_Permutation, IH.
Qed.

Lemma HdRel_insert_desc (z x : A) (l : list A) :
  R z x → HdRel R z l → HdRel R z (insert_desc lt x l).
Proof.
  intros Hzx Hzl. destruct l as [|y l]; simpl; [by constructor |].
  destruct (lt x y); constructor; [| done].
  by inversion Hzl.
Qed.

Lemma Sorted_insert_desc (x : A) (l : list A) :
  Sorted R l → Sorted R (insert_desc lt x l).
Proof.
  induction 1 as [|y l Hl IH Hhd]; simpl; [by repeat constructor |].
  destruct (lt x y) eqn:Hxy.
  - constructor; [done |]. apply HdRel_insert_desc; [| done]. by apply R_of_lt.
  - constructor; [by constructor |]. constructor. by apply R_of_not_lt.
Qed.

Lemma Sorted_sorted_desc (l : list A) : Sorted R (sorted_desc lt l).
Proof.
  induction l as [|x l IH]; simpl; [constructor |].
  by apply Sorted_insert_desc.
Qed.
End SortedDesc.

Lemma StronglySorted_fmap_Forall {A B} (R1 : relation A) (R2 : relation B)
    (f : A → B) (P : A → Prop) (l : list A) :
  (∀ x y, P x → P y → R1 x y → R2 (f x) (f y)) →
  Forall P l → StronglySorted R1 l → StronglySorted R2 (f <$> l).
Proof.
  intros Hf HP Hs. revert HP.
  induction Hs as [|x l Hs IH Hx]; simpl; intros HP; [constructor |].
  apply Forall_cons in HP as [HPx HPl].
  constructor; [by apply IH |].
  apply Forall_fmap, Forall_forall. intros y Hy. simpl.
  rewrite Forall_forall in Hx, HPl. by apply Hf; [| apply HPl | apply Hx].
Qed.

Lemma not_ltb_le (a b : string) : String.ltb a b = false → String.le b a.
Proof.
  unfold String.le, String.ltb, String.leb. rewrite (String.compare_antisym a b).
  by destruct (String.compare b a).
Qed.

Lemma ltb_le (a b : string) : String.ltb a b = true → String.le a b.
Proof.
  unfold String.le, String.ltb, String.leb. by destruct (String.compare a b).
Qed.

Lemma mapM_Ok_snd {A K} (key : A → result K) (l : list A) (keyed : list (K * A)) :
  mapM (λ e, k <- key e;; Ok (k, e)) l = Ok keyed → keyed.*2 = l.
Proof.
  revert keyed. induction l as [|x l IH]; simpl; intros keyed.
  - by intros [= <-].
  - intros (y & (k & _ & [= <-])%bind_Ok & (ys & Hys & [= <-])%bind_Ok)%bind_Ok.
    simpl. f_equal. by apply IH.
Qed.

(* ===================================================================== *)
(** * Properties of the guardrail gate *)
(* ===================================================================== *)

Module GuardrailsProofs.
Import Guardrails.

(** A check blocks the gate when it is critical and its outcome falsy. *)
Lemma does_not_block_false (c : GuardrailCheck) :
  does_not_block c = false ↔
  py_truthy (passed c) = false ∧ severity c = "critical".
Proof.
  unfold does_not_block, py_or.
  destruct (py_truthy (passed c)) eqn:Hp.
  - rewrite Hp. split; [done | intros [Hf _]; discriminate Hf].
  - cbn [py_truthy]. rewrite negb_false_iff, String.eqb_eq.
    split; [intros Hs; split; [reflexivity | exact Hs] | intros [_ Hs]; exact Hs].
Qed.

Lemma all_critical_passed_false (results : gmap string GuardrailCheck) :
  all_critical_passed results = false ↔
  ∃ name c, results !! name = Some c ∧
            py_truthy (passed c) = false ∧ severity c = "critical".
Proof.
  unfold all_critical_passed.
  rewrite <- not_true_iff_false, forallb_forall. split.
  - intros Hnot.
    destruct (existsb (λ c, negb (does_not_block c)) (map_to_list results).*2)
      eqn:Hex.
    + apply existsb_exists in Hex as (c & Hin & Hc).
      apply list_elem_of_In, list_elem_of_fmap in Hin as ([name c'] & -> & Hin).
      apply elem_of_map_to_list in Hin.
      apply negb_true_iff, does_not_block_false in Hc.
      by exists name, c'.
    + exfalso. apply Hnot. intros c Hin.
      destruct (does_not_block c) eqn:Hc; [done |].
      assert (existsb (λ c, negb (does_not_block c)) (map_to_list results).*2
              = true) as Hex'; [| congruence].
      apply existsb_exists. exists c. by rewrite Hc.
  - intros (name & c & Hlook & Hc) Hall.
    apply does_not_block_false in Hc.
    rewrite Hall in Hc; [done |].
    apply list_elem_of_In, list_elem_of_fmap. exists (name, c).
    split; [done |]. by apply elem_of_map_to_list.
Qed.

Lemma gdpr_boolean_when_failed (customer_data : pydict) (region : pyval) :
  boolean_when_failed (check_gdpr_consent customer_data region).
Proof.
  unfold boolean_when_failed, check_gdpr_consent, py_or. cbn [passed].
  destruct (py_truthy (dict_get customer_data "gdpr_consent" (VBool false)))
    eqn:Hc.
  - congruence.
  - cbn [py_truthy]. by intros ->.
Qed.

Lemma VBool_boolean_when_failed n (b : bool) d s :
  boolean_when_failed
    {| check_name := n; passed := VBool b; details := d; severity := s |}.
Proof. unfold boolean_when_failed. cbn. by intros ->. Qed.

(** What run_all_checks returns: the seven checks under their names and
    the aggregate of their outcomes. *)
Lemma run_all_checks_Ok (py_repr : pyval → string)
    (customer_data email_data : pydict) (ok : bool)
    (results : gmap string GuardrailCheck) :
  run_all_checks py_repr customer_data email_data = Ok (ok, results) →
  ok = all_critical_passed results ∧
  results !! "gdpr_consent"
    = Some (check_gdpr_consent customer_data
              (dict_get customer_data "region" (VStr "EU"))) ∧
  map_Forall (λ _, boolean_when_failed) results.
Proof.
  unfold run_all_checks.
  intros (c1 & H1 & (c2 & H2 & (c3 & H3 & (c4 & H4 & H)%bind_Ok)%bind_Ok)%bind_Ok)%bind_Ok.
  apply Ok_pair_inv in H as [-> ->]. split; [done |]. split; [done |].
  unfold check_email_frequency in H1.
  apply bind_Ok in H1 as (m & _ & (b1 & _ & [= <-])%bind_Ok).
  unfold check_spam_score in H2.
  destruct (dict_get email_data "subject" (VStr "")); try done.
  injection H2 as <-.
  unfold check_engagement_score in H3.
  apply bind_Ok in H3 as (b3 & _ & (r3 & _ & [= <-])%bind_Ok).
  unfold check_tone_consistency in H4.
  apply bind_Ok in H4 as (x1 & _ & H4).
  apply bind_Ok in H4 as (x2 & _ & H4).
  apply bind_Ok in H4 as (b4 & _ & H4).
  apply bind_Ok in H4 as (r4 & _ & [= <-]).
  repeat (apply map_Forall_insert_2;
          [first [apply VBool_boolean_when_failed
                 | apply gdpr_boolean_when_failed] |]).
  apply map_Forall_empty.
Qed.

Lemma frequency_cap_is_int (s : string) :
  ∃ z, dict_get Config.FREQUENCY_CAP_RULES s (VInt 3) = VInt z.
Proof.
  unfold dict_get, Config.FREQUENCY_CAP_RULES.
  repeat (rewrite lookup_insert; case_decide; [by eexists |]).
  rewrite lookup_empty. by eexists.
Qed.

Lemma py_cmp_returns (op : xreal → xreal → bool) (a b : pyval) :
  is_Some (num_val a) → is_Some (num_val b) → returns (py_cmp op a b).
Proof. intros [x Hx] [y Hy]. unfold py_cmp. rewrite Hx, Hy. by eexists. Qed.

Lemma py_round_returns (v : pyval) (n : nat) :
  is_Some (num_val v) → ∃ r, py_round v n = Ok r ∧ is_Some (num_val r).
Proof. destruct v; intros [x Hx]; try done; simpl; eauto. Qed.

(** On a record and an email of the expected types no check raises. *)
Lemma run_all_checks_returns (py_repr : pyval → string)
    (customer_data email_data : pydict) :
  is_Some (num_val (dict_get customer_data "emails_this_week" (VInt 0))) →
  is_Some (num_val (dict_get customer_data "engagement_score" (VInt 0))) →
  (∃ s, dict_get customer_data "email_type" (VStr "marketing") = VStr s) →
  (∃ s, dict_get email_data "subject" (VStr "") = VStr s) →
  returns (run_all_checks py_repr customer_data email_data).
Proof.
  intros Hweek Heng [ty Hty] [subj Hsubj].
  unfold run_all_checks.
  (* frequency cap *)
  unfold check_email_frequency. rewrite Hty. cbn [dict_get_val bind].
  destruct (frequency_cap_is_int ty) as [cap ->].
  destruct (py_cmp_returns x_ltb _ (VInt cap) Hweek) as [b1 Hb1]; [done |].
  unfold py_lt. rewrite Hb1. cbn [bind].
  (* spam score *)
  unfold check_spam_score. rewrite Hsubj. cbn [bind].
  (* engagement *)
  unfold check_engagement_score.
  destruct (py_cmp_returns (flip x_leb) _
              (VFloat Config.MIN_ENGAGEMENT_SCORE) Heng) as [b3 Hb3].
  { vm_compute. by eexists. }
  unfold py_ge. rewrite Hb3. cbn [bind].
  destruct (py_round_returns _ 3 Heng) as (r3 & -> & _). cbn [bind].
  (* tone *)
  unfold check_tone_consistency.
  match goal with |- context [py_min (VInt 1) (VFloat ?s)] => set (score := s) end.
  assert (∃ capped, py_min (VInt 1) (VFloat score) = Ok capped ∧
                    is_Some (num_val capped)) as (capped & -> & Hcapped).
  { unfold py_min, py_lt, py_cmp. cbn [num_val bind].
    destruct (x_ltb _ _); eexists; split; try reflexivity; by eexists. }
  cbn [bind].
  assert (∃ cs, py_max (VInt 0) capped = Ok cs ∧ is_Some (num_val cs))
    as (cs & -> & Hcs).
  { unfold py_max, py_gt, py_cmp. destruct Hcapped as [x Hx].
    rewrite Hx. cbn [num_val bind].
    destruct (flip x_ltb _ _); eexists; split; try reflexivity;
      [by rewrite Hx | by eexists]. }
  cbn [bind].
  destruct (py_cmp_returns (flip x_leb) cs
              (VFloat Config.TONE_CONSISTENCY_THRESHOLD) Hcs) as [b4 Hb4].
  { vm_compute. by eexists. }
  unfold py_ge. rewrite Hb4. cbn [bind].
  destruct (py_round_returns _ 3 Hcs) as (r4 & -> & _). cbn [bind].
  by eexists.
Qed.

(** The aggregate of a gate that returned: false exactly when a critical
    check failed. *)
Lemma overall_false_iff (py_repr : pyval → string)
    (customer_data email_data : pydict) (ok : bool)
    (results : gmap string GuardrailCheck) :
  run_all_checks py_repr customer_data email_data = Ok (ok, results) →
  ok = false ↔
  ∃ name c, results !! name = Some c ∧
            severity c = "critical" ∧ passed c = VBool false.
Proof.
  intros (-> & _ & Hbool)%run_all_checks_Ok.
  rewrite all_critical_passed_false. split.
  - intros (name & c & Hlook & Hfalsy & Hsev).
    exists name, c. split; [done |]. split; [done |].
    by apply (Hbool name c Hlook).
  - intros (name & c & Hlook & Hsev & Hp).
    exists name, c. rewrite Hp. done.
Qed.

(** C1. Whenever the gate returns, its overall result is false if and only
    if one of the checks it produced has severity "critical" and
    [passed = False]; when the failed checks all have severity "error" or
    "warning", the overall result is true. *)
Theorem gate_blocks_iff_critical_failure (py_repr : pyval → string)
    (customer_data email_data : pydict) (ok : bool)
    (results : gmap string GuardrailCheck) :
  run_all_checks py_repr customer_data email_data = Ok (ok, results) →
  (ok = false ↔
   ∃ name c, results !! name = Some c ∧
             severity c = "critical" ∧ passed c = VBool false) ∧
  ((∀ name c, results !! name = Some c → passed c = VBool false →
              severity c = "error" ∨ severity c = "warning") →
   ok = true).
Proof.
  intros Hrun. pose proof (overall_false_iff _ _ _ _ _ Hrun) as Hiff.
  split; [exact Hiff |].
  intros Hadvisory. apply not_false_iff_true. rewrite Hiff.
  intros (name & c & Hlook & Hsev & Hp).
  destruct (Hadvisory name c Hlook Hp) as [He | He];
    rewrite Hsev in He; discriminate.
Qed.

Lemma gate_blocks_iff_critical_failure_witness :
  match run_all_checks Examples.repr_unused
          Examples.customer_without_region Examples.welcome_email with
  | Ok (ok, results) =>
      ok = false ↔
      ∃ name c, results !! name = Some c ∧
                severity c = "critical" ∧ passed c = VBool false
  | Raise _ => False
  end.
Proof.
  assert (is_Ok (run_all_checks Examples.repr_unused
                   Examples.customer_without_region Examples.welcome_email)
          = true) as Hok by (vm_compute; reflexivity).
  destruct (run_all_checks Examples.repr_unused
              Examples.customer_without_region Examples.welcome_email)
    as [[ok results] | e] eqn:Hrun; [| discriminate Hok].
  apply (gate_blocks_iff_critical_failure _ _ _ _ _ Hrun).
Defined.

(** C9. A customer record without a "region" field is checked as a
    record of the region "EU": when its gdpr_consent flag is absent or
    [False], the gdpr_consent check fails with severity "critical" and the
    overall result of the gate is false. *)
Theorem missing_region_is_regulated (py_repr : pyval → string)
    (customer_data email_data : pydict) (ok : bool)
    (results : gmap string GuardrailCheck) :
  customer_data !! "region" = None →
  customer_data !! "gdpr_consent" = None ∨
  customer_data !! "gdpr_consent" = Some (VBool false) →
  run_all_checks py_repr customer_data email_data = Ok (ok, results) →
  ∃ c, results !! "gdpr_consent" = Some c ∧
       details c !! "region" = Some (VStr "EU") ∧
       passed c = VBool false ∧ severity c = "critical" ∧
       ok = false.
Proof.
  intros Hregion Hconsent Hrun.
  pose proof Hrun as (_ & Hlook & _)%run_all_checks_Ok.
  assert (dict_get customer_data "gdpr_consent" (VBool false) = VBool false)
    as Hget.
  { unfold dict_get. by destruct Hconsent as [-> | ->]. }
  assert (dict_get customer_data "region" (VStr "EU") = VStr "EU") as Hreg.
  { unfold dict_get. by rewrite Hregion. }
  rewrite Hreg in Hlook.
  assert (passed (check_gdpr_consent customer_data (VStr "EU")) = VBool false
          ∧ severity (check_gdpr_consent customer_data (VStr "EU")) = "critical")
    as [Hp Hs].
  { unfold check_gdpr_consent. cbn [passed severity]. by rewrite Hget. }
  eexists. split; [exact Hlook |]. split; [done |].
  split; [done |]. split; [done |].
  apply (overall_false_iff _ _ _ _ _ Hrun).
  eauto.
Qed.

Lemma missing_region_is_regulated_witness :
  match run_all_checks Examples.repr_unused
          Examples.customer_without_region Examples.welcome_email with
  | Ok (ok, results) =>
      ∃ c, results !! "gdpr_consent" = Some c ∧
           details c !! "region" = Some (VStr "EU") ∧
           passed c = VBool false ∧ severity c = "critical" ∧
           ok = false
  | Raise _ => False
  end.
Proof.
  assert (is_Ok (run_all_checks Examples.repr_unused
                   Examples.customer_without_region Examples.welcome_email)
          = true) as Hok by (vm_compute; reflexivity).
  destruct (run_all_checks Examples.repr_unused
              Examples.customer_without_region Examples.welcome_email)
    as [[ok results] | e] eqn:Hrun; [| discriminate Hok].
  apply (missing_region_is_regulated _ _ _ _ _
           (eq_refl : Examples.customer_without_region !! "region" = None)
           (or_introl eq_refl) Hrun).
Defined.

End GuardrailsProofs.

(* ===================================================================== *)
(** * The timestamps of the clock *)
(* ===================================================================== *)

Module ClockProofs.
Import Clock.
Local Open Scope N_scope.

Lemma append_cons (c : ascii) (s t : string) :
  String c s +:+ t = String c (s +:+ t).
Proof. reflexivity. Qed.

Lemma append_nil (s : string) : "" +:+ s = s.
Proof. reflexivity. Qed.

Lemma append_assoc (a b c : string) : (a +:+ b) +:+ c = a +:+ (b +:+ c).
Proof.
  induction a as [|x a IH]; [done |]. rewrite !append_cons. by f_equal.
Qed.

Lemma isoformat_suffix (t : datetime) (suffix : string) :
  isoformat t +:+ suffix = isoformat_then t suffix.
Proof.
  unfold isoformat, isoformat_then.
  rewrite !append_assoc.
  destruct (microsecond t =? 0); [done |].
  by rewrite !append_assoc.
Qed.

Lemma add_compare_l (p a b : N) : (p + a ?= p + b) = (a ?= b).
Proof.
  destruct (N.compare_spec a b) as [-> | Hlt | Hgt].
  - apply N.compare_refl.
  - apply N.compare_lt_iff. lia.
  - apply N.compare_gt_iff. lia.
Qed.

Lemma digit_compare (a b : N) :
  a < 10 → b < 10 → Ascii.compare (digit a) (digit b) = (a ?= b).
Proof.
  intros Ha Hb. unfold Ascii.compare, digit.
  rewrite !N_ascii_embedding by lia.
  apply add_compare_l.
Qed.

(** Comparing by quotient and then by remainder. *)
Lemma compare_div_mod (unit n m : N) :
  0 < unit →
  (n ?= m) = match (n / unit ?= m / unit) with
             | Eq => (n mod unit ?= m mod unit)
             | c => c
             end.
Proof.
  intros Hu.
  pose proof (N.div_mod n unit ltac:(lia)) as Hn.
  pose proof (N.div_mod m unit ltac:(lia)) as Hm.
  pose proof (N.mod_lt n unit ltac:(lia)) as Hrn.
  pose proof (N.mod_lt m unit ltac:(lia)) as Hrm.
  revert Hn Hm Hrn Hrm.
  generalize (n / unit) (m / unit) (n mod unit) (m mod unit).
  intros qn qm rn rm -> -> Hrn Hrm.
  destruct (N.compare_spec qn qm) as [-> | Hq | Hq].
  - apply add_compare_l.
  - apply N.compare_lt_iff.
    assert (unit * (qn + 1) ≤ unit * qm) by (apply N.mul_le_mono_l; lia).
    lia.
  - apply N.compare_gt_iff.
    assert (unit * (qm + 1) ≤ unit * qn) by (apply N.mul_le_mono_l; lia).
    lia.
Qed.

(** Zero-padded numbers of one width compare as the numbers do. *)
Lemma pad_compare (width : nat) (n m : N) (s t : string) :
  n < 10 ^ N.of_nat width → m < 10 ^ N.of_nat width →
  String.compare (pad width n +:+ s) (pad width m +:+ t)
  = match (n ?= m) with
    | Eq => String.compare s t
    | c => c
    end.
Proof.
  revert n m. induction width as [|w IH]; intros n m Hn Hm.
  - simpl in *. assert (n = 0) as -> by lia. assert (m = 0) as -> by lia. done.
  - rewrite Nat2N.inj_succ, N.pow_succ_r' in Hn, Hm.
    assert (0 < 10 ^ N.of_nat w) as Hu by (apply N.neq_0_lt_0, N.pow_nonzero; lia).
    cbn [pad]. cbv zeta. rewrite !append_cons. cbn [String.compare].
    rewrite digit_compare
      by (apply N.Div0.div_lt_upper_bound; lia).
    rewrite IH by (apply N.mod_lt; lia).
    rewrite (compare_div_mod (10 ^ N.of_nat w) n m Hu).
    by destruct (n / _ ?= m / _).
Qed.

Lemma compare_separator (c : ascii) (s t : string) :
  String.compare (String c s) (String c t) = String.compare s t.
Proof.
  cbn [String.compare]. unfold Ascii.compare. by rewrite N.compare_refl.
Qed.

Lemma valid_ranges (t : datetime) :
  valid t = true →
  year t < 10 ^ N.of_nat 4 ∧ month t < 10 ^ N.of_nat 2 ∧
  day t < 10 ^ N.of_nat 2 ∧ hour t < 10 ^ N.of_nat 2 ∧
  minute t < 10 ^ N.of_nat 2 ∧ second t < 10 ^ N.of_nat 2 ∧
  microsecond t < 10 ^ N.of_nat 6.
Proof.
  unfold valid. rewrite !andb_true_iff, !N.leb_le, !N.ltb_lt.
  change (10 ^ N.of_nat 4) with 10000.
  change (10 ^ N.of_nat 2) with 100.
  change (10 ^ N.of_nat 6) with 1000000.
  lia.
Qed.

(** The timestamps of two readings of the same layout compare as the
    readings do. *)
Lemma stamp_compare (a b : datetime) :
  valid a = true → valid b = true → same_layout a b = true →
  String.compare (isoformat a +:+ "Z") (isoformat b +:+ "Z") = compare a b.
Proof.
  intros (Hy & Hmo & Hd & Hh & Hmi & Hs & Hus)%valid_ranges
         (Hy' & Hmo' & Hd' & Hh' & Hmi' & Hs' & Hus')%valid_ranges Hlay.
  rewrite !isoformat_suffix. unfold isoformat_then, compare, fields.
  cbn [compare_fields]. rewrite !append_cons, !append_nil.
  rewrite pad_compare by done. destruct (year a ?= year b); try done.
  rewrite compare_separator.
  rewrite pad_compare by done. destruct (month a ?= month b); try done.
  rewrite compare_separator.
  rewrite pad_compare by done. destruct (day a ?= day b); try done.
  rewrite compare_separator.
  rewrite pad_compare by done. destruct (hour a ?= hour b); try done.
  rewrite compare_separator.
  rewrite pad_compare by done. destruct (minute a ?= minute b); try done.
  rewrite compare_separator.
  rewrite pad_compare by done. destruct (second a ?= second b); try done.
  unfold same_layout in Hlay. apply Bool.eqb_prop in Hlay.
  destruct (microsecond a =? 0) eqn:Ha; symmetry in Hlay; rewrite Hlay.
  - apply N.eqb_eq in Ha, Hlay. by rewrite Ha, Hlay.
  - rewrite compare_separator.
    rewrite pad_compare by done. by destruct (microsecond a ?= microsecond b).
Qed.

End ClockProofs.

(* ===================================================================== *)
(** * Properties of the audit ledger *)
(* ===================================================================== *)

Module AuditProofs.
Import Audit.

Lemma decision_entry_has_timestamp now decision checks review :
  has_timestamp (decision_entry now decision checks review).
Proof. eexists. unfold decision_entry. apply lookup_insert_eq. Qed.

Lemma override_entry_has_timestamp now d o o' r :
  has_timestamp (override_entry now d o o' r).
Proof. eexists. unfold override_entry. apply lookup_insert_eq. Qed.

Lemma step_has_timestamp (op : operation) (log : ledger) :
  Forall has_timestamp log → Forall has_timestamp (step op log).
Proof.
  intros Hlog. destruct op; simpl; [| | done].
  - apply Forall_app. split; [done |].
    repeat constructor. apply decision_entry_has_timestamp.
  - apply Forall_app. split; [done |].
    repeat constructor. apply override_entry_has_timestamp.
Qed.

Lemma run_has_timestamp (ops : list operation) (log : ledger) :
  Forall has_timestamp log → Forall has_timestamp (run ops log).
Proof.
  revert log. induction ops as [|op ops IH]; intros log Hlog; simpl; [done |].
  by apply IH, step_has_timestamp.
Qed.

(** Entries are only ever added at the end. *)
Lemma step_prefix (op : operation) (log : ledger) : log `prefix_of` step op log.
Proof. destruct op; simpl; try apply prefix_app_r; done. Qed.

Lemma step_length (op : operation) (log : ledger) :
  length (step op log) = length log + (if is_append op then 1 else 0).
Proof. destruct op; simpl; rewrite ?length_app; simpl; lia. Qed.

Lemma run_length (ops : list operation) (log : ledger) :
  length (run ops log) = length log + appends ops.
Proof.
  revert log. induction ops as [|op ops IH]; intros log; simpl.
  - unfold appends. simpl. lia.
  - unfold run in *. simpl. rewrite IH, step_length. unfold appends. simpl.
    destruct (is_append op); simpl; lia.
Qed.

Lemma keyed_history (history : ledger) :
  Forall has_timestamp history →
  mapM (λ e, k <- timestamp_key e;; Ok (k, e)) history
  = Ok ((λ e, (timestamp_of e, e)) <$> history).
Proof.
  induction 1 as [|e l [s He] _ IH]; simpl; [done |].
  unfold timestamp_key at 1, timestamp_of at 1. rewrite He. simpl.
  by rewrite IH.
Qed.

Lemma py_slice_to_all {A} (l : list A) :
  py_slice_to (Z.of_nat (length l)) l = l.
Proof.
  unfold py_slice_to.
  destruct (Z.leb_spec 0 (Z.of_nat (length l))); [| lia].
  rewrite Nat2Z.id. by apply take_ge.
Qed.

Lemma py_slice_to_subseteq {A} (limit : Z) (l : list A) :
  py_slice_to limit l ⊆ l.
Proof.
  unfold py_slice_to. intros x.
  destruct (0 <=? limit)%Z; rewrite elem_of_take;
    intros (i & Hi & _); by apply list_elem_of_lookup_2 in Hi.
Qed.

(** The history without a filter and without a cut. *)
Lemma full_history (audit_log : ledger) :
  Forall has_timestamp audit_log →
  ∃ h, get_audit_history audit_log None (Z.of_nat (length audit_log)) = Ok h ∧
       h ≡ₚ audit_log ∧
       StronglySorted (λ e1 e2, String.le (timestamp_of e2) (timestamp_of e1)) h.
Proof.
  intros Hts. unfold get_audit_history. cbn [select_history].
  rewrite (keyed_history _ Hts). cbn [bind].
  set (keyed := (λ e, (timestamp_of e, e)) <$> audit_log).
  set (sorted := sorted_desc (λ a b : string * pydict, String.ltb a.1 b.1) keyed).
  assert (sorted ≡ₚ keyed) as Hperm by apply sorted_desc_Permutation.
  assert (sorted.*2 ≡ₚ audit_log) as Hperm2.
  { rewrite Hperm. unfold keyed. rewrite <- list_fmap_compose.
    by rewrite list_fmap_id. }
  exists (sorted.*2). split.
  - f_equal. rewrite <- (Permutation_length Hperm2). apply py_slice_to_all.
  - split; [done |].
    apply (StronglySorted_fmap_Forall
             (λ a b : string * pydict, String.le b.1 a.1) _ snd
             (λ p, p.1 = timestamp_of p.2)).
    + by intros [k1 e1] [k2 e2]; simpl; intros -> ->.
    + rewrite Hperm. unfold keyed. apply Forall_fmap, Forall_forall. by intros.
    + apply Sorted_StronglySorted.
      { intros a b c Hab Hbc. by etrans. }
      apply (Sorted_sorted_desc (λ a b : string * pydict, String.ltb a.1 b.1)).
      * intros a b. apply not_ltb_le.
      * intros a b. apply ltb_le.
Qed.

(** After a sequence of operations on an empty ledger, [N] of them appends
    (decision or override entries), the ledger has [N] entries and
    [get_audit_history(limit=N)] returns [N] entries, those of the ledger,
    in the descending order of their timestamp strings. No operation
    reduces the ledger: it is a prefix of the ledger after the operation. *)
Lemma ledger_length_and_history (ops : list operation) :
  let audit_log := run ops [] in
  let N := appends ops in
  length audit_log = N ∧
  (∃ h, get_audit_history audit_log None (Z.of_nat N) = Ok h ∧
        length h = N ∧ h ≡ₚ audit_log ∧
        StronglySorted
          (λ e1 e2, String.le (timestamp_of e2) (timestamp_of e1)) h) ∧
  (∀ op log, log `prefix_of` step op log ∧ length log ≤ length (step op log)).
Proof.
  intros audit_log N.
  assert (length audit_log = N) as Hlen.
  { unfold audit_log. by rewrite run_length. }
  split; [done |]. split.
  - destruct (full_history audit_log) as (h & Hh & Hperm & Hsorted).
    { apply run_has_timestamp. constructor. }
    exists h. rewrite <- Hlen. split; [done |]. split; [| done].
    by rewrite Hperm.
  - intros op log. split; [apply step_prefix |].
    apply prefix_length, step_prefix.
Qed.

(** C8. The code at two appends half a second apart, the first on a whole
    second: isoformat leaves the microseconds out of the first timestamp,
    the character Z that follows its seconds is greater than the point that
    follows the seconds of the second timestamp, and
    [get_audit_history(limit=2)] on the ledger of these two appends returns
    its two entries with the older one first, not the newest. *)
Theorem whole_second_entry_listed_first :
  let audit_log := run Examples.appends_across_a_second [] in
  Clock.valid Examples.noon = true ∧
  Clock.valid Examples.half_a_second_later = true ∧
  Clock.earlier Examples.noon Examples.half_a_second_later = true ∧
  appends Examples.appends_across_a_second = 2 ∧
  ∃ older newer,
    audit_log = [older; newer] ∧
    Clock.stamped_at older Examples.noon ∧
    Clock.stamped_at newer Examples.half_a_second_later ∧
    timestamp_of older = "2024-01-01T12:00:00Z" ∧
    timestamp_of newer = "2024-01-01T12:00:00.500000Z" ∧
    String.ltb (timestamp_of newer) (timestamp_of older) = true ∧
    get_audit_history audit_log None 2 = Ok [older; newer].
Proof.
  cbv zeta. do 4 (split; [vm_compute; reflexivity |]).
  exists (decision_entry (Clock.isoformat Examples.noon)
            Examples.logged_decision (<["can_spam" := VBool true]> ∅)
            (VBool false)),
         (override_entry (Clock.isoformat Examples.half_a_second_later)
            "6f1c2a9e-0000-4000-8000-000000000001"
            "send_cart_recovery_email" "skip"
            "Customer asked not to be contacted").
  split; [reflexivity |].
  split; [apply lookup_insert_eq |].
  split; [apply lookup_insert_eq |].
  repeat split; vm_compute; reflexivity.
Qed.

(** The entry appended by log_human_override has no customer_id field. *)
Lemma override_entry_no_customer_id now d o o' r :
  override_entry now d o o' r !! "customer_id" = None.
Proof. reflexivity. Qed.

(** C10. For every ledger and every non-empty customer id, an entry that a
    history query filtered by this id returns carries the id in its
    customer_id field; it is never an entry of log_human_override, which
    has no such field. *)
Theorem overrides_hidden_by_customer_filter (audit_log : ledger) (c : string)
    (limit : Z) (h : list pydict) (e : pydict) :
  c ≠ "" →
  get_audit_history audit_log (Some c) limit = Ok h →
  e ∈ h →
  e ∈ audit_log ∧ e !! "customer_id" = Some (VStr c) ∧ ¬ is_override e.
Proof.
  intros Hc Hh He. unfold get_audit_history in Hh.
  apply bind_Ok in Hh as (keyed & Hkeyed & [= <-]).
  apply mapM_Ok_snd in Hkeyed.
  apply py_slice_to_subseteq in He.
  assert (e ∈ select_history audit_log (Some c)) as Hin.
  { rewrite <- Hkeyed.
    by rewrite <- (sorted_desc_Permutation
                     (λ a b : string * pydict, String.ltb a.1 b.1) keyed). }
  unfold select_history in Hin.
  assert (String.eqb c "" = false) as Hne by by apply String.eqb_neq.
  rewrite Hne in Hin. cbn [negb] in Hin.
  apply list_elem_of_In, filter_In in Hin as [Hin Heq].
  apply list_elem_of_In in Hin.
  assert (e !! "customer_id" = Some (VStr c)) as Hcid.
  { unfold py_eq_str, dict_get in Heq.
    destruct (e !! "customer_id") as [[]|]; try done.
    simpl in Heq. by apply String.eqb_eq in Heq as ->. }
  split; [done |]. split; [done |].
  intros (now & d & o & o' & r & ->).
  by rewrite override_entry_no_customer_id in Hcid.
Qed.

Lemma overrides_hidden_by_customer_filter_witness :
  match get_audit_history Examples.ledger_with_override (Some "cust_0042") 100
  with
  | Ok h =>
      ∀ e, e ∈ h →
        e ∈ Examples.ledger_with_override ∧
        e !! "customer_id" = Some (VStr "cust_0042") ∧ ¬ is_override e
  | Raise _ => False
  end.
Proof.
  assert (is_Ok (get_audit_history Examples.ledger_with_override
                   (Some "cust_0042") 100) = true) as Hok
    by (vm_compute; reflexivity).
  destruct (get_audit_history Examples.ledger_with_override
              (Some "cust_0042") 100) as [h | err] eqn:Hh;
    [| discriminate Hok].
  intros e He.
  apply (overrides_hidden_by_customer_filter
           Examples.ledger_with_override "cust_0042" 100 h e);
    [discriminate | exact Hh | exact He].
Defined.

(** The filtered history of the example holds the decision alone. *)
Example override_hidden_with_filter :
  match get_audit_history Examples.ledger_with_override (Some "cust_0042") 100
  with
  | Ok h => timestamp_of <$> h = ["2024-01-01T12:00:00.000001Z"]
  | Raise _ => False
  end.
Proof. vm_compute. reflexivity. Qed.

(** The override is in the unfiltered history. *)
Example override_visible_without_filter :
  match get_audit_history Examples.ledger_with_override None 100 with
  | Ok h => timestamp_of <$> h
            = ["2024-01-01T12:05:00.000001Z"; "2024-01-01T12:00:00.000001Z"]
  | Raise _ => False
  end.
Proof. vm_compute. reflexivity. Qed.

End AuditProofs.

(* ===================================================================== *)
(** * Properties of the experiment engine *)
(* ===================================================================== *)

Module MetricsProofs.
Import Metrics.

(** C2. An experiment with the default confidence level 0.95 whose control
    has 50 conversions out of 1000 impressions and whose only other variant
    has 90 out of 1000: the pooled chi-square statistic maps, through the
    stepwise table, to a p-value below [1 - 0.95], and
    get_statistical_winner returns the id of the variant. *)
Theorem significant_variant_wins (t : ABTest) (kc kv : string)
    (control variant : ABTestVariant) :
  variants t = [(kc, control); (kv, variant)] →
  confidence_level t = default_confidence_level →
  impressions control = 1000%Z → conversions control = 50%Z →
  impressions variant = 1000%Z → conversions variant = 90%Z →
  (∃ chi_square p_value,
      _calculate_chi_square control variant = Ok chi_square ∧
      _chi_square_to_p_value chi_square = Ok p_value ∧
      F64.ltb p_value (F64.sub (F64.of_Z 1) (confidence_level t)) = true) ∧
  get_statistical_winner t = Ok (Some (variant_id variant)).
Proof.
  intros Hv Hc Hi1 Hc1 Hi2 Hc2.
  destruct t as [tid tname tcreated tvars tstatus twinner tconf].
  destruct control as [cid cname ctraffic cconv cimpr crev].
  destruct variant as [vid vname vtraffic vconv vimpr vrev].
  cbn [variants confidence_level impressions conversions variant_id] in *.
  subst.
  split.
  - exists (VFloat (S754_finite false 6433713753386423 (-49))), (F64.dec 1 1000).
    split; [|split]; vm_compute; reflexivity.
  - vm_compute. reflexivity.
Qed.

Lemma significant_variant_wins_witness :
  get_statistical_winner
    (Examples.experiment default_confidence_level
       Examples.control_50 Examples.variant_90)
  = Ok (Some "variant_b").
Proof.
  apply (significant_variant_wins
           (Examples.experiment default_confidence_level
              Examples.control_50 Examples.variant_90)
           "control" "variant_b" Examples.control_50 Examples.variant_90);
    reflexivity.
Defined.

Lemma conversion_rate_no_impressions (v : ABTestVariant) :
  impressions v = 0%Z → conversion_rate v = Ok (VInt 0).
Proof. intros Hv. unfold conversion_rate. by rewrite Hv. Qed.

(** A statistic of zero falls into the first step of the table. *)
Lemma p_value_of_zero : _chi_square_to_p_value (VInt 0) = Ok (F64.dec 10 100).
Proof. vm_compute. reflexivity. Qed.

Lemma chi_square_no_impressions (control variant : ABTestVariant) chi :
  impressions control = 0%Z ∨ impressions variant = 0%Z →
  _calculate_chi_square control variant = Ok chi → chi = VInt 0.
Proof.
  intros Hz. unfold _calculate_chi_square.
  intros (p1 & _ & (p2 & _ & H)%bind_Ok)%bind_Ok.
  assert ((impressions control =? 0)%Z || (impressions variant =? 0)%Z = true) as Hg.
  { destruct Hz as [-> | ->]; [done | by rewrite orb_true_r]. }
  rewrite Hg in H. congruence.
Qed.

Lemma chi_square_no_impressions_returns (control variant : ABTestVariant) :
  impressions control = 0%Z ∨ impressions variant = 0%Z →
  returns (conversion_rate control) → returns (conversion_rate variant) →
  _calculate_chi_square control variant = Ok (VInt 0).
Proof.
  intros Hz [p1 H1] [p2 H2]. unfold _calculate_chi_square.
  rewrite H1, H2. simpl.
  destruct Hz as [-> | ->]; [done | by rewrite orb_true_r].
Qed.

(** The sign of a rounded result is the sign that was asked for. *)
Lemma binary_round_aux_sign (s : bool) (m e : Z) (l : location) :
  match binary_round_aux F64.prec F64.emax s m e l with
  | S754_zero s' | S754_infinity s' | S754_finite s' _ _ => s' = s
  | S754_nan => True
  end.
Proof.
  unfold binary_round_aux.
  destruct (shr_fexp _ _ m e l) as [mrs' e'].
  destruct (shr_fexp _ _ _ e' _) as [mrs'' e''].
  destruct (shr_m mrs''); [done | | done].
  by destruct (_ <=? _)%Z.
Qed.

(** A float of positive sign is not below zero. *)
Lemma positive_sign_not_negative (f : spec_float) :
  match f with
  | S754_zero s | S754_infinity s | S754_finite s _ _ => s = false
  | S754_nan => True
  end →
  x_ltb (F64.val f) (XFin 0) = false.
Proof.
  destruct f as [s | s | | s m e]; cbn [F64.val]; try done.
  - by intros ->.
  - intros ->. cbn [F64.mant x_ltb]. unfold Qltb.
    apply negb_false_iff. unfold Qle_bool. apply Z.leb_le.
    destruct e; cbn [Qnum Qden]; lia.
Qed.

(** The rate of a variant whose counts are not negative is not negative. *)
Lemma conversion_rate_not_negative (v : ABTestVariant) (rate : pyval) :
  (0 ≤ conversions v)%Z → (0 ≤ impressions v)%Z →
  conversion_rate v = Ok rate → py_gt (VInt 0) rate = Ok false.
Proof.
  intros Hc Hn. unfold conversion_rate.
  destruct (impressions v =? 0)%Z eqn:Hz; [by intros [= <-] |].
  intros (q & Hq & [= <-])%bind_Ok.
  unfold py_gt, py_cmp, flip. cbn [num_val]. f_equal.
  apply positive_sign_not_negative.
  revert Hq. unfold int_true_div. rewrite Hz.
  apply Z.eqb_neq in Hz.
  destruct (impressions v) as [| n | n]; [done | | lia].
  destruct (conversions v) as [| c | c]; [by intros [= <-] | | lia].
  unfold F64.div. cbn [SFdiv xorb].
  destruct (SFdiv_core_binary _ _ _ _ _ _) as [[mz ez] lz].
  pose proof (binary_round_aux_sign false mz ez lz) as Hs.
  destruct (binary_round_aux _ _ _ _ _ _); try done; by intros [= <-].
Qed.

(** A conversion rate is a number. *)
Lemma conversion_rate_number (v : ABTestVariant) (rate : pyval) :
  conversion_rate v = Ok rate → ∃ x, num_val rate = Some x.
Proof.
  unfold conversion_rate. destruct (impressions v =? 0)%Z.
  - intros [= <-]. by eexists.
  - intros (q & _ & [= <-])%bind_Ok. by eexists.
Qed.

(** C4, amended. A comparison in which the control or the compared variant
    has zero impressions returns the variant exactly when the p-value 0.10
    of the zero statistic is below [1 - confidence_level] and the rate of
    the variant is greater than the rate of the control. So the variant is
    not returned, and the loop of get_statistical_winner goes on to the
    next variant, (a) at every confidence level for which 0.10 is not below
    [1 - confidence_level], the default 0.95 among them, and (b) at every
    confidence level when it is the compared variant that has zero
    impressions and the counts of the control are not negative. *)
Theorem no_winner_without_impressions (confidence : spec_float)
    (control variant : ABTestVariant) (rest : list ABTestVariant) :
  impressions control = 0%Z ∨ impressions variant = 0%Z →
  (beats_control confidence control variant = Ok true ↔
     F64.ltb (F64.dec 10 100) (F64.sub (F64.of_Z 1) confidence) = true ∧
     ∃ rate control_rate,
       conversion_rate variant = Ok rate ∧
       conversion_rate control = Ok control_rate ∧
       py_gt rate control_rate = Ok true) ∧
  (F64.ltb (F64.dec 10 100) (F64.sub (F64.of_Z 1) confidence) = false ∨
   (impressions variant = 0%Z ∧
    (0 ≤ conversions control)%Z ∧ (0 ≤ impressions control)%Z) →
   beats_control confidence control variant ≠ Ok true ∧
   (returns (conversion_rate control) → returns (conversion_rate variant) →
    beats_control confidence control variant = Ok false ∧
    first_winner confidence control (variant :: rest)
    = first_winner confidence control rest)).
Proof.
  intros Hz.
  assert (beats_control confidence control variant = Ok true ↔
     F64.ltb (F64.dec 10 100) (F64.sub (F64.of_Z 1) confidence) = true ∧
     ∃ rate control_rate,
       conversion_rate variant = Ok rate ∧
       conversion_rate control = Ok control_rate ∧
       py_gt rate control_rate = Ok true) as Hiff.
  { unfold beats_control. split.
    - intros (chi & Hchi & (p & Hp & H)%bind_Ok)%bind_Ok.
      apply (chi_square_no_impressions _ _ _ Hz) in Hchi as ->.
      rewrite p_value_of_zero in Hp. injection Hp as <-.
      destruct (F64.ltb _ _); [| discriminate]. split; [done |].
      apply bind_Ok in H as (rate & Hrate & (control_rate & Hcontrol & H)%bind_Ok).
      by exists rate, control_rate.
    - intros (Hconf & rate & control_rate & Hrate & Hcontrol & Hgt).
      rewrite (chi_square_no_impressions_returns control variant Hz)
        by (by eexists).
      cbn [bind]. rewrite p_value_of_zero. cbn [bind].
      rewrite Hconf, Hrate, Hcontrol. by cbn [bind]. }
  split; [exact Hiff |].
  intros Hsafe.
  assert (beats_control confidence control variant ≠ Ok true) as Hnot.
  { intros (Hconf & rate & control_rate & Hrate & Hcontrol & Hgt)%Hiff.
    destruct Hsafe as [Hhigh | (Hv & Hc & Hn)]; [congruence |].
    rewrite (conversion_rate_no_impressions _ Hv) in Hrate.
    injection Hrate as <-.
    rewrite (conversion_rate_not_negative _ _ Hc Hn Hcontrol) in Hgt.
    discriminate. }
  split; [exact Hnot |].
  intros Hc Hv.
  assert (beats_control confidence control variant = Ok false) as Hb.
  { revert Hnot. unfold beats_control.
    rewrite (chi_square_no_impressions_returns _ _ Hz Hc Hv).
    cbn [bind]. rewrite p_value_of_zero. cbn [bind].
    destruct (F64.ltb _ _); [| done].
    destruct Hc as [control_rate Hc], Hv as [rate Hv].
    rewrite Hc, Hv. cbn [bind].
    destruct (conversion_rate_number _ _ Hc) as [y Hy].
    destruct (conversion_rate_number _ _ Hv) as [x Hx].
    unfold py_gt, py_cmp. rewrite Hx, Hy.
    destruct (flip x_ltb x y); [by intros [] | done]. }
  split; [done |]. cbn [first_winner]. by rewrite Hb.
Qed.

(** The condition on the confidence level holds for 0.95 and for 0.9. *)
Example default_level_is_high_enough :
  F64.ltb (F64.dec 10 100) (F64.sub (F64.of_Z 1) default_confidence_level)
  = false ∧
  F64.ltb (F64.dec 10 100) (F64.sub (F64.of_Z 1) (F64.dec 90 100)) = false.
Proof. split; vm_compute; reflexivity. Qed.

Lemma no_winner_without_impressions_witness :
  first_winner default_confidence_level Examples.control_no_data
    [Examples.variant_5_of_10; Examples.variant_90]
  = first_winner default_confidence_level Examples.control_no_data
      [Examples.variant_90] ∧
  first_winner (F64.dec 80 100) Examples.control_50
    [Examples.variant_no_data; Examples.variant_90]
  = first_winner (F64.dec 80 100) Examples.control_50 [Examples.variant_90].
Proof.
  split.
  - apply (no_winner_without_impressions default_confidence_level
             Examples.control_no_data Examples.variant_5_of_10
             [Examples.variant_90]).
    + left. reflexivity.
    + left. vm_compute. reflexivity.
    + exists (VInt 0). reflexivity.
    + eexists. vm_compute. reflexivity.
  - apply (no_winner_without_impressions (F64.dec 80 100)
             Examples.control_50 Examples.variant_no_data [Examples.variant_90]).
    + right. reflexivity.
    + right. repeat split; vm_compute; discriminate.
    + eexists. vm_compute. reflexivity.
    + exists (VInt 0). reflexivity.
Defined.

(** C4 as stated fails for a confidence level of 0.8. With a control
    without impressions the statistic is 0, its p-value 0.10 is below
    [1 - 0.8], and the variant, with a conversion rate of 0.5 against 0, is
    returned. With a variant without impressions and a control whose
    conversions are negative, the rate 0 of the variant is greater than the
    rate -0.5 of the control, and the variant is returned. *)
Lemma winner_without_impressions_at_low_confidence :
  (impressions Examples.control_no_data = 0%Z ∧
   beats_control (F64.dec 80 100)
     Examples.control_no_data Examples.variant_5_of_10 = Ok true ∧
   get_statistical_winner
     (Examples.experiment (F64.dec 80 100)
        Examples.control_no_data Examples.variant_5_of_10)
   = Ok (Some (variant_id Examples.variant_5_of_10))) ∧
  (impressions Examples.variant_no_data = 0%Z ∧
   beats_control (F64.dec 80 100) Examples.control_with_returns Examples.variant_no_data
   = Ok true ∧
   get_statistical_winner
     (Examples.experiment (F64.dec 80 100)
        Examples.control_with_returns Examples.variant_no_data)
   = Ok (Some (variant_id Examples.variant_no_data))).
Proof. repeat split; vm_compute; reflexivity. Qed.

End MetricsProofs.


(* ===================================================================== *)
(** * Properties of the abandoned-cart policy *)
(* ===================================================================== *)

Module AbandonedCartProofs.
Import Agent AbandonedCart OrderProofs.

(** The comparisons of _calculate_incentive on a number. *)
Lemma py_gt_const (v : pyval) (x : xreal) (c : Z) :
  num_val v = Some x → py_gt v (VInt c) = Ok (x_ltb (XFin (c # 1)) x).
Proof. intros Hx. unfold py_gt, py_cmp. by rewrite Hx. Qed.

(** C6. For cart values [v1 <= v2] and one VIP status, the discount
    computed for [v2] is at most the discount computed for [v1]. *)
Theorem incentive_monotone (v1 v2 is_vip : pyval) :
  py_le v1 v2 = Ok true →
  ∃ i1 i2, _calculate_incentive v1 is_vip = Ok i1 ∧
           _calculate_incentive v2 is_vip = Ok i2 ∧
           (i2 ≤ i1)%Z.
Proof.
  intros (x1 & x2 & H1 & H2 & Hle)%py_cmp_Ok. symmetry in Hle.
  unfold _calculate_incentive.
  rewrite !(py_gt_const v1 x1) by done. rewrite !(py_gt_const v2 x2) by done.
  pose proof (λ c, x_ltb_leb_trans (XFin (c # 1)) x1 x2) as Hmono.
  destruct (py_truthy is_vip); cbn [bind];
    destruct (x_ltb (XFin (500 # 1)) x1) eqn:Ha1;
    destruct (x_ltb (XFin (500 # 1)) x2) eqn:Ha2;
    destruct (x_ltb (XFin (200 # 1)) x1) eqn:Hb1;
    destruct (x_ltb (XFin (200 # 1)) x2) eqn:Hb2;
    try (rewrite (Hmono 500%Z) in Ha2 by done; discriminate);
    try (rewrite (Hmono 200%Z) in Hb2 by done; discriminate);
    eexists _, _; (split; [reflexivity | split; [reflexivity | lia]]).
Qed.

Lemma incentive_monotone_witness :
  ∃ i1 i2, _calculate_incentive (VInt 150) (VBool false) = Ok i1 ∧
           _calculate_incentive (VFloat (F64.dec 2505 10)) (VBool false) = Ok i2 ∧
           (i2 ≤ i1)%Z.
Proof.
  apply (incentive_monotone (VInt 150) (VFloat (F64.dec 2505 10)) (VBool false)).
  vm_compute. reflexivity.
Defined.

(** C5. For a customer record whose cart value is below 20 the
    cart-recovery path returns, without raising, the decision
    skip_cart_recovery: its confidence is 0.9, its parameters and its
    reasoning give the reason in words, and it is appended to the log. *)
Theorem low_cart_value_skips (py_repr : pyval → string) (env : readings)
    (agent_input : AgentInput) (decision_log : list AgentDecision) :
  py_lt (dict_get (customer_data agent_input) "cart_value" (VInt 0)) (VInt 20)
    = Ok true →
  ∃ d, _handle_abandoned_cart py_repr env agent_input decision_log
         = Ok (d, decision_log ++ [d]) ∧
       action d = "skip_cart_recovery" ∧ is_skip d ∧
       F64.leb (F64.dec 9 10) (confidence d) = true ∧
       parameters d !! "reason" = Some (VStr "Cart value too low") ∧
       reasoning d = "Cart value below minimum recovery threshold".
Proof.
  intros Hlow. unfold _handle_abandoned_cart. rewrite Hlow. cbn [bind].
  eexists. split; [reflexivity |]. cbn [_create_decision action confidence parameters reasoning].
  split; [reflexivity |]. split; [reflexivity |].
  split; [vm_compute; reflexivity |]. split; reflexivity.
Qed.

Lemma low_cart_value_skips_witness :
  ∃ d, _handle_abandoned_cart Examples.repr_unused Examples.readings_1
         Examples.small_cart_input [] = Ok (d, [d]) ∧
       action d = "skip_cart_recovery" ∧ is_skip d ∧
       F64.leb (F64.dec 9 10) (confidence d) = true ∧
       parameters d !! "reason" = Some (VStr "Cart value too low") ∧
       reasoning d = "Cart value below minimum recovery threshold".
Proof.
  apply (low_cart_value_skips Examples.repr_unused Examples.readings_1
           Examples.small_cart_input []).
  vm_compute. reflexivity.
Defined.

End AbandonedCartProofs.


(* ===================================================================== *)
(** * Properties of the creative-testing policy *)
(* ===================================================================== *)

Module CreativeTestingProofs.
Import CreativeTesting.

(** The first creative of the ranking receives the fixed 30% share. *)
Example top_ranked_receives_fixed_share :
  match test_allocation Examples.equal_scores ∅ with
  | Ok a =>
      variants a !! control_name
      = Some {| traffic_percentage := F64.of_Z 30; sample_size := 3000 |}
  | Raise _ => False
  end.
Proof. vm_compute. reflexivity. Qed.

(** C3. The code at scores that rank the control last: the 30% share and
    3000 samples go to the first creative of the ranking, Variation A, and
    the control receives 17.5% and 1750 samples. *)
Theorem control_share_follows_ranking :
  (name ∘ creative <$>
     _score_variations Examples.control_scores_lowest (_generate_variations ∅))
  = ["Variation A (Curiosity-driven)"; "Variation B (Benefit-focused)";
     "Variation C (FOMO/Urgency)"; "Variation D (Social Proof)";
     "Control (Original)"] ∧
  match test_allocation Examples.control_scores_lowest ∅ with
  | Ok a =>
      variants a !! control_name
      = Some {| traffic_percentage := F64.dec 175 10; sample_size := 1750 |} ∧
      variants a !! "Variation A (Curiosity-driven)"
      = Some {| traffic_percentage := F64.of_Z 30; sample_size := 3000 |}
  | Raise _ => False
  end.
Proof.
  split; [vm_compute; reflexivity |].
  vm_compute. split; reflexivity.
Qed.

End CreativeTestingProofs.


(* ===================================================================== *)
(** * Properties of the dispatch fan-out *)
(* ===================================================================== *)

Module ChannelsProofs.
Import Channels.

Section Campaign.
Variable clock : nat → instant.
Variable customer_id : string.
Variables customer_data campaign_data : pydict.

Abbreviation send_to :=
  (send_to clock customer_id customer_data campaign_data).
Abbreviation campaign_loop :=
  (campaign_loop clock customer_id customer_data campaign_data).
Abbreviation execute_campaign :=
  (execute_campaign clock customer_id customer_data campaign_data).

Lemma py_eq_str_true (v : pyval) (s : string) :
  py_eq_str v s = true → v = VStr s.
Proof.
  destruct v; simpl; try done. by intros ->%String.eqb_eq.
Qed.

(** The final [else: continue] is taken by the unrecognized names only. *)
Lemma send_to_None (k : nat) (ch : pyval) :
  send_to k ch = None ↔ recognized ch = false.
Proof.
  unfold Channels.send_to, recognized.
  destruct (py_eq_str ch "email"); [done |].
  destruct (py_eq_str ch "sms"); [done |].
  destruct (py_eq_str ch "whatsapp"); [done |].
  destruct (py_eq_str ch "web"); [done |].
  destruct (py_eq_str ch "push"); done.
Qed.

(** A sender answers under the name of its channel. *)
Lemma send_to_channel (k : nat) (ch : pyval) (r : ExecutionResult) :
  send_to k ch = Some (Ok r) → channel r = channel_name ch.
Proof.
  unfold Channels.send_to.
  destruct (py_eq_str ch "email") eqn:He.
  { apply py_eq_str_true in He as ->. intros [= H]. unfold send_email in H.
    by apply bind_Ok in H as (n & _ & [= <-]). }
  destruct (py_eq_str ch "sms") eqn:Hs.
  { apply py_eq_str_true in Hs as ->. intros [= H]. unfold send_sms in H.
    apply bind_Ok in H as (p & _ & H).
    by apply bind_Ok in H as (n & _ & [= <-]). }
  destruct (py_eq_str ch "whatsapp") eqn:Hw.
  { apply py_eq_str_true in Hw as ->. intros [= H]. unfold send_whatsapp in H.
    destruct (negb _); [by injection H as <- |].
    apply bind_Ok in H as (p & _ & H).
    by apply bind_Ok in H as (n & _ & [= <-]). }
  destruct (py_eq_str ch "web") eqn:Hweb.
  { apply py_eq_str_true in Hweb as ->. intros [= H].
    unfold set_web_personalization in H.
    destruct (dict_get campaign_data "web_variations" (VDict ∅)); try done.
    by injection H as <-. }
  destruct (py_eq_str ch "push") eqn:Hp; [| done].
  apply py_eq_str_true in Hp as ->. by intros [= <-].
Qed.

(** With arguments of the declared types no sender raises. *)
Lemma send_to_returns (k : nat) (ch : pyval) (e : exn) :
  declared_types customer_data campaign_data = true →
  send_to k ch ≠ Some (Raise e).
Proof.
  unfold declared_types.
  intros ((((Hbody & Hphone)%andb_true_iff & Hsms)%andb_true_iff
           & Hwa)%andb_true_iff & Hweb)%andb_true_iff.
  unfold Channels.send_to.
  destruct (dict_get campaign_data "body" VNone) as [| | | |body| |]; try done.
  destruct (dict_get customer_data "phone" VNone) as [| | | |phone| |]; try done.
  destruct (dict_get campaign_data "sms_message" (VStr body))
    as [| | | |sms| |]; try done.
  destruct (dict_get campaign_data "whatsapp_message" (VStr body))
    as [| | | |wa| |]; try done.
  destruct (dict_get campaign_data "web_variations" (VDict ∅))
    as [| | | | | |web]; try done.
  destruct (py_eq_str ch "email"); [done |].
  destruct (py_eq_str ch "sms").
  { unfold send_sms, masked_phone. simpl. by destruct (4 <? _). }
  destruct (py_eq_str ch "whatsapp").
  { unfold send_whatsapp, masked_phone. destruct (negb _); [done |].
    simpl. by destruct (4 <? _). }
  destruct (py_eq_str ch "web"); [done |].
  destruct (py_eq_str ch "push"); done.
Qed.

(** Unrecognized names leave no trace in the loop. *)
Lemma campaign_loop_filter (channels : list pyval)
    (results : list ExecutionResult) (self : manager) :
  campaign_loop channels results self
  = campaign_loop (List.filter recognized channels) results self.
Proof.
  revert results self.
  induction channels as [|ch rest IH]; intros results self; [done |].
  cbn [List.filter]. destruct (recognized ch) eqn:Hrec.
  - cbn [Channels.campaign_loop].
    destruct (send_to (clock_reads self) ch) as [[r | e] |]; by rewrite ?IH.
  - cbn [Channels.campaign_loop].
    by rewrite (proj2 (send_to_None (clock_reads self) ch) Hrec).
Qed.

(** The results of a loop that returns: one for each recognized name. *)
Lemma campaign_loop_results (channels : list pyval)
    (results rs : list ExecutionResult) (self self' : manager) :
  campaign_loop channels results self = (Ok rs, self') →
  ∃ new, rs = results ++ new ∧
         channel <$> new = channel_name <$> List.filter recognized channels ∧
         execution_history self' = execution_history self ++ new.
Proof.
  revert results self.
  induction channels as [|ch rest IH]; intros results self.
  - intros [= <- <-]. exists []. by rewrite !app_nil_r.
  - cbn [Channels.campaign_loop List.filter].
    destruct (send_to (clock_reads self) ch) as [[r | e] |] eqn:Hsend.
    + intros (new & -> & Hnames & Hhist)%IH.
      assert (recognized ch = true) as ->.
      { apply not_false_iff_true. intros Hf.
        apply (proj2 (send_to_None (clock_reads self) ch)) in Hf. congruence. }
      exists (r :: new). cbn [execution_history] in Hhist.
      rewrite <- !app_assoc in *. split; [done |]. split; [| done].
      cbn [fmap list_fmap]. f_equal; [| done]. by apply send_to_channel in Hsend.
    + done.
    + apply send_to_None in Hsend as ->. apply IH.
Qed.

Lemma campaign_loop_returns (channels : list pyval)
    (results : list ExecutionResult) (self : manager) :
  declared_types customer_data campaign_data = true →
  ∃ rs self', campaign_loop channels results self = (Ok rs, self').
Proof.
  intros Htyped. revert results self.
  induction channels as [|ch rest IH]; intros results self; [by eexists _, _ |].
  cbn [Channels.campaign_loop].
  destruct (send_to (clock_reads self) ch) as [[r | e] |] eqn:Hsend.
  - apply IH.
  - by apply send_to_returns in Hsend.
  - apply IH.
Qed.

(** C7. For a requested list of channels, execute_campaign is the loop
    over the recognized names of the list alone, an unrecognized name
    leaving neither a result nor an exception; when it returns, it returns
    one result for each requested recognized name, in the order of the
    request, and records them in the history; and it returns whenever the
    arguments of the senders have their declared types. *)
Theorem one_result_per_recognized_channel (channels : list pyval)
    (self : manager) :
  dict_get campaign_data "channels" (VList [VStr "email"]) = VList channels →
  let requested := List.filter recognized channels in
  execute_campaign self = campaign_loop requested [] self ∧
  (∀ rs self', execute_campaign self = (Ok rs, self') →
     channel <$> rs = channel_name <$> requested ∧
     length rs = length requested ∧
     execution_history self' = execution_history self ++ rs) ∧
  (declared_types customer_data campaign_data = true →
   ∃ rs self', execute_campaign self = (Ok rs, self')).
Proof.
  intros Hch requested.
  assert (execute_campaign self = campaign_loop channels [] self) as Hexec.
  { unfold Channels.execute_campaign. by rewrite Hch. }
  rewrite Hexec. split; [apply campaign_loop_filter |]. split.
  - intros rs self' (new & -> & Hnames & Hhist)%campaign_loop_results.
    cbn [app]. split; [done |]. split; [| done].
    by rewrite <- (length_fmap channel), Hnames, length_fmap.
  - apply campaign_loop_returns.
Qed.
End Campaign.

Lemma one_result_per_recognized_channel_witness :
  ∃ rs self',
    execute_campaign Examples.tick "cust_0042" Examples.contact
      Examples.campaign Examples.idle_manager = (Ok rs, self') ∧
    channel <$> rs = ["email"; "push"; "sms"].
Proof.
  destruct (one_result_per_recognized_channel Examples.tick "cust_0042"
              Examples.contact Examples.campaign
              [VStr "email"; VStr "fax"; VStr "push"; VStr "sms"]
              Examples.idle_manager eq_refl)
    as (_ & Hresults & Hreturns).
  destruct (Hreturns eq_refl) as (rs & self' & Hrun).
  exists rs, self'. split; [done |].
  by destruct (Hresults rs self' Hrun) as (-> & _).
Defined.

End ChannelsProofs.


Lemma Ok_inv {A} (a b : A) : Ok a = Ok b → a = b.
Proof. by intros [= ->]. Qed.


(* ===================================================================== *)
(** * Further properties of the guardrail gate *)
(* ===================================================================== *)

Module GuardrailsExtraProofs.
Import Guardrails GuardrailsProofs.

(** The checks that run_all_checks files under the seven names. *)
Lemma run_all_checks_results (py_repr : pyval → string)
    (customer_data email_data : pydict) (ok : bool)
    (results : gmap string GuardrailCheck) :
  run_all_checks py_repr customer_data email_data = Ok (ok, results) →
  ∃ frequency spam engagement tone text,
    severity frequency ≠ "critical" ∧ severity spam ≠ "critical" ∧
    severity engagement ≠ "critical" ∧ severity tone ≠ "critical" ∧
    results =
      <["personalization" := check_personalization text]>
     (<["tone_consistency" := tone]>
     (<["can_spam" := check_can_spam email_data]>
     (<["gdpr_consent" :=
          check_gdpr_consent customer_data
            (dict_get customer_data "region" (VStr "EU"))]>
     (<["engagement_score" := engagement]>
     (<["spam_score" := spam]>
     (<["frequency_cap" := frequency]> ∅)))))).
Proof.
  unfold run_all_checks.
  intros (c1 & H1 & H)%bind_Ok.
  apply bind_Ok in H as (c2 & H2 & H).
  apply bind_Ok in H as (c3 & H3 & H).
  apply bind_Ok in H as (c4 & H4 & H).
  apply Ok_pair_inv in H as [_ ->].
  exists c1, c2, c3, c4. eexists. split_and!; [| | | | reflexivity].
  - unfold check_email_frequency in H1.
    apply bind_Ok in H1 as (m & _ & H1).
    apply bind_Ok in H1 as (b & _ & [= <-]). simpl. by destruct b.
  - unfold check_spam_score in H2.
    destruct (dict_get email_data "subject" (VStr "")); try done.
    injection H2 as <-. cbn [severity]. by destruct (negb _).
  - unfold check_engagement_score in H3.
    apply bind_Ok in H3 as (b & _ & H3).
    apply bind_Ok in H3 as (r & _ & [= <-]). simpl. by destruct b.
  - unfold check_tone_consistency in H4.
    apply bind_Ok in H4 as (x1 & _ & H4).
    apply bind_Ok in H4 as (x2 & _ & H4).
    apply bind_Ok in H4 as (b & _ & H4).
    apply bind_Ok in H4 as (r & _ & [= <-]). simpl. by destruct b.
Qed.

(** The CAN-SPAM check fails exactly when a required element is absent
    or falsy, and then it is critical. *)
Lemma can_spam_blocks (email_data : pydict) :
  does_not_block (check_can_spam email_data) = false ↔
  ∃ e, e ∈ ["from_address"; "unsubscribe_link"; "physical_address"] ∧
       py_truthy (dict_get email_data e VNone) = false.
Proof.
  rewrite does_not_block_false. unfold check_can_spam. cbv zeta.
  cbn [passed severity py_truthy List.filter].
  destruct (py_truthy (dict_get email_data "from_address" VNone)) eqn:H1,
           (py_truthy (dict_get email_data "unsubscribe_link" VNone)) eqn:H2,
           (py_truthy (dict_get email_data "physical_address" VNone)) eqn:H3;
    simpl; (split; [intros [Hp Hs] | intros (e & He & Hf)]).
  all: try discriminate Hp.
  all: try (set_unfold in He; destruct He as [-> | [-> | [-> | []]]]; congruence).
  all: try done.
  all: first [ exists "from_address"; split; [set_solver | done]
             | exists "unsubscribe_link"; split; [set_solver | done]
             | exists "physical_address"; split; [set_solver | done] ].
Qed.

Lemma gdpr_blocks (customer_data : pydict) (region : pyval) :
  does_not_block (check_gdpr_consent customer_data region) = false ↔
  py_truthy (dict_get customer_data "gdpr_consent" (VBool false)) = false ∧
  region = VStr "EU".
Proof.
  rewrite does_not_block_false. unfold check_gdpr_consent, py_or.
  cbn [passed severity].
  destruct (py_truthy (dict_get customer_data "gdpr_consent" (VBool false)))
    eqn:Hc.
  - rewrite Hc. cbn. split; intros [? ?]; done.
  - cbn [py_truthy]. unfold py_ne_str.
    destruct (py_eq_str region "EU") eqn:Hr; cbn.
    + apply ChannelsProofs.py_eq_str_true in Hr as ->. by split.
    + split; [intros [_ Hs]; discriminate Hs |].
      intros [_ ->]. vm_compute in Hr. discriminate Hr.
Qed.

(** The aggregate of a gate that returned is false exactly when one of
    the two compliance checks blocks. *)
Lemma compliance_blocks (py_repr : pyval → string)
    (customer_data email_data : pydict) (ok : bool)
    (results : gmap string GuardrailCheck) :
  run_all_checks py_repr customer_data email_data = Ok (ok, results) →
  ok = false ↔
  does_not_block
    (check_gdpr_consent customer_data
       (dict_get customer_data "region" (VStr "EU"))) = false ∨
  does_not_block (check_can_spam email_data) = false.
Proof.
  intros Hrun.
  pose proof Hrun as (-> & _ & _)%run_all_checks_Ok.
  apply run_all_checks_results in Hrun
    as (c1 & c2 & c3 & c4 & text & Hs1 & Hs2 & Hs3 & Hs4 & ->).
  set (gdpr := check_gdpr_consent _ _). set (cs := check_can_spam _).
  rewrite all_critical_passed_false. split.
  - intros (name & c & Hlook & Hfalsy & Hsev).
    assert (does_not_block c = false) as Hblock
      by by apply does_not_block_false.
    repeat (rewrite lookup_insert in Hlook; case_decide;
            [injection Hlook as <- | ]); by (left + right).
  - intros [Hg | Hc].
    + apply does_not_block_false in Hg. exists "gdpr_consent", gdpr.
      split; [| done]. by rewrite !lookup_insert; repeat case_decide.
    + apply does_not_block_false in Hc. exists "can_spam", cs.
      split; [| done]. by rewrite !lookup_insert; repeat case_decide.
Qed.

(** X1. Whenever the gate returns, its overall result is false if and
    only if the GDPR check blocks (the consent flag is absent or falsy and
    the region, "EU" when absent, is "EU") or the CAN-SPAM check blocks
    (one of from_address, unsubscribe_link, physical_address is absent or
    falsy): the frequency, spam, engagement, tone and personalization
    checks never change the overall result. *)
Theorem gate_blocked_by_compliance_only (py_repr : pyval → string)
    (customer_data email_data : pydict) (ok : bool)
    (results : gmap string GuardrailCheck) :
  run_all_checks py_repr customer_data email_data = Ok (ok, results) →
  ok = false ↔
  (py_truthy (dict_get customer_data "gdpr_consent" (VBool false)) = false ∧
   dict_get customer_data "region" (VStr "EU") = VStr "EU") ∨
  (∃ e, e ∈ ["from_address"; "unsubscribe_link"; "physical_address"] ∧
        py_truthy (dict_get email_data e VNone) = false).
Proof.
  intros Hrun. rewrite <- gdpr_blocks, <- can_spam_blocks.
  exact (compliance_blocks py_repr _ _ _ _ Hrun).
Qed.

Lemma gate_blocked_by_compliance_only_witness :
  match run_all_checks Examples.repr_unused
          Examples.customer_without_region Examples.welcome_email with
  | Ok (ok, results) =>
      ok = false ↔
      (py_truthy (dict_get Examples.customer_without_region "gdpr_consent"
                    (VBool false)) = false ∧
       dict_get Examples.customer_without_region "region" (VStr "EU")
       = VStr "EU") ∨
      (∃ e, e ∈ ["from_address"; "unsubscribe_link"; "physical_address"] ∧
            py_truthy (dict_get Examples.welcome_email e VNone) = false)
  | Raise _ => False
  end.
Proof.
  assert (is_Ok (run_all_checks Examples.repr_unused
                   Examples.customer_without_region Examples.welcome_email)
          = true) as Hok by (vm_compute; reflexivity).
  destruct (run_all_checks Examples.repr_unused
              Examples.customer_without_region Examples.welcome_email)
    as [[ok results] | e] eqn:Hrun; [| discriminate Hok].
  apply (gate_blocked_by_compliance_only _ _ _ _ _ Hrun).
Defined.

End GuardrailsExtraProofs.

Module GuardrailsScoreProofs.
Import Guardrails GuardrailsProofs.

Lemma count_le_length {A} (p : A → bool) (l : list A) : count p l ≤ length l.
Proof.
  unfold count. induction l as [|x l IH]; simpl; [done |].
  destruct (p x); simpl; lia.
Qed.

(** The score [min(k / 5.0, 1.0)] is below the threshold 0.7 for at most
    three triggers. *)
Lemma spam_score_below_threshold (k : nat) :
  k ≤ 12 →
  (let ratio := F64.div (F64.of_Z (Z.of_nat k)) (F64.of_Z 5) in
   F64.ltb (if F64.ltb (F64.of_Z 1) ratio then F64.of_Z 1 else ratio)
           Config.SPAM_SCORE_THRESHOLD)
  = (k <=? 3).
Proof.
  intros Hk.
  do 13 (destruct k as [|k]; [vm_compute; reflexivity |]). lia.
Qed.

(** X2. Whenever check_spam_score returns, it has counted at most 12
    triggers (ten keywords, capitals, exclamation marks), it reports the
    count, and it passes exactly when the count is at most 3, the score
    [min(count / 5.0, 1.0)] being below 0.7 for these counts only; a
    failure has severity "error". *)
Theorem spam_check_passes_up_to_three_triggers (py_repr : pyval → string)
    (subject body : pyval) (c : GuardrailCheck) :
  check_spam_score py_repr subject body = Ok c →
  ∃ k : nat,
    k ≤ 12 ∧
    details c !! "spam_triggers_found" = Some (VInt (Z.of_nat k)) ∧
    passed c = VBool (k <=? 3) ∧
    severity c = (if k <=? 3 then "warning" else "error").
Proof.
  unfold check_spam_score. destruct subject as [| | | |s| |]; try done.
  cbv zeta.
  set (content := Str.lower _).
  set (k := count _ SPAM_KEYWORDS + _ + _).
  intros <-%Ok_inv. exists k.
  assert (k ≤ 12) as Hk.
  { unfold k.
    pose proof (count_le_length (λ keyword, Str.contains keyword content)
                  SPAM_KEYWORDS) as Hc.
    change (length SPAM_KEYWORDS) with 10 in Hc.
    destruct (2 <? _), (1 <? _); lia. }
  split; [done |]. cbn [details passed severity].
  pose proof (spam_score_below_threshold k Hk) as Hpass. cbv zeta in Hpass.
  rewrite Hpass. split; [reflexivity |]. split; [reflexivity |].
  by destruct (k <=? 3).
Qed.

Lemma positive_count_existsb {A} (p : A → bool) (l : list A) :
  (0 <? count p l) = existsb p l.
Proof.
  unfold count. induction l as [|x l IH]; simpl; [done |].
  destruct (p x); simpl; [done | exact IH].
Qed.

(** The score of the tone check and its comparison with 0.85, for [n]
    forbidden words found. *)
Lemma tone_score_passes (found : list string) (has_required : bool) :
  length found ≤ 5 →
  ∃ score rounded,
    (capped <-
       py_min (VInt 1)
         (VFloat
            (let score1 :=
               match found with
               | [] => F64.of_Z 1
               | _ => F64.sub (F64.of_Z 1)
                        (F64.mul (F64.of_Z (Z.of_nat (length found)))
                                 (F64.dec 1 10))
               end in
             if has_required then score1
             else F64.sub score1 (F64.dec 2 10)));;
     py_max (VInt 0) capped) = Ok score ∧
    py_ge score (VFloat Config.TONE_CONSISTENCY_THRESHOLD)
    = Ok ((length found <=? 1) && has_required) ∧
    py_round score 3 = Ok rounded.
Proof.
  intros Hlen.
  destruct found as [|w1 [|w2 [|w3 [|w4 [|w5 [|w6 found]]]]]];
    [.. | simpl in Hlen; lia];
    destruct has_required;
    eexists _, _; (split; [vm_compute; reflexivity |]);
    (split; vm_compute; reflexivity).
Qed.

Lemma spam_check_passes_up_to_three_triggers_witness :
  match check_spam_score Examples.repr_unused
          MoreExamples.loud_subject MoreExamples.loud_body with
  | Ok c =>
      ∃ k : nat,
        k ≤ 12 ∧
        details c !! "spam_triggers_found" = Some (VInt (Z.of_nat k)) ∧
        passed c = VBool (k <=? 3) ∧
        severity c = (if k <=? 3 then "warning" else "error")
  | Raise _ => False
  end.
Proof.
  assert (is_Ok (check_spam_score Examples.repr_unused
                   MoreExamples.loud_subject MoreExamples.loud_body) = true)
    as Hok by (vm_compute; reflexivity).
  destruct (check_spam_score Examples.repr_unused
              MoreExamples.loud_subject MoreExamples.loud_body)
    as [c | e] eqn:Hrun; [| discriminate Hok].
  apply (spam_check_passes_up_to_three_triggers _ _ _ _ Hrun).
Defined.

(** X3. check_tone_consistency returns for every text; it reports the
    forbidden words found and passes exactly when at most one forbidden
    word is found and one of the markers "personalization ", "clear cta",
    "brand signature" occurs in the lowered text; it is never critical. *)
Theorem tone_check_passes_iff (text : string) :
  ∃ c found,
    check_tone_consistency text = Ok c ∧
    found = List.filter (λ w, Str.contains w (Str.lower text))
              ["spam"; "cheap"; "limited"; "urgent"; "act now"] ∧
    details c !! "forbidden_words_found" = Some (VList (VStr <$> found)) ∧
    passed c =
      VBool ((length found <=? 1) &&
             existsb (λ marker, Str.contains marker (Str.lower text))
               ["personalization "; "clear cta"; "brand signature"]) ∧
    severity c ≠ "critical".
Proof.
  unfold check_tone_consistency. cbv zeta.
  rewrite positive_count_existsb.
  change (Config.forbidden_words Config.TONE_GUIDELINES)
    with ["spam"; "cheap"; "limited"; "urgent"; "act now"].
  set (found := List.filter _ _).
  set (has_required := existsb _ _).
  assert (length found ≤ 5) as Hlen.
  { unfold found. apply (count_le_length _ ["spam"; "cheap"; "limited"; "urgent"; "act now"]). }
  destruct (tone_score_passes found has_required Hlen)
    as (score & rounded & Hscore & Hge & Hround).
  cbv zeta in Hscore. apply bind_Ok in Hscore as (capped & Hcap & Hmax).
  rewrite Hcap. cbn [bind]. rewrite Hmax. cbn [bind].
  rewrite Hge. cbn [bind]. rewrite Hround. cbn [bind].
  eexists _, found. split; [reflexivity |]. split; [reflexivity |].
  cbn [details passed severity]. split; [reflexivity |]. split.
  - reflexivity.
  - by destruct (negb _).
Qed.



End GuardrailsScoreProofs.

(* ===================================================================== *)
(** * Further properties of the audit ledger *)
(* ===================================================================== *)

Module AuditExtraProofs.
Import Audit AuditProofs.

Abbreviation by_timestamp :=
  (λ a b : string * pydict, String.ltb a.1 b.1).
Abbreviation newest_first :=
  (λ e1 e2 : pydict, String.le (timestamp_of e2) (timestamp_of e1)).

(** The keys that the sort of get_audit_history computes. *)
Lemma keyed_history_inv (history : ledger) (keyed : list (string * pydict)) :
  mapM (λ e, k <- timestamp_key e;; Ok (k, e)) history = Ok keyed →
  keyed = (λ e, (timestamp_of e, e)) <$> history.
Proof.
  revert keyed. induction history as [|e l IH]; simpl; intros keyed.
  - by intros [= <-].
  - intros (y & (k & Hk & [= <-])%bind_Ok & (ys & Hys & [= <-])%bind_Ok)%bind_Ok.
    rewrite (IH ys Hys). f_equal. f_equal.
    unfold timestamp_key in Hk. unfold timestamp_of.
    destruct (e !! "timestamp") as [[]|]; try done. by injection Hk as ->.
Qed.

(** The sorted history is the selected one, newest first. *)
Lemma sorted_history (history : ledger) :
  let full :=
    (sorted_desc by_timestamp ((λ e, (timestamp_of e, e)) <$> history)).*2 in
  full ≡ₚ history ∧ StronglySorted newest_first full.
Proof.
  intros full. unfold full.
  set (keyed := (λ e, (timestamp_of e, e)) <$> history).
  assert (sorted_desc by_timestamp keyed ≡ₚ keyed) as Hperm
    by apply sorted_desc_Permutation.
  split.
  - rewrite Hperm. unfold keyed. rewrite <- list_fmap_compose.
    by rewrite list_fmap_id.
  - apply (StronglySorted_fmap_Forall
             (λ a b : string * pydict, String.le b.1 a.1) _ snd
             (λ p, p.1 = timestamp_of p.2)).
    + by intros [k1 e1] [k2 e2]; simpl; intros -> ->.
    + rewrite Hperm. unfold keyed. apply Forall_fmap, Forall_forall. by intros.
    + apply Sorted_StronglySorted.
      { intros a b c Hab Hbc. by etrans. }
      apply (Sorted_sorted_desc by_timestamp).
      * intros a b. apply not_ltb_le.
      * intros a b. apply ltb_le.
Qed.

Lemma select_history_length (audit_log : ledger) (customer_id : option string) :
  length (select_history audit_log customer_id) ≤ length audit_log.
Proof.
  unfold select_history. destruct customer_id as [c|]; [| done].
  destruct (negb _); [| done].
  induction audit_log as [|e l IH]; simpl; [done |].
  destruct (py_eq_str _ _); simpl; lia.
Qed.

(** The descending order of the timestamp strings is the order of the
    readings, newest first, on readings of one layout. *)
Lemma newest_first_readings (e e' : pydict) (t t' : Clock.datetime) :
  String.le (timestamp_of e') (timestamp_of e) →
  Clock.stamped_at e t → Clock.stamped_at e' t' →
  Clock.valid t = true → Clock.valid t' = true →
  Clock.same_layout t t' = true →
  Clock.earlier t t' = false.
Proof.
  unfold Clock.stamped_at, timestamp_of. intros Hle He He' Ht Ht' Hlayout.
  rewrite He, He' in Hle. unfold Clock.earlier.
  rewrite <- (ClockProofs.stamp_compare t t' Ht Ht' Hlayout).
  unfold String.le, String.leb in Hle.
  rewrite String.compare_antisym in Hle.
  by destruct (String.compare _ _).
Qed.

(** X4. For a limit [>= 0], get_audit_history returns the first [limit]
    entries of the full history (the selected entries, sorted): a
    permutation of the selection is cut after [min(limit, length)]
    entries. No entry that is cut off was stamped at a later reading of the
    clock than an entry that is returned, for entries stamped with the
    isoformat strings of valid readings of one layout: both with
    microseconds, or both on a whole second. *)
Theorem history_limit_keeps_newest (audit_log : ledger)
    (customer_id : option string) (limit : Z) (h : list pydict) :
  (0 ≤ limit)%Z →
  get_audit_history audit_log customer_id limit = Ok h →
  ∃ full,
    get_audit_history audit_log customer_id (Z.of_nat (length audit_log))
      = Ok full ∧
    full ≡ₚ select_history audit_log customer_id ∧
    h = take (Z.to_nat limit) full ∧
    length h = Z.to_nat limit `min` length full ∧
    ∀ e e' t t',
      e ∈ h → e' ∈ drop (Z.to_nat limit) full →
      Clock.stamped_at e t → Clock.stamped_at e' t' →
      Clock.valid t = true → Clock.valid t' = true →
      Clock.same_layout t t' = true →
      Clock.earlier t t' = false.
Proof.
  intros Hlimit. unfold get_audit_history.
  intros (keyed & Hkeyed & <-%Ok_inv)%bind_Ok. rewrite Hkeyed. cbn [bind].
  apply keyed_history_inv in Hkeyed as ->.
  destruct (sorted_history (select_history audit_log customer_id))
    as [Hperm Hsorted].
  set (full := (sorted_desc _ _).*2) in *.
  exists full.
  assert (length full ≤ length audit_log) as Hlen.
  { rewrite (Permutation_length Hperm). apply select_history_length. }
  split.
  { f_equal. unfold py_slice_to.
    destruct (Z.leb_spec 0 (Z.of_nat (length audit_log))); [| lia].
    rewrite Nat2Z.id. by apply take_ge. }
  split; [done |].
  assert (py_slice_to limit full = take (Z.to_nat limit) full) as ->.
  { unfold py_slice_to. by destruct (Z.leb_spec 0 limit); [| lia]. }
  split; [done |]. split; [apply length_take |].
  intros e e' t t' He He'.
  rewrite <- (take_drop (Z.to_nat limit) full) in Hsorted.
  apply (StronglySorted_app_1_elem_of _ _ _ e e') in Hsorted; [| done..].
  by apply newest_first_readings.
Qed.

Lemma history_limit_keeps_newest_witness :
  match get_audit_history MoreExamples.stamped_ledger None 1 with
  | Ok h =>
      ∃ full,
        get_audit_history MoreExamples.stamped_ledger None
          (Z.of_nat (length MoreExamples.stamped_ledger)) = Ok full ∧
        full ≡ₚ select_history MoreExamples.stamped_ledger None ∧
        h = take (Z.to_nat 1) full ∧
        length h = Z.to_nat 1 `min` length full ∧
        ∀ e e' t t',
          e ∈ h → e' ∈ drop (Z.to_nat 1) full →
          Clock.stamped_at e t → Clock.stamped_at e' t' →
          Clock.valid t = true → Clock.valid t' = true →
          Clock.same_layout t t' = true →
          Clock.earlier t t' = false
  | Raise _ => False
  end.
Proof.
  assert (is_Ok (get_audit_history MoreExamples.stamped_ledger None 1)
          = true) as Hok by (vm_compute; reflexivity).
  destruct (get_audit_history MoreExamples.stamped_ledger None 1)
    as [h | e] eqn:Hrun; [| discriminate Hok].
  apply (history_limit_keeps_newest _ _ 1 h); [lia | exact Hrun].
Defined.

(** The limit 1 on the ledger of two appends a second apart: the entry
    returned is the override, stamped at the later reading. *)
Example stamped_ledger_newest :
  Clock.earlier MoreExamples.one_past_noon MoreExamples.two_past_noon = true ∧
  Clock.same_layout MoreExamples.one_past_noon MoreExamples.two_past_noon
  = true ∧
  match get_audit_history MoreExamples.stamped_ledger None 1 with
  | Ok [e] => Clock.stamped_at e MoreExamples.two_past_noon
  | _ => False
  end.
Proof. repeat split; vm_compute; reflexivity. Qed.

(** X5. For a customer id that is not empty and a limit of at least the
    length of the ledger, the history of the customer holds exactly the
    entries of the ledger whose customer_id is that id. *)
Theorem customer_history_complete (audit_log : ledger) (c : string)
    (limit : Z) (h : list pydict) :
  c ≠ "" →
  (Z.of_nat (length audit_log) ≤ limit)%Z →
  get_audit_history audit_log (Some c) limit = Ok h →
  ∀ e, e ∈ h ↔ e ∈ audit_log ∧ e !! "customer_id" = Some (VStr c).
Proof.
  intros Hc Hlimit. unfold get_audit_history.
  intros (keyed & Hkeyed & <-%Ok_inv)%bind_Ok.
  apply keyed_history_inv in Hkeyed as ->.
  destruct (sorted_history (select_history audit_log (Some c)))
    as [Hperm _].
  set (full := (sorted_desc _ _).*2) in *.
  assert (py_slice_to limit full = full) as ->.
  { unfold py_slice_to. destruct (Z.leb_spec 0 limit); [| lia].
    apply take_ge. rewrite (Permutation_length Hperm).
    pose proof (select_history_length audit_log (Some c)). lia. }
  intros e. rewrite Hperm. unfold select_history.
  assert (String.eqb c "" = false) as -> by by apply String.eqb_neq.
  cbn [negb]. rewrite list_elem_of_In, filter_In, <- list_elem_of_In.
  split; intros [Hin Heq]; (split; [done |]).
  - unfold py_eq_str, dict_get in Heq.
    destruct (e !! "customer_id") as [[]|]; try done.
    simpl in Heq. by apply String.eqb_eq in Heq as ->.
  - unfold py_eq_str, dict_get. rewrite Heq. simpl. by apply String.eqb_eq.
Qed.

Lemma customer_history_complete_witness :
  match get_audit_history Examples.ledger_with_override
          (Some "cust_0042") 100 with
  | Ok h =>
      ∀ e, e ∈ h ↔
           e ∈ Examples.ledger_with_override ∧
           e !! "customer_id" = Some (VStr "cust_0042")
  | Raise _ => False
  end.
Proof.
  assert (is_Ok (get_audit_history Examples.ledger_with_override
                   (Some "cust_0042") 100) = true)
    as Hok by (vm_compute; reflexivity).
  destruct (get_audit_history Examples.ledger_with_override
              (Some "cust_0042") 100) as [h | e] eqn:Hrun;
    [| discriminate Hok].
  apply (customer_history_complete _ "cust_0042" 100 h);
    [discriminate | vm_compute; discriminate | exact Hrun].
Defined.

(** A stable sort leaves a list without ascents as it is. *)
Lemma sorted_desc_stable {A} (lt : A → A → bool) (l : list A) :
  (∀ x y, x ∈ l → y ∈ l → lt x y = false) → sorted_desc lt l = l.
Proof.
  induction l as [|x l IH]; intros Hlt; simpl; [done |].
  rewrite IH by (intros ? ? ? ?; apply Hlt; by right).
  destruct l as [|y l]; simpl; [done |].
  rewrite Hlt; [done | by left | by right; left].
Qed.

Lemma ltb_irrefl (s : string) : String.ltb s s = false.
Proof.
  unfold String.ltb.
  assert (String.compare s s = Eq) as ->; [| done].
  induction s as [|a s IH]; simpl; [done |].
  unfold Ascii.compare. by rewrite N.compare_refl.
Qed.

(** X6. When all entries carry one timestamp, the sort of
    get_audit_history leaves them in the order of their appending: the
    unfiltered history is the ledger cut at the limit. *)
Theorem same_reading_keeps_append_order (audit_log : ledger) (ts : string)
    (limit : Z) :
  Forall (λ e, e !! "timestamp" = Some (VStr ts)) audit_log →
  get_audit_history audit_log None limit = Ok (py_slice_to limit audit_log).
Proof.
  intros Hts. unfold get_audit_history. cbn [select_history].
  rewrite keyed_history.
  2: { eapply Forall_impl; [exact Hts |]. intros e He. by exists ts. }
  cbn [bind]. f_equal. f_equal.
  rewrite sorted_desc_stable.
  - rewrite <- list_fmap_compose. by rewrite list_fmap_id.
  - intros [k1 e1] [k2 e2] (e1' & [= -> ->] & H1)%list_elem_of_fmap
      (e2' & [= -> ->] & H2)%list_elem_of_fmap. simpl.
    rewrite Forall_forall in Hts.
    unfold timestamp_of. rewrite (Hts _ H1), (Hts _ H2). apply ltb_irrefl.
Qed.



Lemma same_reading_keeps_append_order_witness :
  get_audit_history MoreExamples.burst_ledger None 1
  = Ok (py_slice_to 1 MoreExamples.burst_ledger).
Proof.
  apply (same_reading_keeps_append_order MoreExamples.burst_ledger
           "2024-01-01T12:00:00.000001Z" 1).
  apply Forall_cons; split; [vm_compute; reflexivity |].
  apply Forall_cons; split; [vm_compute; reflexivity |].
  apply Forall_nil_2.
Defined.

End AuditExtraProofs.

(* ===================================================================== *)
(** * Further properties of the experiment engine *)
(* ===================================================================== *)

Module MetricsExtraProofs.
Import Metrics MetricsProofs OrderProofs.

(** X7. A winner returned by get_statistical_winner is the id of a
    variant listed after the first one, the control, and the conversion
    rate of that variant is greater than the conversion rate of the
    control. *)
Theorem winner_beats_control (t : ABTest) (w : string) :
  get_statistical_winner t = Ok (Some w) →
  ∃ control rest variant rate control_rate,
    (variants t).*2 = control :: rest ∧
    variant ∈ rest ∧
    variant_id variant = w ∧
    conversion_rate variant = Ok rate ∧
    conversion_rate control = Ok control_rate ∧
    py_gt rate control_rate = Ok true.
Proof.
  unfold get_statistical_winner.
  destruct (length (variants t) <? 2); [done |].
  destruct ((variants t).*2) as [|control rest]; [done |].
  intros Hloop. exists control, rest.
  induction rest as [|v rest IH]; [done |].
  cbn [first_winner] in Hloop.
  apply bind_Ok in Hloop as ([] & Hwon & Hloop).
  - injection Hloop as <-.
    unfold beats_control in Hwon.
    apply bind_Ok in Hwon as (chi & _ & Hwon).
    apply bind_Ok in Hwon as (p & _ & Hwon).
    destruct (F64.ltb p _); [| done].
    apply bind_Ok in Hwon as (rate & Hrate & Hwon).
    apply bind_Ok in Hwon as (crate & Hcrate & Hgt).
    exists v, rate, crate. split_and!; try done. by left.
  - destruct (IH Hloop) as (v' & r & cr & ? & ? & ? & ? & ? & ?).
    exists v', r, cr. split_and!; try done. by right.
Qed.

Lemma winner_beats_control_witness :
  ∃ control rest variant rate control_rate,
    (variants (Examples.experiment default_confidence_level
                 Examples.control_50 Examples.variant_90)).*2
    = control :: rest ∧
    variant ∈ rest ∧
    variant_id variant = "variant_b" ∧
    conversion_rate variant = Ok rate ∧
    conversion_rate control = Ok control_rate ∧
    py_gt rate control_rate = Ok true.
Proof.
  apply (winner_beats_control
           (Examples.experiment default_confidence_level
              Examples.control_50 Examples.variant_90) "variant_b").
  vm_compute. reflexivity.
Defined.

Lemma x_leb_ltb_trans (a b c : xreal) :
  x_leb a b = true → x_ltb b c = true → x_ltb a c = true.
Proof.
  destruct a as [| |a|], b as [| |b|], c as [| |c|]; simpl; try done.
  rewrite !Qltb_lt, Qle_bool_iff. apply Qle_lt_trans.
Qed.

(** X8. _chi_square_to_p_value is antitone: for statistics
    [chi1 <= chi2] it returns p-values [p2 <= p1], both between 0.001 and
    0.10. *)
Theorem p_value_steps_down (chi1 chi2 : pyval) :
  py_le chi1 chi2 = Ok true →
  ∃ p1 p2,
    _chi_square_to_p_value chi1 = Ok p1 ∧
    _chi_square_to_p_value chi2 = Ok p2 ∧
    F64.leb p2 p1 = true ∧
    F64.leb (F64.dec 1 1000) p2 = true ∧ F64.leb p1 (F64.dec 10 100) = true.
Proof.
  intros (x1 & x2 & H1 & H2 & Hle)%py_cmp_Ok. symmetry in Hle.
  unfold _chi_square_to_p_value, py_lt, py_cmp. rewrite H1, H2.
  cbn [num_val bind].
  pose proof (λ c, x_leb_ltb_trans x1 x2 c Hle) as Hmono.
  destruct (x_ltb x1 (F64.val (F64.dec 27 10))) eqn:Ha1;
    destruct (x_ltb x2 (F64.val (F64.dec 27 10))) eqn:Ha2; cbn [bind];
    destruct (x_ltb x1 (F64.val (F64.dec 38 10))) eqn:Hb1;
    destruct (x_ltb x2 (F64.val (F64.dec 38 10))) eqn:Hb2; cbn [bind];
    destruct (x_ltb x1 (F64.val (F64.dec 66 10))) eqn:Hc1;
    destruct (x_ltb x2 (F64.val (F64.dec 66 10))) eqn:Hc2; cbn [bind];
    try (rewrite (Hmono _ Ha2) in Ha1; discriminate);
    try (rewrite (Hmono _ Hb2) in Hb1; discriminate);
    try (rewrite (Hmono _ Hc2) in Hc1; discriminate);
    eexists _, _; (split; [reflexivity |]); (split; [reflexivity |]);
    (split; [| split]; vm_compute; reflexivity).
Qed.

Lemma p_value_steps_down_witness :
  ∃ p1 p2,
    _chi_square_to_p_value (VInt 3) = Ok p1 ∧
    _chi_square_to_p_value (VFloat (F64.dec 114 10)) = Ok p2 ∧
    F64.leb p2 p1 = true ∧
    F64.leb (F64.dec 1 1000) p2 = true ∧ F64.leb p1 (F64.dec 10 100) = true.
Proof.
  apply (p_value_steps_down (VInt 3) (VFloat (F64.dec 114 10))).
  vm_compute. reflexivity.
Defined.

(** The conversion rate and the pooled proportion without conversions. *)
Lemma zero_over_count (n : Z) :
  n ≠ 0%Z → ∃ s, int_true_div 0 n = Ok (S754_zero s).
Proof.
  intros Hn. unfold int_true_div.
  destruct (Z.eqb_spec n 0) as [| _]; [done |].
  destruct n; [done | |]; by eexists.
Qed.

(** X9. For two variants that both have impressions and no conversion,
    with impression counts that convert to finite floats, the pooled
    proportion is 0.0, the expected counts are 0.0, and
    _calculate_chi_square raises ZeroDivisionError; so does
    get_statistical_winner on a test of these two variants. *)
Theorem no_conversions_raise (t : ABTest) (kc kv : string)
    (control variant : ABTestVariant) :
  variants t = [(kc, control); (kv, variant)] →
  impressions control ≠ 0%Z → impressions variant ≠ 0%Z →
  (impressions control + impressions variant)%Z ≠ 0%Z →
  conversions control = 0%Z → conversions variant = 0%Z →
  float_is_finite (F64.of_Z (impressions control)) = true →
  float_is_finite (F64.of_Z (impressions variant)) = true →
  _calculate_chi_square control variant = Raise ZeroDivisionError ∧
  get_statistical_winner t = Raise ZeroDivisionError.
Proof.
  intros Hv Hn1 Hn2 Hsum Hc1 Hc2 Hfin1 Hfin2.
  assert (_calculate_chi_square control variant = Raise ZeroDivisionError)
    as Hchi.
  { unfold _calculate_chi_square, conversion_rate.
    destruct (Z.eqb_spec (impressions control) 0) as [| _]; [done |].
    destruct (Z.eqb_spec (impressions variant) 0) as [| _]; [done |].
    rewrite Hc1, Hc2.
    destruct (zero_over_count _ Hn1) as [s1 ->].
    destruct (zero_over_count _ Hn2) as [s2 ->].
    cbn [bind orb]. change (0 + 0)%Z with 0%Z.
    destruct (zero_over_count _ Hsum) as [s ->]. cbn [bind].
    unfold int_to_float.
    destruct (F64.of_Z (impressions control)) as [| | |sn m e];
      try discriminate Hfin1;
      destruct (F64.of_Z (impressions variant)) as [| | |sn' m' e'];
      try discriminate Hfin2.
    destruct sn, s; vm_compute; reflexivity. }
  split; [done |].
  unfold get_statistical_winner. rewrite Hv. cbn.
  unfold beats_control. by rewrite Hchi.
Qed.

Lemma no_conversions_raise_witness :
  get_statistical_winner
    (Examples.experiment default_confidence_level
       MoreExamples.control_idle MoreExamples.variant_idle)
  = Raise ZeroDivisionError.
Proof.
  apply (no_conversions_raise
           (Examples.experiment default_confidence_level
              MoreExamples.control_idle MoreExamples.variant_idle)
           "control" "variant_b"
           MoreExamples.control_idle MoreExamples.variant_idle);
    try reflexivity; try discriminate.
Defined.

End MetricsExtraProofs.

(* ===================================================================== *)
(** * Further properties of the abandoned-cart policy *)
(* ===================================================================== *)

Module AbandonedCartExtraProofs.
Import Agent AbandonedCart AbandonedCartProofs OrderProofs.

(** X10. For every cart value that is a number, _calculate_incentive
    offers a VIP customer strictly less than a regular customer; both
    discounts lie between 10 and 25 percent, below the configured maximum
    of 30 percent. *)
Theorem vip_incentive_is_smaller (cart_value vip regular : pyval) :
  is_Some (num_val cart_value) →
  py_truthy vip = true → py_truthy regular = false →
  ∃ i_vip i_regular,
    _calculate_incentive cart_value vip = Ok i_vip ∧
    _calculate_incentive cart_value regular = Ok i_regular ∧
    (10 ≤ i_vip < i_regular)%Z ∧ (i_regular ≤ 25)%Z ∧
    (i_regular ≤ MAX_DISCOUNT_PERCENT)%Z.
Proof.
  intros [x Hx] Hvip Hreg. unfold _calculate_incentive, MAX_DISCOUNT_PERCENT.
  rewrite Hvip, Hreg, !(py_gt_const cart_value x) by done.
  destruct (x_ltb (XFin (500 # 1)) x), (x_ltb (XFin (200 # 1)) x);
    cbn [bind]; eexists _, _; (split; [reflexivity |]);
    (split; [reflexivity |]); lia.
Qed.

Lemma vip_incentive_is_smaller_witness :
  ∃ i_vip i_regular,
    _calculate_incentive (VFloat (F64.dec 2505 10)) (VBool true) = Ok i_vip ∧
    _calculate_incentive (VFloat (F64.dec 2505 10)) VNone = Ok i_regular ∧
    (10 ≤ i_vip < i_regular)%Z ∧ (i_regular ≤ 25)%Z ∧
    (i_regular ≤ MAX_DISCOUNT_PERCENT)%Z.
Proof.
  apply (vip_incentive_is_smaller (VFloat (F64.dec 2505 10)) (VBool true) VNone);
    [vm_compute; eauto | reflexivity | reflexivity].
Defined.




End AbandonedCartExtraProofs.

(* ===================================================================== *)
(** * Further properties of the creative-testing policy *)
(* ===================================================================== *)

Module CreativeTestingExtraProofs.
Import CreativeTesting CreativeShares OrderProofs.

Abbreviation by_score :=
  (λ a b : scored_variation, F64.ltb (overall_score a) (overall_score b)).
Abbreviation scores_at_least :=
  (λ a b : scored_variation,
     F64.leb (overall_score b) (overall_score a) = true).

Lemma x_ltb_false_leb (a b : xreal) :
  a ≠ XNaN → b ≠ XNaN → x_ltb a b = false → x_leb b a = true.
Proof.
  destruct a as [| |p|], b as [| |q|]; simpl; try done.
  unfold Qltb. by rewrite negb_false_iff.
Qed.

Lemma x_ltb_true_leb (a b : xreal) : x_ltb a b = true → x_leb a b = true.
Proof.
  destruct a as [| |p|], b as [| |q|]; simpl; try done.
  rewrite Qltb_lt, Qle_bool_iff. apply Qlt_le_weak.
Qed.

Lemma x_leb_trans (a b c : xreal) :
  x_leb a b = true → x_leb b c = true → x_leb a c = true.
Proof.
  destruct a as [| |p|], b as [| |q|], c as [| |r|]; simpl; try done.
  rewrite !Qle_bool_iff. apply Qle_trans.
Qed.

Lemma val_not_nan (f : spec_float) :
  float_is_nan f = false → F64.val f ≠ XNaN.
Proof. destruct f as [[]|[]| |]; simpl; done. Qed.

Lemma score_all_creative (uniform : nat → spec_float) (drawn : nat)
    (variations : list variation) :
  creative <$> score_all uniform drawn variations = variations.
Proof.
  revert drawn. induction variations as [|v l IH]; intros drawn; simpl;
    [done |]. by rewrite IH.
Qed.

(** The order that the sort leaves between two neighbours, for scores that
    are numbers. *)
Lemma Sorted_ranking (l : list scored_variation) :
  Sorted (λ a b, float_is_nan (overall_score a) = false →
                 float_is_nan (overall_score b) = false →
                 scores_at_least a b)
    (sorted_desc by_score l).
Proof.
  apply (Sorted_sorted_desc by_score).
  - intros x y Hlt Hx Hy. by apply x_ltb_false_leb; [apply val_not_nan.. |].
  - intros x y Hlt _ _. by apply x_ltb_true_leb.
Qed.

Lemma Sorted_Forall_impl {A} (P : A → Prop) (R1 R2 : relation A) (l : list A) :
  (∀ x y, P x → P y → R1 x y → R2 x y) →
  Forall P l → Sorted R1 l → Sorted R2 l.
Proof.
  intros HR HP Hs. revert HP.
  induction Hs as [|x l Hs IH Hhd]; intros HP; [constructor |].
  apply Forall_cons in HP as [HPx HPl]. constructor; [by apply IH |].
  destruct Hhd as [|y l Hxy]; constructor.
  apply Forall_cons in HPl as [HPy _]. by apply HR.
Qed.

(** X12. When no overall score is NaN, _score_variations returns a
    permutation of the scored creatives, one for each creative given, in
    which no creative is followed by one with a greater overall score. *)
Theorem ranking_is_descending (uniform : nat → spec_float)
    (variations : list variation) :
  forallb (λ s, negb (float_is_nan (overall_score s)))
    (score_all uniform 0 variations) = true →
  _score_variations uniform variations ≡ₚ score_all uniform 0 variations ∧
  creative <$> _score_variations uniform variations ≡ₚ variations ∧
  StronglySorted scores_at_least (_score_variations uniform variations).
Proof.
  intros Hnum. unfold _score_variations.
  set (scored := score_all uniform 0 variations) in *.
  assert (sorted_desc by_score scored ≡ₚ scored) as Hperm
    by apply sorted_desc_Permutation.
  split; [done |]. split.
  { rewrite Hperm. unfold scored. by rewrite score_all_creative. }
  apply Sorted_StronglySorted.
  { intros a b c Hab Hbc. by eapply x_leb_trans. }
  apply (Sorted_Forall_impl (λ s, float_is_nan (overall_score s) = false)
           _ _ _ (λ x y Hx Hy H, H Hx Hy)); [| apply Sorted_ranking].
  rewrite Hperm. apply Forall_forall. intros s Hs.
  rewrite forallb_forall in Hnum. apply negb_true_iff, Hnum.
  by apply list_elem_of_In.
Qed.

Lemma ranking_is_descending_witness :
  _score_variations Examples.control_scores_lowest (_generate_variations ∅)
    ≡ₚ score_all Examples.control_scores_lowest 0 (_generate_variations ∅) ∧
  creative <$>
    _score_variations Examples.control_scores_lowest (_generate_variations ∅)
    ≡ₚ _generate_variations ∅ ∧
  StronglySorted scores_at_least
    (_score_variations Examples.control_scores_lowest (_generate_variations ∅)).
Proof.
  apply (ranking_is_descending Examples.control_scores_lowest
           (_generate_variations ∅)).
  vm_compute. reflexivity.
Defined.

(** ** The allocation of the five generated creatives *)

Abbreviation share_of share :=
  (λ (m : gmap string variant_allocation) (v : scored_variation),
     <[name (creative v) := share]> m).

(** The loop after its first round, for five creatives. *)
Lemma allocate_others (i : nat) (l : list scored_variation)
    (m : gmap string variant_allocation) :
  allocate (F64.dec 30 100) (F64.div (F64.dec 70 100) (F64.of_Z 4)) 10000
    (S i) l m
  = Ok (foldl (share_of other_share) m l).
Proof.
  revert i m. induction l as [|v l IH]; intros i m; [done |].
  cbn [allocate foldl Nat.eqb].
  assert (F64Ops.trunc
            (F64.mul (F64.of_Z 10000) (F64.div (F64.dec 70 100) (F64.of_Z 4)))
          = Ok 1750%Z) as -> by (vm_compute; reflexivity).
  cbn [bind].
  assert (F64Ops.round_digits
            (F64.mul (F64.div (F64.dec 70 100) (F64.of_Z 4)) (F64.of_Z 100)) 1
          = F64.dec 175 10) as -> by (vm_compute; reflexivity).
  apply IH.
Qed.

Lemma design_five (v : scored_variation) (l : list scored_variation) :
  length l = 4 →
  _design_test_allocation (v :: l)
  = Ok {| total_sample_size := 10000;
          variants := foldl (share_of other_share)
                        (<[name (creative v) := top_share]> ∅) l |}.
Proof.
  intros Hlen. unfold _design_test_allocation. cbn [length]. rewrite Hlen.
  change (Z.of_nat 5 - 1 =? 0)%Z with false. cbv iota.
  change (Z.of_nat 5 - 1)%Z with 4%Z.
  cbn [allocate Nat.eqb].
  assert (F64Ops.trunc (F64.mul (F64.of_Z 10000) (F64.dec 30 100))
          = Ok 3000%Z) as -> by (vm_compute; reflexivity).
  cbn [bind].
  assert (F64Ops.round_digits (F64.mul (F64.dec 30 100) (F64.of_Z 100)) 1
          = F64.of_Z 30) as -> by (vm_compute; reflexivity).
  by rewrite allocate_others.
Qed.

Lemma shares_to_list (share : variant_allocation) (l : list scored_variation)
    (m : gmap string variant_allocation) :
  NoDup (name ∘ creative <$> l) →
  (∀ v, v ∈ l → m !! name (creative v) = None) →
  map_to_list (foldl (share_of share) m l)
  ≡ₚ ((λ v, (name (creative v), share)) <$> l) ++ map_to_list m.
Proof.
  revert m. induction l as [|v l IH]; intros m Hnd Hfresh; [done |].
  cbn [foldl fmap list_fmap]. apply NoDup_cons in Hnd as [Hv Hnd].
  rewrite IH; [| done |].
  - rewrite map_to_list_insert by (apply Hfresh; by left).
    simpl. by rewrite Permutation_middle.
  - intros w Hw. rewrite lookup_insert_ne; [apply Hfresh; by right |].
    intros Heq. apply Hv.
    pose proof (list_elem_of_fmap_2 (name ∘ creative) _ _ Hw) as Hin.
    simpl in Hin |- *. by rewrite Heq.
Qed.

(** The ranking of the generated creatives has five entries, and their
    allocation returns. *)
Lemma ranking_of_five (uniform : nat → spec_float)
    (original_creative : pydict) :
  ∃ v l,
    _score_variations uniform (_generate_variations original_creative)
    = v :: l ∧ length l = 4.
Proof.
  pose proof (Permutation_length
                (sorted_desc_Permutation by_score
                   (score_all uniform 0
                      (_generate_variations original_creative)))) as Hlen.
  fold (_score_variations uniform (_generate_variations original_creative))
    in Hlen.
  rewrite <- (length_fmap creative (score_all _ _ _)), score_all_creative
    in Hlen.
  cbn [_generate_variations length] in Hlen.
  destruct (_score_variations uniform _) as [|v l]; [done |].
  exists v, l. split; [done |]. simpl in Hlen. lia.
Qed.

Lemma samples_Permutation (l l' : list (string * variant_allocation)) :
  l ≡ₚ l' →
  foldr Z.add 0%Z (sample_size <$> l.*2)
  = foldr Z.add 0%Z (sample_size <$> l'.*2).
Proof.
  induction 1 as [|x l l' _ IH|x y l|l l' l'' _ IH1 _ IH2]; csimpl in *; lia.
Qed.

(** X13. For all readings of the random generator and every original
    creative, the allocation of the five generated creatives returns; the
    first creative of the ranking receives 30.0% and 3000 samples, each of
    the four others 17.5% and 1750 samples, and the sample sizes add up to
    the total sample size 10000. *)
Theorem allocation_shares_are_fixed (uniform : nat → spec_float)
    (original_creative : pydict) :
  ∃ a top rest,
    test_allocation uniform original_creative = Ok a ∧
    name ∘ creative
      <$> _score_variations uniform (_generate_variations original_creative)
      = top :: rest ∧
    map_to_list (variants a)
      ≡ₚ (top, top_share) :: ((λ n, (n, other_share)) <$> rest) ∧
    length rest = 4 ∧
    foldr Z.add 0%Z (sample_size <$> (map_to_list (variants a)).*2)
      = total_sample_size a.
Proof.
  unfold test_allocation.
  set (ranking := _score_variations uniform _).
  assert (ranking ≡ₚ score_all uniform 0 (_generate_variations original_creative))
    as Hperm by apply sorted_desc_Permutation.
  assert (name ∘ creative <$> ranking
          ≡ₚ ["Control (Original)"; "Variation A (Curiosity-driven)";
              "Variation B (Benefit-focused)"; "Variation C (FOMO/Urgency)";
              "Variation D (Social Proof)"]) as Hnames.
  { rewrite Hperm, list_fmap_compose, score_all_creative. done. }
  assert (NoDup (name ∘ creative <$> ranking)) as Hnd.
  { rewrite Hnames. apply (bool_decide_unpack _). vm_compute. reflexivity. }
  pose proof (Permutation_length Hnames) as Hlen.
  rewrite length_fmap in Hlen. cbn [length] in Hlen.
  destruct ranking as [|v l]; [done |].
  assert (length l = 4) as Hl by (simpl in Hlen; lia).
  rewrite (design_five v l Hl).
  cbn [fmap list_fmap] in Hnd |- *. apply NoDup_cons in Hnd as [Hv Hnd].
  assert (map_to_list
            (foldl (share_of other_share)
               (<[name (creative v) := top_share]> ∅) l)
          ≡ₚ (name (creative v), top_share)
               :: ((λ n, (n, other_share)) <$> (name ∘ creative <$> l)))
    as Hlist.
  { rewrite shares_to_list; [| done |].
    - rewrite insert_empty, map_to_list_singleton.
      rewrite <- list_fmap_compose.
      by rewrite <- Permutation_cons_append.
    - intros w Hw. rewrite lookup_insert_ne; [done |].
      intros Heq. apply Hv.
      pose proof (list_elem_of_fmap_2 (name ∘ creative) _ _ Hw) as Hin.
      simpl in Hin |- *. by rewrite Heq. }
  eexists _, _, _. split; [reflexivity |]. split; [reflexivity |].
  cbn [variants total_sample_size]. split; [exact Hlist |].
  split; [by rewrite length_fmap |].
  rewrite (samples_Permutation _ _ Hlist).
  destruct l as [|v1 [|v2 [|v3 [|v4 [|v5 l]]]]]; try done.
Qed.

End CreativeTestingExtraProofs.

(* ===================================================================== *)
(** * Further properties of the dispatch fan-out *)
(* ===================================================================== *)

Module ChannelsExtraProofs.
Import Channels ChannelsProofs.

Section Campaign.
Variable clock : nat → instant.
Variable customer_id : string.
Variables customer_data campaign_data : pydict.

Abbreviation send_to :=
  (send_to clock customer_id customer_data campaign_data).
Abbreviation campaign_loop :=
  (campaign_loop clock customer_id customer_data campaign_data).
Abbreviation execute_campaign :=
  (execute_campaign clock customer_id customer_data campaign_data).

(** A loop that raises stopped at a channel whose sender raised, after
    the loop over the channels before it had returned. *)
Lemma campaign_loop_raises (channels : list pyval)
    (results : list ExecutionResult) (self self' : manager) (e : exn) :
  campaign_loop channels results self = (Raise e, self') →
  ∃ before ch after sent,
    channels = before ++ ch :: after ∧
    campaign_loop before results self = (Ok sent, self') ∧
    send_to (clock_reads self') ch = Some (Raise e).
Proof.
  revert results self.
  induction channels as [|ch rest IH]; intros results self; [done |].
  cbn [Channels.campaign_loop].
  destruct (send_to (clock_reads self) ch) as [[r | e'] |] eqn:Hsend.
  - intros (before & ch' & after & sent & -> & Hloop & Hraise)%IH.
    exists (ch :: before), ch', after, sent. split; [done |].
    split; [| done]. cbn [Channels.campaign_loop]. by rewrite Hsend.
  - intros [= <- <-]. by exists [], ch, rest, results.
  - intros (before & ch' & after & sent & -> & Hloop & Hraise)%IH.
    exists (ch :: before), ch', after, sent. split; [done |].
    split; [| done]. cbn [Channels.campaign_loop]. by rewrite Hsend.
Qed.

(** X14. When execute_campaign raises, it stopped at a requested channel
    whose sender raised that exception; the sends for the channels before
    it had returned, and their results, which the caller does not receive,
    are in the execution history. *)
Theorem failed_send_keeps_earlier_sends (channels : list pyval)
    (self self' : manager) (e : exn) :
  dict_get campaign_data "channels" (VList [VStr "email"]) = VList channels →
  execute_campaign self = (Raise e, self') →
  ∃ before ch after sent,
    channels = before ++ ch :: after ∧
    campaign_loop before [] self = (Ok sent, self') ∧
    send_to (clock_reads self') ch = Some (Raise e) ∧
    execution_history self' = execution_history self ++ sent ∧
    channel <$> sent = channel_name <$> List.filter recognized before.
Proof.
  intros Hch. unfold Channels.execute_campaign. rewrite Hch. cbn [py_iter].
  intros (before & ch & after & sent & -> & Hloop & Hraise)%campaign_loop_raises.
  exists before, ch, after, sent. split; [done |]. split; [done |].
  split; [done |].
  apply campaign_loop_results in Hloop as (new & Hsent & Hnames & Hhist).
  cbn [app] in Hsent. by subst new.
Qed.

(** Every result of the loop was returned by a sender. *)
Lemma campaign_loop_sent (channels : list pyval)
    (results rs : list ExecutionResult) (self self' : manager) :
  campaign_loop channels results self = (Ok rs, self') →
  ∃ new, rs = results ++ new ∧
         Forall (λ r, ∃ k ch, send_to k ch = Some (Ok r)) new.
Proof.
  revert results self.
  induction channels as [|ch rest IH]; intros results self.
  - intros [= <- <-]. exists []. by rewrite app_nil_r.
  - cbn [Channels.campaign_loop].
    destruct (send_to (clock_reads self) ch) as [[r | e] |] eqn:Hsend.
    + intros (new & -> & Hnew)%IH. exists (r :: new).
      rewrite <- app_assoc. split; [done |]. constructor; [| done]. eauto.
    + done.
    + apply IH.
Qed.

(** X15. For a customer whose whatsapp_consent is absent or falsy, every
    WhatsApp result that execute_campaign returns has the status
    "skipped", an empty message id, and the reason as its only detail. *)
Theorem whatsapp_sent_only_with_consent (channels : list pyval)
    (self self' : manager) (rs : list ExecutionResult) :
  py_truthy (dict_get customer_data "whatsapp_consent" (VBool false)) = false →
  dict_get campaign_data "channels" (VList [VStr "email"]) = VList channels →
  execute_campaign self = (Ok rs, self') →
  ∀ r, r ∈ rs → channel r = "whatsapp" →
       status r = "skipped" ∧ message_id r = "" ∧
       details r = <["reason" := VStr "No WhatsApp consent"]> ∅.
Proof.
  intros Hconsent Hch. unfold Channels.execute_campaign. rewrite Hch.
  cbn [py_iter].
  intros (new & -> & Hsent)%campaign_loop_sent r Hr Hname. cbn [app] in Hr.
  rewrite Forall_forall in Hsent.
  destruct (Hsent r Hr) as (k & ch & Hsend).
  pose proof (send_to_channel clock customer_id customer_data campaign_data
                k ch r Hsend) as Hchannel.
  rewrite Hname in Hchannel.
  destruct ch as [| | | |s| |]; try done. cbn [channel_name] in Hchannel.
  subst s. unfold Channels.send_to in Hsend.
  cbn [py_eq_str String.eqb Ascii.eqb Bool.eqb] in Hsend.
  apply (inj Some) in Hsend. revert Hsend.
  unfold send_whatsapp. rewrite Hconsent. cbn [negb].
  by intros [= <-].
Qed.
End Campaign.

Lemma failed_send_keeps_earlier_sends_witness :
  match Channels.execute_campaign Examples.tick "cust_0042"
          MoreExamples.contact_without_phone MoreExamples.campaign_with_sms
          Examples.idle_manager with
  | (Raise e, self') =>
      ∃ before ch after sent,
        [VStr "email"; VStr "sms"; VStr "push"] = before ++ ch :: after ∧
        Channels.campaign_loop Examples.tick "cust_0042"
          MoreExamples.contact_without_phone MoreExamples.campaign_with_sms
          before [] Examples.idle_manager = (Ok sent, self') ∧
        Channels.send_to Examples.tick "cust_0042"
          MoreExamples.contact_without_phone MoreExamples.campaign_with_sms
          (clock_reads self') ch = Some (Raise e) ∧
        execution_history self'
        = execution_history Examples.idle_manager ++ sent ∧
        channel <$> sent = channel_name <$> List.filter recognized before
  | (Ok _, _) => False
  end.
Proof.
  assert (is_Ok (Channels.execute_campaign Examples.tick "cust_0042"
                   MoreExamples.contact_without_phone
                   MoreExamples.campaign_with_sms
                   Examples.idle_manager).1 = false)
    as Hraise by (vm_compute; reflexivity).
  destruct (Channels.execute_campaign Examples.tick "cust_0042"
              MoreExamples.contact_without_phone
              MoreExamples.campaign_with_sms Examples.idle_manager)
    as [[rs | e] self'] eqn:Hrun; [discriminate Hraise |].
  apply (failed_send_keeps_earlier_sends Examples.tick "cust_0042"
           MoreExamples.contact_without_phone MoreExamples.campaign_with_sms
           [VStr "email"; VStr "sms"; VStr "push"]
           Examples.idle_manager self' e eq_refl Hrun).
Defined.

Lemma whatsapp_sent_only_with_consent_witness :
  match Channels.execute_campaign Examples.tick "cust_0042"
          Examples.contact MoreExamples.campaign_with_whatsapp
          Examples.idle_manager with
  | (Ok rs, self') =>
      ∀ r, r ∈ rs → channel r = "whatsapp" →
           status r = "skipped" ∧ message_id r = "" ∧
           details r = <["reason" := VStr "No WhatsApp consent"]> ∅
  | (Raise _, _) => False
  end.
Proof.
  assert (is_Ok (Channels.execute_campaign Examples.tick "cust_0042"
                   Examples.contact MoreExamples.campaign_with_whatsapp
                   Examples.idle_manager).1 = true)
    as Hok by (vm_compute; reflexivity).
  destruct (Channels.execute_campaign Examples.tick "cust_0042"
              Examples.contact MoreExamples.campaign_with_whatsapp
              Examples.idle_manager)
    as [[rs | e] self'] eqn:Hrun; [| discriminate Hok].
  apply (whatsapp_sent_only_with_consent Examples.tick "cust_0042"
           Examples.contact MoreExamples.campaign_with_whatsapp
           [VStr "whatsapp"; VStr "email"]
           Examples.idle_manager self' rs eq_refl eq_refl Hrun).
Defined.

(** ** The masking of phone numbers *)

Lemma length_append (a b : string) :
  String.length (a +:+ b) = String.length a + String.length b.
Proof. induction a as [|c a IH]; simpl; [done | by rewrite IH]. Qed.

Lemma drop_split (n : nat) (s : string) :
  ∃ hidden, s = hidden +:+ Str.drop n s ∧
            String.length (Str.drop n s) = String.length s - n.
Proof.
  revert s. induction n as [|n IH]; intros s.
  - exists "". split; [done |]. destruct s; simpl; lia.
  - destruct s as [|c s]; [by exists "" |].
    destruct (IH s) as (hidden & Heq & Hlen).
    exists (String c hidden). split; [| done].
    change (String c s = String c (hidden +:+ Str.drop n s)). by f_equal.
Qed.

(** X16. send_sms returns for every ASCII phone and message string; the
    phone in its details has at most 7 characters: for a phone of more than
    four characters its last four followed by "***", and for a shorter one
    the phone itself. *)
Theorem sms_details_mask_phone (t_id t_stamp : instant)
    (customer_id phone message : string) :
  Str.is_ascii phone = true →
  Str.is_ascii message = true →
  ∃ r shown,
    send_sms t_id t_stamp customer_id (VStr phone) (VStr message) = Ok r ∧
    details r !! "phone" = Some (VStr shown) ∧
    String.length shown ≤ 7 ∧
    (4 < String.length phone →
     ∃ hidden last4,
       phone = hidden +:+ last4 ∧ String.length last4 = 4 ∧
       shown = last4 +:+ "***") ∧
    (String.length phone ≤ 4 → shown = phone).
Proof.
  intros _ _. unfold send_sms, masked_phone. cbn [py_len bind].
  destruct (drop_split (String.length phone - 4) phone)
    as (hidden & Heq & Hlen).
  fold (Str.last 4 phone) in Heq, Hlen.
  destruct (Nat.ltb_spec 4 (String.length phone)) as [Hlong | Hshort];
    cbn [bind]; eexists _, _; (split; [reflexivity |]);
    cbn [details]; (split; [reflexivity |]).
  - split; [rewrite length_append; simpl; lia |].
    split; [| lia]. intros _. exists hidden, (Str.last 4 phone).
    split; [done |]. split; [lia | done].
  - split; [lia |]. split; [lia | done].
Qed.

Lemma sms_details_mask_phone_witness :
  ∃ r shown,
    send_sms (Examples.tick 0) (Examples.tick 1) "cust_0042"
      (VStr "+15550100") (VStr "Your cart is waiting") = Ok r ∧
    details r !! "phone" = Some (VStr shown) ∧
    String.length shown ≤ 7 ∧
    (4 < String.length "+15550100" →
     ∃ hidden last4,
       "+15550100" = hidden +:+ last4 ∧ String.length last4 = 4 ∧
       shown = last4 +:+ "***") ∧
    (String.length "+15550100" ≤ 4 → shown = "+15550100").
Proof.
  apply (sms_details_mask_phone (Examples.tick 0) (Examples.tick 1)
           "cust_0042" "+15550100" "Your cart is waiting");
    reflexivity.
Defined.

End ChannelsExtraProofs.

(* ===================================================================== *)
(** * Properties of the decision log and of the win-back path *)
(* ===================================================================== *)

Module DecisionLogProofs.
Import Agent DecisionLog.

(** X17. For a limit [>= 0], get_decision_history returns the dicts of a
    suffix of the decision log, in the order of the log: the last
    [min(limit, length)] decisions for a positive limit, and the whole log
    for the limit 0. *)
Theorem decision_history_limit (decision_log : list AgentDecision)
    (limit : Z) :
  (0 ≤ limit)%Z →
  ∃ older recent,
    decision_log = older ++ recent ∧
    get_decision_history decision_log limit = to_dict <$> recent ∧
    length recent =
      (if (limit =? 0)%Z then length decision_log
       else Z.to_nat limit `min` length decision_log).
Proof.
  intros Hlimit. unfold get_decision_history, py_slice_from.
  destruct (Z.eqb_spec limit 0) as [-> | Hpos].
  - exists [], decision_log. by rewrite drop_0.
  - destruct (Z.leb_spec 0 (- limit)); [lia |].
    rewrite Z.opp_involutive.
    exists (take (length decision_log - Z.to_nat limit) decision_log),
           (drop (length decision_log - Z.to_nat limit) decision_log).
    split; [by rewrite take_drop |]. split; [done |].
    rewrite length_drop. lia.
Qed.

Lemma decision_history_limit_witness :
  ∃ older recent,
    MoreExamples.two_decisions = older ++ recent ∧
    get_decision_history MoreExamples.two_decisions 0 = to_dict <$> recent ∧
    length recent =
      (if (0 =? 0)%Z then length MoreExamples.two_decisions
       else Z.to_nat 0 `min` length MoreExamples.two_decisions).
Proof. apply (decision_history_limit MoreExamples.two_decisions 0). lia. Defined.

End DecisionLogProofs.

Module WinBackProofs.
Import Agent AbandonedCart WinBack AbandonedCartProofs OrderProofs.

(** The strategy of a customer value that is a number. *)
Lemma select_strategy_returns (customer_value : pyval) (x : xreal) :
  num_val customer_value = Some x →
  select_strategy customer_value
  = Ok (if x_ltb (XFin (1000 # 1)) x then personal_concierge
        else if x_ltb (XFin (300 # 1)) x then discount_plus_new_products
        else generic_incentive).
Proof.
  intros Hx. unfold select_strategy.
  rewrite !(py_gt_const customer_value x) by done.
  by destruct (x_ltb (XFin (1000 # 1)) x), (x_ltb (XFin (300 # 1)) x).
Qed.

Lemma x_ltb_trans (a b c : xreal) :
  x_ltb a b = true → x_ltb b c = true → x_ltb a c = true.
Proof.
  destruct a as [| |a|], b as [| |b|], c as [| |c|]; simpl; try done.
  rewrite !Qltb_lt. apply Qlt_trans.
Qed.

(** X18. For a customer who has been inactive for 90 days or more, with
    a customer value that is a number and an ASCII customer_id string,
    _handle_winback returns and appends the decision
    execute_winback_campaign with the strategy of the customer's segment:
    its discount code is "WB", the upper-cased last four characters of the
    id and the digit [(days // 30) % 10]; its discount is at most 20%; it
    requires human review only for the personal-concierge strategy; and of
    the channels of that strategy the dispatch knows "email" alone. *)
Theorem winback_offer (py_repr : pyval → string)
    (float_floordiv_mod : spec_float → pyval) (env : readings)
    (agent_input : AgentInput) (decision_log : list AgentDecision)
    (days : Z) (id : string) :
  dict_get (customer_data agent_input) "days_since_last_activity" (VInt 0)
    = VInt days →
  (90 ≤ days)%Z →
  is_Some (num_val (dict_get (customer_data agent_input) "customer_value"
                      (VInt 0))) →
  dict_get (customer_data agent_input) "customer_id" (VStr "X") = VStr id →
  Str.is_ascii id = true →
  ∃ d s,
    _handle_winback py_repr float_floordiv_mod env agent_input decision_log
      = Ok (d, decision_log ++ [d]) ∧
    select_strategy (dict_get (customer_data agent_input) "customer_value"
                       (VInt 0)) = Ok s ∧
    action d = "execute_winback_campaign" ∧
    parameters d !! "offer_type" = Some (VStr (offer_type s)) ∧
    parameters d !! "discount_percentage" = Some (VFloat (discount s)) ∧
    parameters d !! "channels" = Some (VList (VStr <$> channels s)) ∧
    parameters d !! "discount_code"
      = Some (VStr ("WB" +:+ Str.upper (Str.last 4 id) +:+
                    pretty ((days / 30) mod 10)%Z)) ∧
    F64.leb (discount s) (F64.dec 20 100) = true ∧
    (requires_human_review d = true → s = personal_concierge) ∧
    (s = personal_concierge →
     List.filter Channels.recognized (VStr <$> channels s) = [VStr "email"]).
Proof.
  intros Hdays Hold [x Hx] Hid _. unfold _handle_winback.
  rewrite Hdays, Hid.
  set (customer_value :=
         dict_get (customer_data agent_input) "customer_value" (VInt 0)) in *.
  assert (py_lt (VInt days) (VInt 90) = Ok false) as ->.
  { unfold py_lt, py_cmp. cbn [num_val x_ltb]. f_equal.
    apply not_true_iff_false. rewrite Qltb_lt. unfold Qlt. simpl. lia. }
  cbn [bind]. rewrite (select_strategy_returns customer_value x Hx).
  cbn [bind last4_upper inactivity_wave].
  rewrite (py_gt_const customer_value x) by done. cbn [bind py_str].
  eexists _, _. split; [reflexivity |]. split; [reflexivity |].
  cbn [_create_decision action parameters requires_human_review].
  split; [reflexivity |]. split; [reflexivity |]. split; [reflexivity |].
  split; [reflexivity |]. split; [reflexivity |].
  split; [| split].
  - by destruct (x_ltb (XFin (1000 # 1)) x), (x_ltb (XFin (300 # 1)) x);
      vm_compute.
  - intros Hreview.
    assert (x_ltb (XFin (1000 # 1)) x = true) as ->; [| done].
    by apply (x_ltb_trans _ (XFin (2000 # 1))).
  - intros ->. reflexivity.
Qed.

Lemma winback_offer_witness :
  ∃ d s,
    _handle_winback Examples.repr_unused MoreExamples.floordiv_unused
      Examples.readings_1 MoreExamples.dormant_vip_input []
      = Ok (d, [] ++ [d]) ∧
    select_strategy
      (dict_get (customer_data MoreExamples.dormant_vip_input)
         "customer_value" (VInt 0)) = Ok s ∧
    action d = "execute_winback_campaign" ∧
    parameters d !! "offer_type" = Some (VStr (offer_type s)) ∧
    parameters d !! "discount_percentage" = Some (VFloat (discount s)) ∧
    parameters d !! "channels" = Some (VList (VStr <$> channels s)) ∧
    parameters d !! "discount_code"
      = Some (VStr ("WB" +:+ Str.upper (Str.last 4 "cust_0042") +:+
                    pretty ((127 / 30) mod 10)%Z)) ∧
    F64.leb (discount s) (F64.dec 20 100) = true ∧
    (requires_human_review d = true → s = personal_concierge) ∧
    (s = personal_concierge →
     List.filter Channels.recognized (VStr <$> channels s) = [VStr "email"]).
Proof.
  apply (winback_offer Examples.repr_unused MoreExamples.floordiv_unused
           Examples.readings_1 MoreExamples.dormant_vip_input [] 127
           "cust_0042");
    [reflexivity | lia | vm_compute; eauto | reflexivity | reflexivity].
Defined.

End WinBackProofs.

(* ===================================================================== *)
(** * Properties of the pipeline *)
(* ===================================================================== *)

Module MainProofs.
Import Agent Guardrails GuardrailsProofs GuardrailsExtraProofs Main.
Import AuditProofs AuditExtraProofs.

Lemma dict_get_insert (d : pydict) (k : string) (v dflt : pyval) :
  dict_get (<[k := v]> d) k dflt = v.
Proof. unfold dict_get. by rewrite lookup_insert_eq. Qed.

Lemma dict_get_insert_ne (d : pydict) (k k' : string) (v dflt : pyval) :
  k' ≠ k → dict_get (<[k' := v]> d) k dflt = dict_get d k dflt.
Proof. intros Hne. unfold dict_get. by rewrite lookup_insert_ne. Qed.

Lemma dict_get_None (d : pydict) (k : string) (dflt : pyval) :
  d !! k = None → dict_get d k dflt = dflt.
Proof. intros Hk. unfold dict_get. by rewrite Hk. Qed.

(** A decision without copy is checked and sent with an empty text. *)
Lemma copy_get_None (parameters : pydict) (k : string) :
  parameters !! "copy" = None → copy_get parameters k = Ok (VStr "").
Proof.
  intros Hcopy. unfold copy_get. by rewrite (dict_get_None _ _ _ Hcopy).
Qed.

(** The email that the pipeline submits to the gate. *)
Abbreviation pipeline_email subject body :=
  (<["subject" := subject]>
  (<["body" := body]>
  (<["from_address" := VStr "noreply@yourbrand.com"]>
  (<["unsubscribe_link" := VStr "https://yourbrand.com/unsubscribe"]>
  (<["physical_address" := VStr "123 Main St, City, Country"]>
     (∅ : pydict)))))).

Lemma pipeline_email_passes_can_spam (subject body : pyval) :
  does_not_block (check_can_spam (pipeline_email subject body)) = true.
Proof.
  apply not_false_iff_true. rewrite can_spam_blocks.
  intros (e & He & Hfalsy). set_unfold in He.
  destruct He as [-> | [-> | [-> | []]]];
    (do 2 rewrite dict_get_insert_ne in Hfalsy by done);
    vm_compute in Hfalsy; discriminate Hfalsy.
Qed.

Lemma apply_guardrails_inv (py_repr : pyval → string)
    (customer_data : pydict) (decision : AgentDecision) (ok : bool)
    (results : gmap string GuardrailCheck) :
  _apply_guardrails py_repr customer_data decision = Ok (ok, results) →
  ∃ subject body,
    run_all_checks py_repr customer_data (pipeline_email subject body)
    = Ok (ok, results).
Proof.
  unfold _apply_guardrails.
  intros (subject & _ & (body & _ & Hrun)%bind_Ok)%bind_Ok. eauto.
Qed.

(** X19. Whenever _apply_guardrails returns, the gate is closed if and
    only if the customer's gdpr_consent is absent or falsy and the region,
    "EU" when absent, is "EU": the email that the pipeline submits always
    carries the three CAN-SPAM elements. *)
Theorem pipeline_gate_is_consent_gate (py_repr : pyval → string)
    (customer_data : pydict) (decision : AgentDecision) (ok : bool)
    (results : gmap string GuardrailCheck) :
  _apply_guardrails py_repr customer_data decision = Ok (ok, results) →
  ok = false ↔
  py_truthy (dict_get customer_data "gdpr_consent" (VBool false)) = false ∧
  dict_get customer_data "region" (VStr "EU") = VStr "EU".
Proof.
  intros (subject & body & Hrun)%apply_guardrails_inv.
  rewrite (compliance_blocks _ _ _ _ _ Hrun), gdpr_blocks.
  rewrite pipeline_email_passes_can_spam.
  split; [intros [H | H]; [done | discriminate H] | by left].
Qed.

Lemma pipeline_gate_is_consent_gate_witness :
  match _apply_guardrails Examples.repr_unused
          MoreExamples.refusing_small_cart MoreExamples.skip_decision with
  | Ok (ok, results) =>
      ok = false ↔
      py_truthy (dict_get MoreExamples.refusing_small_cart "gdpr_consent"
                   (VBool false)) = false ∧
      dict_get MoreExamples.refusing_small_cart "region" (VStr "EU")
      = VStr "EU"
  | Raise _ => False
  end.
Proof.
  assert (is_Ok (_apply_guardrails Examples.repr_unused
                   MoreExamples.refusing_small_cart
                   MoreExamples.skip_decision) = true)
    as Hok by (vm_compute; reflexivity).
  destruct (_apply_guardrails Examples.repr_unused
              MoreExamples.refusing_small_cart MoreExamples.skip_decision)
    as [[ok results] | e] eqn:Hrun; [| discriminate Hok].
  apply (pipeline_gate_is_consent_gate _ _ _ _ _ Hrun).
Defined.

(** X20. For a decision whose parameters hold no copy, the gate checks
    an empty subject and body: when _apply_guardrails returns, the spam
    check has passed, the tone check has failed with the score 0.8 and
    severity "error", and the personalization check has failed with
    severity "warning". *)
Theorem copyless_decision_fails_tone_checks (py_repr : pyval → string)
    (customer_data : pydict) (decision : AgentDecision) (ok : bool)
    (results : gmap string GuardrailCheck) :
  parameters decision !! "copy" = None →
  _apply_guardrails py_repr customer_data decision = Ok (ok, results) →
  ∃ spam tone personal,
    results !! "spam_score" = Some spam ∧ passed spam = VBool true ∧
    results !! "tone_consistency" = Some tone ∧
    passed tone = VBool false ∧ severity tone = "error" ∧
    details tone !! "consistency_score" = Some (VFloat (F64.dec 8 10)) ∧
    results !! "personalization" = Some personal ∧
    passed personal = VBool false ∧ severity personal = "warning".
Proof.
  intros Hcopy. unfold _apply_guardrails.
  rewrite (copy_get_None _ "subject" Hcopy), (copy_get_None _ "body" Hcopy).
  cbn [bind]. cbv zeta. unfold run_all_checks.
  rewrite (dict_get_insert_ne _ "body") by done.
  rewrite !dict_get_insert. cbn [py_str].
  intros (c1 & _ & H)%bind_Ok.
  apply bind_Ok in H as (c2 & H2 & H).
  apply bind_Ok in H as (c3 & _ & H).
  apply bind_Ok in H as (c4 & H4 & H).
  apply Ok_pair_inv in H as [_ ->].
  assert (passed c2 = VBool true) as Hspam.
  { vm_compute in H2. by rewrite <- (Ok_inv _ _ H2). }
  assert (passed c4 = VBool false ∧ severity c4 = "error" ∧
          details c4 !! "consistency_score" = Some (VFloat (F64.dec 8 10)))
    as (Htone & Hsev & Hscore).
  { vm_compute in H4. rewrite <- (Ok_inv _ _ H4). by vm_compute. }
  eexists c2, c4, _.
  split; [by do 5 (rewrite lookup_insert_ne by discriminate);
             rewrite lookup_insert_eq |].
  split; [exact Hspam |].
  split; [by rewrite lookup_insert_ne by discriminate;
             rewrite lookup_insert_eq |].
  split; [exact Htone |]. split; [exact Hsev |]. split; [exact Hscore |].
  split; [by rewrite lookup_insert_eq |].
  vm_compute. by split.
Qed.

Lemma copyless_decision_fails_tone_checks_witness :
  match _apply_guardrails Examples.repr_unused
          MoreExamples.consenting_small_cart MoreExamples.skip_decision with
  | Ok (ok, results) =>
      ∃ spam tone personal,
        results !! "spam_score" = Some spam ∧ passed spam = VBool true ∧
        results !! "tone_consistency" = Some tone ∧
        passed tone = VBool false ∧ severity tone = "error" ∧
        details tone !! "consistency_score" = Some (VFloat (F64.dec 8 10)) ∧
        results !! "personalization" = Some personal ∧
        passed personal = VBool false ∧ severity personal = "warning"
  | Raise _ => False
  end.
Proof.
  assert (is_Ok (_apply_guardrails Examples.repr_unused
                   MoreExamples.consenting_small_cart
                   MoreExamples.skip_decision) = true)
    as Hok by (vm_compute; reflexivity).
  destruct (_apply_guardrails Examples.repr_unused
              MoreExamples.consenting_small_cart MoreExamples.skip_decision)
    as [[ok results] | e] eqn:Hrun; [| discriminate Hok].
  apply (copyless_decision_fails_tone_checks Examples.repr_unused
           MoreExamples.consenting_small_cart MoreExamples.skip_decision
           ok results eq_refl Hrun).
Defined.

Section Pipeline.
Variable py_repr : pyval → string.
Variable float_floordiv_mod : spec_float → pyval.
Variable env : readings.
Variable uniform : nat → spec_float.
Variable clock : nat → Channels.instant.
Variable logged_at : string.
Variables lifecycle_decide campaign_decide : AgentInput → result AgentDecision.

Abbreviation get_decision :=
  (_get_agent_decision py_repr float_floordiv_mod env uniform
     lifecycle_decide campaign_decide).
Abbreviation process :=
  (process_customer py_repr float_floordiv_mod env uniform clock logged_at
     lifecycle_decide campaign_decide).

Lemma blank_email_sent (customer_id : string) (customer_data : pydict)
    (decision : AgentDecision) (self : Channels.manager) :
  parameters decision !! "copy" = None →
  parameters decision !! "channels" = None →
  _execute_decision clock customer_id customer_data decision self
  = (Ok [PipelineShapes.blank_email clock customer_id customer_data (Channels.clock_reads self)],
     {| Channels.execution_history :=
          Channels.execution_history self
          ++ [PipelineShapes.blank_email clock customer_id customer_data
                (Channels.clock_reads self)];
        Channels.clock_reads := Channels.clock_reads self + 2 |}).
Proof.
  intros Hcopy Hchannels. unfold _execute_decision.
  rewrite !(copy_get_None _ _ Hcopy), (dict_get_None _ _ _ Hchannels).
  unfold Channels.execute_campaign. rewrite dict_get_insert.
  cbn [Channels.py_iter Channels.campaign_loop].
  unfold Channels.send_to. cbn [py_eq_str String.eqb Ascii.eqb Bool.eqb].
  rewrite !dict_get_insert_ne, !dict_get_insert by done.
  reflexivity.
Qed.

(** The decision for a trigger that names a cart is made by the
    cart-recovery path. *)
Lemma cart_trigger_decision (customer_id : string) (customer_data : pydict)
    (trigger : string) (self : system) :
  select_agent trigger = WinBackAgent →
  get_decision customer_id customer_data trigger self
  = match AbandonedCart._handle_abandoned_cart py_repr env
            {| Agent.customer_id := customer_id;
               Agent.customer_data := customer_data;
               Agent.context := <["trigger" := VStr trigger]> ∅ |}
            (winback_log self) with
    | Ok (d, log) =>
        (Ok d, {| winback_log := log; creative_log := creative_log self;
                  execution := execution self;
                  audit_log := audit_log self |})
    | Raise e => (Raise e, self)
    end.
Proof.
  intros Hagent. unfold _get_agent_decision. rewrite Hagent.
  unfold WinBack.decide. cbn [Agent.context].
  by rewrite dict_get_insert_ne, (dict_get_None ∅) by done.
Qed.

Lemma cart_decision_actions (agent_input : AgentInput)
    (decision_log log : list AgentDecision) (d : AgentDecision) :
  AbandonedCart._handle_abandoned_cart py_repr env agent_input decision_log
    = Ok (d, log) →
  (action d = "skip_cart_recovery" ∨ action d = "send_cart_recovery_email") ∧
  decision_customer_id d = Agent.customer_id agent_input ∧
  decision_id d = uuid4 env ∧
  log = decision_log ++ [d].
Proof.
  unfold AbandonedCart._handle_abandoned_cart.
  intros ([] & _ & H)%bind_Ok.
  - apply Ok_pair_inv in H as [-> ->]. by split; [left |].
  - apply bind_Ok in H as (i & _ & H). apply bind_Ok in H as (sfx & _ & H).
    apply bind_Ok in H as (top & _ & H). apply bind_Ok in H as (hv & _ & H).
    apply Ok_pair_inv in H as [-> ->]. by split; [right |].
Qed.

Lemma cart_decision_parameters (agent_input : AgentInput)
    (decision_log log : list AgentDecision) (d : AgentDecision) :
  AbandonedCart._handle_abandoned_cart py_repr env agent_input decision_log
    = Ok (d, log) →
  parameters d !! "copy" = None ∧ parameters d !! "channels" = None.
Proof.
  unfold AbandonedCart._handle_abandoned_cart.
  intros ([] & _ & H)%bind_Ok.
  - by apply Ok_pair_inv in H as [-> _].
  - apply bind_Ok in H as (i & _ & H). apply bind_Ok in H as (sfx & _ & H).
    apply bind_Ok in H as (top & _ & H). apply bind_Ok in H as (hv & _ & H).
    apply Ok_pair_inv in H as [-> _]. cbn [_create_decision parameters].
    by split; repeat (rewrite lookup_insert_ne by discriminate).
Qed.

(** The decision for a trigger that names a test is made without the
    volume that a test needs. *)
Lemma creative_trigger_decision (customer_id : string) (customer_data : pydict)
    (trigger : string) (self : system) :
  select_agent trigger = CreativeAgent →
  ∃ d,
    get_decision customer_id customer_data trigger self
    = (Ok d, {| winback_log := winback_log self;
                creative_log := creative_log self ++ [d];
                execution := execution self;
                audit_log := audit_log self |}) ∧
    action d = "skip_test" ∧
    decision_customer_id d = customer_id ∧
    decision_id d = uuid4 env ∧
    parameters d
    = <["reason" :=
          VStr "Campaign volume too low for statistical significance"]> ∅.
Proof.
  intros Hagent. unfold _get_agent_decision. rewrite Hagent.
  unfold CreativeDecision.decide, CreativeDecision._check_test_eligibility.
  cbn [Agent.context].
  rewrite (dict_get_insert_ne ∅ "expected_volume"), (dict_get_None ∅) by done.
  change (py_lt (VInt 0) (VInt 1000)) with (Ok (A:=bool) true).
  cbn [bind CreativeDecision.eligible negb CreativeDecision.reason].
  eexists. split; [reflexivity |]. by cbn.
Qed.

(** X21. A decision that _get_agent_decision obtains from the win-back
    agent is skip_cart_recovery or send_cart_recovery_email, never a
    win-back decision, and one obtained from the creative agent is
    skip_test, never a launched test: the context that the pipeline builds
    holds the trigger alone. The decision is made for the customer of the
    trigger and appended to the log of its agent. *)
Theorem pipeline_reaches_neither_winback_nor_test (customer_id : string)
    (customer_data : pydict) (trigger : string) (self self' : system)
    (d : AgentDecision) :
  get_decision customer_id customer_data trigger self = (Ok d, self') →
  (select_agent trigger = WinBackAgent →
   (action d = "skip_cart_recovery" ∨
    action d = "send_cart_recovery_email") ∧
   decision_customer_id d = customer_id ∧
   winback_log self' = winback_log self ++ [d]) ∧
  (select_agent trigger = CreativeAgent →
   action d = "skip_test" ∧
   decision_customer_id d = customer_id ∧
   creative_log self' = creative_log self ++ [d]).
Proof.
  intros Hdec. split; intros Hagent.
  - rewrite cart_trigger_decision in Hdec by done.
    destruct (AbandonedCart._handle_abandoned_cart _ _ _ _)
      as [[d' log] | e] eqn:Hcart; [| done].
    injection Hdec as -> <-. cbn [winback_log].
    by apply cart_decision_actions in Hcart as (? & ? & _ & ?).
  - destruct (creative_trigger_decision customer_id customer_data trigger
                self Hagent) as (d' & Hd' & Haction & Hid & _).
    rewrite Hd' in Hdec. by injection Hdec as <- <-.
Qed.


(** X23. For a trigger that names a cart, a customer with consent and a
    cart value below 20, process_customer returns with the decision
    skip_cart_recovery and an open gate, and still dispatches: one email
    with an empty subject and a body of length 0 is sent and recorded in
    the execution history, and one entry is appended to the audit
    ledger. *)
Theorem skipped_cart_recovery_is_emailed (customer_id : string)
    (customer_data : pydict) (trigger : string) (self : system) :
  select_agent trigger = WinBackAgent →
  py_lt (dict_get customer_data "cart_value" (VInt 0)) (VInt 20) = Ok true →
  py_truthy (dict_get customer_data "gdpr_consent" (VBool false)) = true →
  is_Some (num_val (dict_get customer_data "emails_this_week" (VInt 0))) →
  is_Some (num_val (dict_get customer_data "engagement_score" (VInt 0))) →
  (∃ s, dict_get customer_data "email_type" (VStr "marketing") = VStr s) →
  ∃ o self',
    process customer_id customer_data trigger self = (Ok o, self') ∧
    decision o !! "action" = Some (VStr "skip_cart_recovery") ∧
    guardrails_passed o = true ∧
    execution_results o
    = Some [result_dict
              (PipelineShapes.blank_email clock customer_id customer_data
                 (Channels.clock_reads (execution self)))] ∧
    Channels.execution_history (execution self')
    = Channels.execution_history (execution self)
      ++ [PipelineShapes.blank_email clock customer_id customer_data
            (Channels.clock_reads (execution self))] ∧
    length (audit_log self') = S (length (audit_log self)).
Proof.
  intros Hagent Hlow Hconsent Hweek Hengagement Htype.
  unfold process_customer. rewrite cart_trigger_decision by done.
  unfold AbandonedCart._handle_abandoned_cart.
  cbn [Agent.customer_data Agent.customer_id]. rewrite Hlow. cbn [bind].
  unfold _create_decision.
  set (d := {| decision_id := uuid4 env; action := "skip_cart_recovery" |}).
  assert (parameters d !! "copy" = None) as Hcopy by done.
  assert (parameters d !! "channels" = None) as Hchannels by done.
  assert (∃ results, _apply_guardrails py_repr customer_data d
                     = Ok (true, results)) as [results Hgate].
  { unfold _apply_guardrails.
    rewrite (copy_get_None _ "subject" Hcopy), (copy_get_None _ "body" Hcopy).
    cbn [bind]. cbv zeta.
    destruct (run_all_checks_returns py_repr customer_data
                (pipeline_email (VStr "") (VStr "")) Hweek Hengagement Htype)
      as [[ok results] Hrun].
    { exists "". by rewrite dict_get_insert. }
    exists results. rewrite Hrun. f_equal. f_equal.
    apply not_false_iff_true.
    rewrite (compliance_blocks _ _ _ _ _ Hrun), gdpr_blocks.
    rewrite pipeline_email_passes_can_spam, Hconsent.
    by intros [[? _] | ?]. }
  rewrite Hgate.
  assert (is_executed true d = true) as -> by done.
  rewrite (blank_email_sent _ _ d _ Hcopy Hchannels).
  cbn [Audit.log_decision snd winback_log creative_log execution audit_log].
  eexists _, _. split; [reflexivity |].
  cbn [decision guardrails_passed execution_results execution audit_log
       Channels.execution_history fmap list_fmap].
  split; [done |]. split; [done |]. split; [done |]. split; [done |].
  rewrite length_app. simpl. lia.
Qed.

(** The decisions of the two modelled agents are executed behind an open
    gate, and name neither copy nor channels. *)
Lemma modelled_decision_shape (customer_id : string) (customer_data : pydict)
    (trigger : string) (self self1 : system) (d : AgentDecision) :
  select_agent trigger = WinBackAgent ∨ select_agent trigger = CreativeAgent →
  get_decision customer_id customer_data trigger self = (Ok d, self1) →
  is_executed true d = true ∧
  parameters d !! "copy" = None ∧ parameters d !! "channels" = None ∧
  execution self1 = execution self.
Proof.
  intros [Hagent | Hagent] Hdec.
  - rewrite cart_trigger_decision in Hdec by done.
    destruct (AbandonedCart._handle_abandoned_cart _ _ _ _)
      as [[d' log] | e] eqn:Hcart; [| done].
    injection Hdec as -> <-.
    pose proof (cart_decision_parameters _ _ _ _ Hcart) as [Hcopy Hchannels].
    apply cart_decision_actions in Hcart as (Haction & _).
    split; [| done]. unfold is_executed. by destruct Haction as [-> | ->].
  - destruct (creative_trigger_decision customer_id customer_data trigger
                self Hagent) as (d' & Hd' & Haction & _ & _ & Hreason).
    rewrite Hd' in Hdec. injection Hdec as <- <-.
    split; [unfold is_executed; by rewrite Haction |].
    by rewrite Hreason.
Qed.

(** X26. Whenever process_customer returns with an open gate for a
    trigger routed to the win-back agent or to the creative agent, exactly
    one email was dispatched, with an empty subject and a body of length
    0, and recorded in the execution history: the parameters of these
    decisions (discount code, items, reason) name neither copy nor
    channels and do not reach the message. *)
Theorem modelled_decisions_send_blank_email (customer_id : string)
    (customer_data : pydict) (trigger : string) (self self' : system)
    (o : outcome) :
  select_agent trigger = WinBackAgent ∨ select_agent trigger = CreativeAgent →
  process customer_id customer_data trigger self = (Ok o, self') →
  guardrails_passed o = true →
  execution_results o
  = Some [result_dict
            (PipelineShapes.blank_email clock customer_id customer_data
               (Channels.clock_reads (execution self)))] ∧
  Channels.execution_history (execution self')
  = Channels.execution_history (execution self)
    ++ [PipelineShapes.blank_email clock customer_id customer_data
          (Channels.clock_reads (execution self))].
Proof.
  intros Hagent Hprocess Hpass. unfold process_customer in Hprocess.
  destruct (get_decision customer_id customer_data trigger self)
    as [[d | e] self1] eqn:Hdec; [| done].
  destruct (modelled_decision_shape _ _ _ _ _ _ Hagent Hdec)
    as (Hexecuted & Hcopy & Hchannels & Hexecution).
  destruct (_apply_guardrails py_repr customer_data d)
    as [[ok results] | e] eqn:Hgate; [| done].
  destruct ok.
  - rewrite Hexecuted, (blank_email_sent _ _ d _ Hcopy Hchannels), Hexecution
      in Hprocess.
    by injection Hprocess as <- <-.
  - cbn [is_executed andb] in Hprocess. injection Hprocess as <- _.
    discriminate Hpass.
Qed.

(** The customer and the id of a decision of the two modelled agents. *)
Lemma modelled_decision_ids (customer_id : string) (customer_data : pydict)
    (trigger : string) (self self1 : system) (d : AgentDecision) :
  select_agent trigger = WinBackAgent ∨ select_agent trigger = CreativeAgent →
  get_decision customer_id customer_data trigger self = (Ok d, self1) →
  decision_customer_id d = customer_id ∧ decision_id d = uuid4 env ∧
  audit_log self1 = audit_log self.
Proof.
  intros [Hagent | Hagent] Hdec.
  - rewrite cart_trigger_decision in Hdec by done.
    destruct (AbandonedCart._handle_abandoned_cart _ _ _ _)
      as [[d' log] | e] eqn:Hcart; [| done].
    injection Hdec as -> <-.
    by apply cart_decision_actions in Hcart as (_ & ? & ? & _).
  - destruct (creative_trigger_decision customer_id customer_data trigger
                self Hagent) as (d' & Hd' & _ & ? & ? & _).
    rewrite Hd' in Hdec. by injection Hdec as <- <-.
Qed.

(** X27. Whenever process_customer returns for a trigger routed to the
    win-back agent or to the creative agent, for a customer id that is not
    empty and a ledger whose entries carry timestamps, one entry was
    appended to the ledger, with the customer id of the call, the id of
    the decision and the reading of the clock, and get_audit_history for
    that customer, with the length of the ledger as limit, returns a
    history that holds this entry. *)
Theorem processed_decision_is_in_customer_history (customer_id : string)
    (customer_data : pydict) (trigger : string) (self self' : system)
    (o : outcome) :
  select_agent trigger = WinBackAgent ∨ select_agent trigger = CreativeAgent →
  customer_id ≠ "" →
  Forall Audit.has_timestamp (audit_log self) →
  process customer_id customer_data trigger self = (Ok o, self') →
  ∃ entry h,
    audit_log self' = audit_log self ++ [entry] ∧
    entry !! "customer_id" = Some (VStr customer_id) ∧
    entry !! "decision_id" = Some (VStr (uuid4 env)) ∧
    entry !! "timestamp" = Some (VStr (logged_at +:+ "Z")) ∧
    Audit.get_audit_history (audit_log self') (Some customer_id)
      (Z.of_nat (length (audit_log self'))) = Ok h ∧
    entry ∈ h.
Proof.
  intros Hagent Hid Hstamped Hprocess. unfold process_customer in Hprocess.
  destruct (get_decision customer_id customer_data trigger self)
    as [[d | e] self1] eqn:Hdec; [| done].
  destruct (modelled_decision_ids _ _ _ _ _ _ Hagent Hdec)
    as (Hcustomer & Hdecision & Hledger).
  destruct (_apply_guardrails py_repr customer_data d)
    as [[ok results] | e] eqn:Hgate; [| done].
  destruct (if is_executed ok d
            then _execute_decision clock customer_id customer_data d
                   (execution self1)
            else (Ok [], execution self1)) as [[rs | e] manager]; [| done].
  injection Hprocess as _ <-. cbn [audit_log Audit.log_decision snd].
  rewrite Hledger.
  set (entry := Audit.decision_entry _ _ _ _).
  assert (entry !! "customer_id" = Some (VStr customer_id)) as Hentry.
  { unfold entry, Audit.decision_entry.
    do 3 (rewrite lookup_insert_ne by discriminate). rewrite lookup_insert_eq.
    by rewrite <- Hcustomer. }
  assert (entry !! "decision_id" = Some (VStr (uuid4 env))) as Hentry_id.
  { unfold entry, Audit.decision_entry.
    rewrite lookup_insert_ne by discriminate. rewrite lookup_insert_eq.
    by rewrite <- Hdecision. }
  assert (entry !! "timestamp" = Some (VStr (logged_at +:+ "Z"))) as Hstamp.
  { unfold entry, Audit.decision_entry. by rewrite lookup_insert_eq. }
  set (ledger := audit_log self ++ [entry]).
  assert (Forall Audit.has_timestamp ledger) as Hall.
  { apply Forall_app_2; [done |]. apply Forall_singleton. by eexists. }
  assert (Forall Audit.has_timestamp
            (Audit.select_history ledger (Some customer_id))) as Hselected.
  { unfold Audit.select_history.
    destruct (negb (String.eqb customer_id "")); [| done].
    rewrite Forall_forall in Hall |- *. intros e He. apply Hall.
    apply list_elem_of_In, filter_In in He as [He _].
    by apply list_elem_of_In. }
  exists entry. unfold Audit.get_audit_history.
  rewrite (keyed_history _ Hselected). cbn [bind].
  destruct (sorted_history (Audit.select_history ledger (Some customer_id)))
    as [Hperm _].
  set (full := (sorted_desc _ _).*2) in *.
  assert (py_slice_to (Z.of_nat (length ledger)) full = full) as ->.
  { unfold py_slice_to. destruct (Z.leb_spec 0 (Z.of_nat (length ledger)));
      [| lia].
    rewrite Nat2Z.id. apply take_ge. rewrite (Permutation_length Hperm).
    apply select_history_length. }
  exists full. split; [done |]. split; [done |]. split; [done |].
  split; [done |]. split; [done |].
  rewrite Hperm. unfold Audit.select_history.
  assert (String.eqb customer_id "" = false) as -> by by apply String.eqb_neq.
  cbn [negb]. apply list_elem_of_In, filter_In. split.
  - apply list_elem_of_In, elem_of_app. right. by left.
  - unfold py_eq_str, dict_get. rewrite Hentry. simpl. by apply String.eqb_eq.
Qed.

End Pipeline.

Lemma processed_decision_is_in_customer_history_witness :
  match process_customer Examples.repr_unused MoreExamples.floordiv_unused
          Examples.readings_1 Examples.equal_scores Examples.tick
          "2024-01-01T12:00:01.000001"
          MoreExamples.undecided MoreExamples.undecided
          "cust_0042" MoreExamples.consenting_large_cart "cart_abandoned"
          MoreExamples.idle_system with
  | (Ok o, self') =>
      ∃ entry h,
        audit_log self' = audit_log MoreExamples.idle_system ++ [entry] ∧
        entry !! "customer_id" = Some (VStr "cust_0042") ∧
        entry !! "decision_id" = Some (VStr (uuid4 Examples.readings_1)) ∧
        entry !! "timestamp"
        = Some (VStr ("2024-01-01T12:00:01.000001" +:+ "Z")) ∧
        Audit.get_audit_history (audit_log self') (Some "cust_0042")
          (Z.of_nat (length (audit_log self'))) = Ok h ∧
        entry ∈ h
  | (Raise _, _) => False
  end.
Proof.
  assert (is_Ok (process_customer Examples.repr_unused
                   MoreExamples.floordiv_unused Examples.readings_1
                   Examples.equal_scores Examples.tick
                   "2024-01-01T12:00:01.000001"
                   MoreExamples.undecided MoreExamples.undecided
                   "cust_0042" MoreExamples.consenting_large_cart
                   "cart_abandoned" MoreExamples.idle_system).1 = true)
    as Hok by (vm_compute; reflexivity).
  destruct (process_customer Examples.repr_unused
              MoreExamples.floordiv_unused Examples.readings_1
              Examples.equal_scores Examples.tick
              "2024-01-01T12:00:01.000001"
              MoreExamples.undecided MoreExamples.undecided
              "cust_0042" MoreExamples.consenting_large_cart
              "cart_abandoned" MoreExamples.idle_system)
    as [[o | e] self'] eqn:Hprocess; [| discriminate Hok].
  apply (processed_decision_is_in_customer_history Examples.repr_unused
           MoreExamples.floordiv_unused Examples.readings_1
           Examples.equal_scores Examples.tick "2024-01-01T12:00:01.000001"
           MoreExamples.undecided MoreExamples.undecided
           "cust_0042" MoreExamples.consenting_large_cart "cart_abandoned"
           MoreExamples.idle_system self' o (or_introl eq_refl));
    [discriminate | apply Forall_nil_2 | exact Hprocess].
Defined.

Lemma modelled_decisions_send_blank_email_witness :
  match process_customer Examples.repr_unused MoreExamples.floordiv_unused
          Examples.readings_1 Examples.equal_scores Examples.tick
          "2024-01-01T12:00:01.000001"
          MoreExamples.undecided MoreExamples.undecided
          "cust_0042" MoreExamples.consenting_large_cart "cart_abandoned"
          MoreExamples.idle_system with
  | (Ok o, self') =>
      execution_results o
      = Some [result_dict
                (PipelineShapes.blank_email Examples.tick "cust_0042"
                   MoreExamples.consenting_large_cart
                   (Channels.clock_reads
                      (execution MoreExamples.idle_system)))] ∧
      Channels.execution_history (execution self')
      = Channels.execution_history (execution MoreExamples.idle_system)
        ++ [PipelineShapes.blank_email Examples.tick "cust_0042"
              MoreExamples.consenting_large_cart
              (Channels.clock_reads (execution MoreExamples.idle_system))]
  | (Raise _, _) => False
  end.
Proof.
  assert (is_Ok (process_customer Examples.repr_unused
                   MoreExamples.floordiv_unused Examples.readings_1
                   Examples.equal_scores Examples.tick
                   "2024-01-01T12:00:01.000001"
                   MoreExamples.undecided MoreExamples.undecided
                   "cust_0042" MoreExamples.consenting_large_cart
                   "cart_abandoned" MoreExamples.idle_system).1 = true)
    as Hok by (vm_compute; reflexivity).
  assert (match (process_customer Examples.repr_unused
                   MoreExamples.floordiv_unused Examples.readings_1
                   Examples.equal_scores Examples.tick
                   "2024-01-01T12:00:01.000001"
                   MoreExamples.undecided MoreExamples.undecided
                   "cust_0042" MoreExamples.consenting_large_cart
                   "cart_abandoned" MoreExamples.idle_system).1 with
          | Ok o => guardrails_passed o
          | Raise _ => false
          end = true)
    as Hpass by (vm_compute; reflexivity).
  destruct (process_customer Examples.repr_unused
              MoreExamples.floordiv_unused Examples.readings_1
              Examples.equal_scores Examples.tick
              "2024-01-01T12:00:01.000001"
              MoreExamples.undecided MoreExamples.undecided
              "cust_0042" MoreExamples.consenting_large_cart
              "cart_abandoned" MoreExamples.idle_system)
    as [[o | e] self'] eqn:Hprocess; [| discriminate Hok].
  apply (modelled_decisions_send_blank_email Examples.repr_unused
           MoreExamples.floordiv_unused Examples.readings_1
           Examples.equal_scores Examples.tick "2024-01-01T12:00:01.000001"
           MoreExamples.undecided MoreExamples.undecided
           "cust_0042" MoreExamples.consenting_large_cart "cart_abandoned"
           MoreExamples.idle_system self' o (or_introl eq_refl) Hprocess
           Hpass).
Defined.

Lemma pipeline_reaches_neither_winback_nor_test_witness :
  (select_agent "cart_abandoned" = WinBackAgent →
   (action MoreExamples.skip_decision = "skip_cart_recovery" ∨
    action MoreExamples.skip_decision = "send_cart_recovery_email") ∧
   decision_customer_id MoreExamples.skip_decision = "cust_0042" ∧
   winback_log MoreExamples.system_after_skip
   = winback_log MoreExamples.idle_system ++ [MoreExamples.skip_decision]) ∧
  (select_agent "cart_abandoned" = CreativeAgent →
   action MoreExamples.skip_decision = "skip_test" ∧
   decision_customer_id MoreExamples.skip_decision = "cust_0042" ∧
   creative_log MoreExamples.system_after_skip
   = creative_log MoreExamples.idle_system ++ [MoreExamples.skip_decision]).
Proof.
  apply (pipeline_reaches_neither_winback_nor_test Examples.repr_unused
           MoreExamples.floordiv_unused Examples.readings_1
           Examples.equal_scores MoreExamples.undecided MoreExamples.undecided
           "cust_0042" MoreExamples.consenting_small_cart "cart_abandoned"
           MoreExamples.idle_system MoreExamples.system_after_skip
           MoreExamples.skip_decision).
  vm_compute. reflexivity.
Defined.


Lemma skipped_cart_recovery_is_emailed_witness :
  ∃ o self',
    process_customer Examples.repr_unused MoreExamples.floordiv_unused
      Examples.readings_1 Examples.equal_scores Examples.tick
      "2024-01-01T12:00:01.000001"
      MoreExamples.undecided MoreExamples.undecided
      "cust_0042" MoreExamples.consenting_small_cart "cart_abandoned"
      MoreExamples.idle_system = (Ok o, self') ∧
    decision o !! "action" = Some (VStr "skip_cart_recovery") ∧
    guardrails_passed o = true ∧
    execution_results o
    = Some [result_dict
              (PipelineShapes.blank_email Examples.tick "cust_0042"
                 MoreExamples.consenting_small_cart
                 (Channels.clock_reads (execution MoreExamples.idle_system)))]
    ∧
    Channels.execution_history (execution self')
    = Channels.execution_history (execution MoreExamples.idle_system)
      ++ [PipelineShapes.blank_email Examples.tick "cust_0042"
            MoreExamples.consenting_small_cart
            (Channels.clock_reads (execution MoreExamples.idle_system))] ∧
    length (audit_log self') = S (length (audit_log MoreExamples.idle_system)).
Proof.
  apply (skipped_cart_recovery_is_emailed Examples.repr_unused
           MoreExamples.floordiv_unused Examples.readings_1
           Examples.equal_scores Examples.tick "2024-01-01T12:00:01.000001"
           MoreExamples.undecided MoreExamples.undecided
           "cust_0042" MoreExamples.consenting_small_cart "cart_abandoned"
           MoreExamples.idle_system);
    [reflexivity | vm_compute; reflexivity | reflexivity
    | vm_compute; eauto | vm_compute; eauto | by eexists].
Defined.

End MainProofs.

(* ===================================================================== *)
(** * Properties of the entry of the creative agent *)
(* ===================================================================== *)

Module CreativeDecisionProofs.
Import Agent CreativeTesting CreativeDecision CreativeTestingExtraProofs
  OrderProofs.

(** X24. For an expected volume and a number of days since the last
    test that are numbers, and an original creative that is a dict,
    CreativeTestingAgent.decide returns and appends a decision that never
    requires human review; it is execute_creative_test exactly when the
    volume is not below 1000 and the days are not below 7, and skip_test
    otherwise; a launched test carries the allocation of the five
    creatives over 10000 samples and says so in its reasoning. *)
Theorem creative_test_launch_rule (env : readings)
    (uniform : nat → spec_float) (agent_input : AgentInput)
    (decision_log : list AgentDecision) (original_creative : pydict)
    (volume days : xreal) :
  num_val (dict_get (context agent_input) "expected_volume" (VInt 0))
    = Some volume →
  num_val (dict_get (context agent_input) "days_since_last_test" (VInt 999))
    = Some days →
  dict_get (context agent_input) "original_creative" (VDict ∅)
    = VDict original_creative →
  ∃ d,
    decide env uniform agent_input decision_log
      = Ok (d, decision_log ++ [d]) ∧
    requires_human_review d = false ∧
    (action d = "execute_creative_test" ∨ action d = "skip_test") ∧
    (action d = "execute_creative_test" ↔
     x_ltb volume (XFin (1000 # 1)) = false ∧
     x_ltb days (XFin (7 # 1)) = false) ∧
    (action d = "execute_creative_test" →
     reasoning d
     = "Launching creative test with 5 variations. Sample size: 10,000" ∧
     ∃ a, test_allocation uniform original_creative = Ok a ∧
          total_sample_size a = 10000%Z ∧
          parameters d !! "allocation" = Some (VDict (allocation_dict a))).
Proof.
  intros Hvolume Hdays Hcreative.
  unfold decide, _check_test_eligibility, py_lt, py_cmp.
  rewrite Hvolume, Hdays, Hcreative. cbn [num_val bind].
  destruct (x_ltb volume (XFin (1000 # 1))); cbn [bind eligible negb reason].
  { eexists. split; [reflexivity |]. cbn [_create_decision action
      requires_human_review]. split; [done |]. split; [by right |].
    split; [| done]. by split; [| intros [? _]]. }
  destruct (x_ltb days (XFin (7 # 1))); cbn [bind eligible negb reason].
  { eexists. split; [reflexivity |]. cbn [_create_decision action
      requires_human_review]. split; [done |]. split; [by right |].
    split; [| done]. by split; [| intros [_ ?]]. }
  destruct (ranking_of_five uniform original_creative) as (v & l & Hrank & Hl).
  rewrite Hrank, (design_five v l Hl). cbn [bind].
  eexists. split; [reflexivity |].
  cbn [_create_decision action requires_human_review reasoning parameters
       total_sample_size].
  split; [done |]. split; [by left |]. split; [done |]. intros _.
  split; [reflexivity |].
  eexists. unfold test_allocation. rewrite Hrank, (design_five v l Hl).
  split; [reflexivity |]. split; [reflexivity |]. reflexivity.
Qed.

Lemma creative_test_launch_rule_witness :
  ∃ d,
    decide Examples.readings_1 Examples.equal_scores
      MoreExamples.eligible_campaign_input [] = Ok (d, [] ++ [d]) ∧
    requires_human_review d = false ∧
    (action d = "execute_creative_test" ∨ action d = "skip_test") ∧
    (action d = "execute_creative_test" ↔
     x_ltb (XFin (5000 # 1)) (XFin (1000 # 1)) = false ∧
     x_ltb (XFin (30 # 1)) (XFin (7 # 1)) = false) ∧
    (action d = "execute_creative_test" →
     reasoning d
     = "Launching creative test with 5 variations. Sample size: 10,000" ∧
     ∃ a, test_allocation Examples.equal_scores ∅ = Ok a ∧
          total_sample_size a = 10000%Z ∧
          parameters d !! "allocation" = Some (VDict (allocation_dict a))).
Proof.
  apply (creative_test_launch_rule Examples.readings_1 Examples.equal_scores
           MoreExamples.eligible_campaign_input [] ∅
           (XFin (5000 # 1)) (XFin (30 # 1)));
    reflexivity.
Defined.

End CreativeDecisionProofs.

(* ===================================================================== *)
(** * Properties of the feedback loop *)
(* ===================================================================== *)

Module FeedbackProofs.
Import Audit AuditProofs Feedback.

Lemma filterM_is_of_agent (agent_name : string) (self : learnings) :
  Forall is_learning self →
  ∃ kept, filterM (is_of_agent agent_name) self = Ok kept ∧
          kept ⊆ self.
Proof.
  induction 1 as [|l self (now & a & d & o & ->) _ (kept & IH & Hsub)];
    [by exists [] |].
  cbn [filterM]. unfold is_of_agent at 1.
  assert (learning_entry now a d o !! "agent" = Some (VStr a)) as ->
    by done.
  cbn [bind]. rewrite IH. cbn [bind].
  destruct (py_eq_str (VStr a) agent_name); eexists; (split; [done |]).
  - by apply list_subseteq_skip.
  - by apply list_subseteq_cons.
Qed.

Lemma filterM_succeeded (ls : list pydict) :
  Forall is_learning ls →
  filterM succeeded ls = Ok (List.filter reports_success ls).
Proof.
  induction 1 as [|l ls (now & a & d & o & ->) _ IH]; [done |].
  cbn [filterM List.filter]. unfold succeeded at 1, reports_success at 1.
  assert (learning_entry now a d o !! "outcome" = Some (VDict o)) as ->
    by done.
  cbn [bind]. rewrite IH. cbn [bind].
  by destruct (py_truthy _).
Qed.

Lemma is_learning_has_timestamp (l : pydict) :
  is_learning l → has_timestamp l.
Proof. intros (now & a & d & o & ->). by eexists. Qed.

(** The rate of [s] successes out of [n <= 100] learnings compares with
    0.7 as the integers do. *)
Lemma rate_table :
  forallb (λ n, forallb (rate_agrees n) (seq 0 (S n))) (seq 1 100) = true.
Proof. vm_compute. reflexivity. Qed.

Lemma rate_above_70_percent (n s : nat) :
  0 < n ≤ 100 → s ≤ n →
  ∃ rate, Metrics.int_true_div (Z.of_nat s) (Z.of_nat n) = Ok rate ∧
          F64.ltb (F64.dec 7 10) rate = above_70_percent s n.
Proof.
  intros Hn Hs. pose proof rate_table as Htable.
  rewrite forallb_forall in Htable.
  specialize (Htable n). rewrite forallb_forall in Htable.
  assert (rate_agrees n s = true) as Hagree.
  { apply Htable; apply in_seq; lia. }
  unfold rate_agrees in Hagree.
  destruct (Metrics.int_true_div _ _) as [rate|]; [| done].
  exists rate. split; [done |]. by apply Bool.eqb_prop.
Qed.

(** X25. On learnings written by record_learning, generate_recommendation
    returns; it decides on the learnings that get_learnings_for_agent
    returns for the limit 100, which are learnings of the loop and at most
    100: it reports "Insufficient data" when there is none, and otherwise
    recommends to continue exactly when the successes among them are
    strictly more than 70% (a rate of exactly 70% recommends to adjust),
    the float comparison with 0.7 agreeing with the comparison of the
    integers. *)
Theorem recommendation_threshold (self : learnings) (agent_name : string) :
  Forall is_learning self →
  ∃ considered r,
    get_learnings_for_agent self agent_name 100 = Ok considered ∧
    generate_recommendation self agent_name = Ok r ∧
    length considered ≤ 100 ∧
    considered ⊆ self ∧
    r !! "recommendation"
    = Some (VStr
        match considered with
        | [] => "Insufficient data"
        | _ =>
            if above_70_percent
                 (length (List.filter reports_success considered))
                 (length considered)
            then "Current strategy is performing well. Continue."
            else "Adjust strategy. Success rate below 70%."
        end).
Proof.
  intros Hself. unfold generate_recommendation, get_learnings_for_agent.
  destruct (filterM_is_of_agent agent_name self Hself)
    as (kept & -> & Hsub).
  assert (Forall is_learning kept) as Hkept.
  { rewrite Forall_forall in Hself |- *. intros l Hl. apply Hself, Hsub, Hl. }
  cbn [bind]. rewrite keyed_history.
  2: { eapply Forall_impl; [exact Hkept |]. apply is_learning_has_timestamp. }
  cbn [bind].
  set (sorted := (sorted_desc _ _).*2).
  assert (sorted ≡ₚ kept) as Hperm.
  { unfold sorted. rewrite sorted_desc_Permutation, <- list_fmap_compose.
    by rewrite list_fmap_id. }
  assert (py_slice_to 100 sorted = take 100 sorted) as -> by done.
  set (considered := take 100 sorted).
  assert (length considered ≤ 100) as Hlen.
  { unfold considered. rewrite length_take. lia. }
  assert (considered ⊆ kept) as Hin.
  { intros l Hl. rewrite <- Hperm. by eapply subseteq_take. }
  assert (considered ⊆ self) as Hin_self.
  { intros l Hl. by apply Hsub, Hin. }
  assert (Forall is_learning considered) as Hconsidered.
  { rewrite Forall_forall in Hkept |- *. intros l Hl. by apply Hkept, Hin. }
  exists considered. clearbody considered. destruct considered as [|l0 ls].
  { eexists. split; [done |]. split; [done |]. by repeat split. }
  cbv beta iota. remember (l0 :: ls) as considered eqn:Hnew.
  rewrite (filterM_succeeded considered Hconsidered). cbn [bind].
  destruct (rate_above_70_percent (length considered)
              (length (List.filter reports_success considered)))
    as (rate & -> & Hrate).
  { rewrite Hnew in *. simpl in *. lia. }
  { clear. induction considered as [|x xs IH]; simpl; [done |].
    destruct (reports_success x); simpl; lia. }
  cbn [bind]. rewrite Hrate.
  destruct (above_70_percent _ _); eexists; (split; [done |]);
    (split; [reflexivity |]); (split; [done |]); (split; [done |]);
    reflexivity.
Qed.

Lemma recommendation_threshold_witness :
  ∃ considered r,
    get_learnings_for_agent MoreExamples.seven_of_ten "CampaignAgent" 100
      = Ok considered ∧
    generate_recommendation MoreExamples.seven_of_ten "CampaignAgent" = Ok r ∧
    length considered ≤ 100 ∧
    considered ⊆ MoreExamples.seven_of_ten ∧
    r !! "recommendation"
    = Some (VStr
        match considered with
        | [] => "Insufficient data"
        | _ =>
            if above_70_percent
                 (length (List.filter reports_success considered))
                 (length considered)
            then "Current strategy is performing well. Continue."
            else "Adjust strategy. Success rate below 70%."
        end).
Proof.
  apply (recommendation_threshold MoreExamples.seven_of_ten "CampaignAgent").
  unfold MoreExamples.seven_of_ten. cbn [seq foldr].
  unfold record_learning.
  repeat (apply Forall_app_2; [| apply Forall_singleton; by eexists _, _, _, _]).
  apply Forall_nil_2.
Defined.

End FeedbackProofs.
